(** * Resume analyzer: a shallow embedding of the scoring engine

    The development follows [utils.py], [industry_data.py], and of
    [app.py] the batch ranking loop and the scores of the analysis page.

    Conventions of the embedding:
    - a Python [str] is a [string] of 8-bit characters; [lower], [strip],
      [split] and the regular-expression classes act on the ASCII range,
      characters above 127 are carried unchanged (caseless, not space);
    - a Python [int] is a [Z], a [float] is an exact rational [Q]:
      binary64 rounding is idealised away, its range is kept where an
      [int] of any size is converted ([Py.float_of_int]);
    - a [dict] that is iterated in insertion order is an association list,
      a [set] of strings is a [gset string];
    - [re] patterns are values of [Regex.regex], run by a backtracking
      matcher that tries alternatives in the order Python does. *)

From Stdlib Require Import ZArith QArith Qround Ascii String DecimalString Bool
  Lia Lqa.
From stdpp Require Import base list strings gmap sorting.

Close Scope Q_scope.
Open Scope stdpp_scope.

(** ** Python string primitives *)
Module Py.

(** [str.isspace] on one character; also the class [\s] of [re]. *)
Definition is_space (c : ascii) : bool :=
  match c with
  | "009" | "010" | "011" | "012" | "013"
  | "028" | "029" | "030" | "031" | " " => true
  | _ => false
  end%char.

Definition is_upper (c : ascii) : bool :=
  let n := nat_of_ascii c in (65 <=? n)%nat && (n <=? 90)%nat.

Definition is_lower (c : ascii) : bool :=
  let n := nat_of_ascii c in (97 <=? n)%nat && (n <=? 122)%nat.

Definition is_digit (c : ascii) : bool :=
  let n := nat_of_ascii c in (48 <=? n)%nat && (n <=? 57)%nat.

Definition is_alpha (c : ascii) : bool := is_upper c || is_lower c.

(** The class [\w] of [re]. *)
Definition is_word (c : ascii) : bool :=
  is_alpha c || is_digit c || Ascii.eqb c "_".

Definition lower_char (c : ascii) : ascii :=
  if is_upper c then ascii_of_nat (nat_of_ascii c + 32) else c.

Definition upper_char (c : ascii) : ascii :=
  if is_lower c then ascii_of_nat (nat_of_ascii c - 32) else c.

(** [s.lower()] *)
Fixpoint lower (s : string) : string :=
  match s with
  | EmptyString => EmptyString
  | String c s' => String (lower_char c) (lower s')
  end.

(** [s.lstrip()], [s.rstrip()], [s.strip()] *)
Fixpoint lstrip (s : string) : string :=
  match s with
  | EmptyString => EmptyString
  | String c s' => if is_space c then lstrip s' else s
  end.

Fixpoint all_space (s : string) : bool :=
  match s with
  | EmptyString => true
  | String c s' => is_space c && all_space s'
  end.

Fixpoint rstrip (s : string) : string :=
  match s with
  | EmptyString => EmptyString
  | String c s' => if all_space s then EmptyString else String c (rstrip s')
  end.

Definition strip (s : string) : string := rstrip (lstrip s).

(** [s.startswith(p)] *)
Definition startswith (s p : string) : bool := String.prefix p s.

(** [p in s] *)
Fixpoint str_in (p s : string) : bool :=
  String.prefix p s ||
  match s with
  | EmptyString => false
  | String _ s' => str_in p s'
  end.

(** [s.endswith(p)] *)
Fixpoint endswith (s p : string) : bool :=
  String.eqb s p ||
  match s with
  | EmptyString => false
  | String _ s' => endswith s' p
  end.

(** [s.find(p)], [None] standing for -1. *)
Fixpoint find (p s : string) : option nat :=
  if String.prefix p s then Some 0%nat
  else match s with
       | EmptyString => None
       | String _ s' => S <$> find p s'
       end.

(** [s[i:j]] for non-negative [i] and [j]. *)
Definition slice (s : string) (i j : nat) : string :=
  String.substring i (j - i) s.

(** [s.split(sep)] for a non-empty separator: [skip] counts the
    characters of a separator still to be passed over, [cur] is the part
    being read, reversed. *)
Fixpoint split_go (sep : string) (skip : nat) (cur : string) (s : string)
  : list string :=
  match s with
  | EmptyString => [String.rev cur]
  | String c s' =>
      match skip with
      | S n => split_go sep n cur s'
      | O =>
          if String.prefix sep s
          then String.rev cur :: split_go sep (String.length sep - 1) EmptyString s'
          else split_go sep 0 (String c cur) s'
      end
  end.

Definition split (s sep : string) : list string := split_go sep 0 EmptyString s.

(** [s.split()]: the maximal runs of characters that are not space. *)
Fixpoint split_ws_go (cur : option string) (s : string) : list string :=
  match s with
  | EmptyString => option_list (String.rev <$> cur)
  | String c s' =>
      if is_space c
      then option_list (String.rev <$> cur) ++ split_ws_go None s'
      else split_ws_go (Some (String c (default EmptyString cur))) s'
  end.

Definition split_ws (s : string) : list string := split_ws_go None s.

(** [s.count(p)] for a non-empty [p]: occurrences that do not overlap. *)
Fixpoint count_go (p : string) (skip : nat) (s : string) : nat :=
  match s with
  | EmptyString => 0
  | String _ s' =>
      match skip with
      | S n => count_go p n s'
      | O => if String.prefix p s
             then S (count_go p (String.length p - 1) s')
             else count_go p 0 s'
      end
  end.

Definition count (s p : string) : nat := count_go p 0 s.

(** [s.title()]: a cased character is upper-cased when the one before it
    is not cased, lower-cased otherwise. *)
Fixpoint title_go (prev_cased : bool) (s : string) : string :=
  match s with
  | EmptyString => EmptyString
  | String c s' =>
      if is_alpha c
      then String (if prev_cased then lower_char c else upper_char c)
                  (title_go true s')
      else String c (title_go false s')
  end.

Definition title (s : string) : string := title_go false s.

(** [int(s)] on a string of decimal digits; [None] is [ValueError], which
    Python 3.11 also raises beyond [sys.int_max_str_digits = 4300] digits. *)
Fixpoint digits_go (acc : Z) (s : string) : option Z :=
  match s with
  | EmptyString => Some acc
  | String c s' =>
      if is_digit c
      then digits_go (10 * acc + Z.of_nat (nat_of_ascii c - 48)) s'
      else None
  end.

Definition int_of_digits (s : string) : option Z :=
  match s with
  | EmptyString => None
  | _ => if (4300 <? String.length s)%nat then None else digits_go 0 s
  end.

(** The conversion of an [int] operand of a float operation; [None] is the
    [OverflowError] of an integer that rounds beyond the largest binary64. *)
Definition float_of_int (n : Z) : option Q :=
  if (Z.abs n <? 2 ^ 1024 - 2 ^ 970)%Z then Some (inject_Z n) else None.

(** [round(x)] on a float: to the nearest integer, ties to the even one. *)
Definition round_half_even (x : Q) : Z :=
  let f := Qfloor x in
  let r := (x - inject_Z f)%Q in
  match (r ?= 1 # 2)%Q with
  | Lt => f
  | Gt => f + 1
  | Eq => if Z.even f then f else f + 1
  end.

(** [round(x, n)] for [n >= 0]. *)
Definition round_n (x : Q) (n : nat) : Q :=
  (inject_Z (round_half_even (x * inject_Z (10 ^ Z.of_nat n))) / inject_Z (10 ^ Z.of_nat n))%Q.

End Py.

(** ** The fragment of Python's [re] the engine uses *)
Module Regex.

Inductive regex : Type :=
| Chr (p : ascii → bool)                       (* one character in a class *)
| Eps
| Seq (r1 r2 : regex)
| Alt (r1 r2 : regex)                          (* [r1|r2], [r1] tried first *)
| Rep (greedy : bool) (lo : nat) (hi : option nat) (r : regex)
| Group (r : regex)                            (* the capturing group 1 *)
| Bol                                          (* [^] *)
| Eol                                          (* [$] *)
| WordB.                                       (* [\b] *)

(** A position in the subject: the character before it, its index and
    what is left to read. *)
Record cursor : Type := Cursor
  { before : option ascii; pos : nat; rest : string }.

Definition span : Type := (nat * nat)%type.

(** The end of a match and the span of group 1, if it took part. *)
Definition outcome : Type := (nat * option span)%type.

Definition cont : Type := cursor → option span → option outcome.

Definition below (n : nat) (hi : option nat) : bool :=
  match hi with
  | None => true
  | Some h => (n <? h)%nat
  end.

Definition word_before (c : cursor) : bool :=
  match before c with Some a => Py.is_word a | None => false end.

Definition word_after (c : cursor) : bool :=
  match rest c with String a _ => Py.is_word a | EmptyString => false end.

(** Backtracking matcher in continuation-passing style. A repetition
    runs its body at most once per character left, and an iteration
    has to move the cursor, which the one-character bodies used
    below always do. *)
Fixpoint run (r : regex) (k : cont) (c : cursor) (cap : option span)
  : option outcome :=
  match r with
  | Chr p =>
      match rest c with
      | String a s' =>
          if p a then k (Cursor (Some a) (S (pos c)) s') cap else None
      | EmptyString => None
      end
  | Eps => k c cap
  | Seq r1 r2 => run r1 (run r2 k) c cap
  | Alt r1 r2 =>
      match run r1 k c cap with
      | Some o => Some o
      | None => run r2 k c cap
      end
  | Rep greedy lo hi body =>
      (fix loop (fuel n : nat) (c : cursor) (cap : option span)
         : option outcome :=
         match fuel with
         | O => None
         | S fuel' =>
             let stop (_ : unit) :=
               if (lo <=? n)%nat then k c cap else None in
             let more (_ : unit) :=
               if below n hi
               then run body
                      (λ c' cap',
                        if (pos c' =? pos c)%nat then None
                        else loop fuel' (S n) c' cap') c cap
               else None in
             if greedy
             then match more () with Some o => Some o | None => stop () end
             else match stop () with Some o => Some o | None => more () end
         end) (S (String.length (rest c))) 0%nat c cap
  | Group body => run body (λ c' _, k c' (Some (pos c, pos c'))) c cap
  | Bol => if (pos c =? 0)%nat then k c cap else None
  | Eol =>
      match rest c with
      | EmptyString => k c cap
      | String "010"%char EmptyString => k c cap
      | _ => None
      end
  | WordB => if xorb (word_before c) (word_after c) then k c cap else None
  end.

Definition accept : cont := λ c cap, Some (pos c, cap).

(** One match: where it starts, where it ends, group 1. *)
Definition found : Type := (nat * nat * option span)%type.

(** Leftmost match at or after the cursor. *)
Fixpoint scan (r : regex) (b : option ascii) (i : nat) (s : string)
  : option found :=
  match run r accept (Cursor b i s) None with
  | Some (e, cap) => Some (i, e, cap)
  | None =>
      match s with
      | EmptyString => None
      | String a s' => scan r (Some a) (S i) s'
      end
  end.

(** [re.search(r, s)] *)
Definition search (r : regex) (s : string) : option found :=
  scan r None 0 s.

Definition group0 (s : string) (m : found) : string :=
  Py.slice s (m.1.1) (m.1.2).

(** [m.group(1)] for a pattern whose group 1 takes part in every match. *)
Definition group1 (s : string) (m : found) : string :=
  match m.2 with
  | Some (i, j) => Py.slice s i j
  | None => EmptyString
  end.

(** The subject from index [i] on, with the character before it. *)
Fixpoint seek (b : option ascii) (i : nat) (s : string)
  : option ascii * string :=
  match i, s with
  | S i', String a s' => seek (Some a) i' s'
  | _, _ => (b, s)
  end.

(** [re.findall(r, s)]: matches from left to right that do not overlap;
    after an empty match the scan resumes one character further. *)
Fixpoint findall_go (fuel : nat) (r : regex) (s : string) (i : nat)
  : list found :=
  match fuel with
  | O => []
  | S fuel' =>
      if (String.length s <? i)%nat then []
      else
        let '(b, t) := seek None i s in
        match scan r b i t with
        | Some (st, e, cap) =>
            (st, e, cap) :: findall_go fuel' r s (if (e =? st)%nat then S e else e)
        | None => []
        end
  end.

Definition findall (r : regex) (s : string) : list found :=
  findall_go (S (String.length s)) r s 0.

(** *** Pattern combinators *)

Definition chr (a : ascii) : regex := Chr (Ascii.eqb a).

(** A letter under [re.IGNORECASE]. *)
Definition ichr (a : ascii) : regex :=
  Chr (λ x, Ascii.eqb (Py.lower_char x) (Py.lower_char a)).

Fixpoint lit (s : string) : regex :=
  match s with
  | EmptyString => Eps
  | String a s' => Seq (chr a) (lit s')
  end.

Fixpoint ilit (s : string) : regex :=
  match s with
  | EmptyString => Eps
  | String a s' => Seq (ichr a) (ilit s')
  end.

Fixpoint alts (rs : list regex) : regex :=
  match rs with
  | [] => Rep true 1 (Some 0%nat) Eps     (* matches nothing *)
  | [r] => r
  | r :: rs' => Alt r (alts rs')
  end.

Fixpoint seqs (rs : list regex) : regex :=
  match rs with
  | [] => Eps
  | r :: rs' => Seq r (seqs rs')
  end.

Definition opt (r : regex) : regex := Rep true 0 (Some 1%nat) r.
Definition star (r : regex) : regex := Rep true 0 None r.
Definition plus (r : regex) : regex := Rep true 1 None r.
Definition lazy_plus (r : regex) : regex := Rep false 1 None r.
Definition times (n : nat) (r : regex) : regex := Rep true n (Some n) r.

Definition space : regex := Chr Py.is_space.              (* [\s] *)
Definition digit : regex := Chr Py.is_digit.              (* [\d] *)
Definition any : regex := Chr (λ x, negb (Ascii.eqb x "010")).  (* [.] *)

End Regex.

(** ** Reference tables of [industry_data.py] *)
Module IndustryData.

(** A literal [dict]: its items in insertion order. *)
Definition dict (V : Type) : Type := list (string * V).

(** [d.get(k)] *)
Fixpoint dict_get {V : Type} (d : dict V) (k : string) : option V :=
  match d with
  | [] => None
  | (k', v) :: d' => if String.eqb k k' then Some v else dict_get d' k
  end.

(** [k in d] *)
Definition dict_has {V : Type} (d : dict V) (k : string) : bool :=
  match dict_get d k with Some _ => true | None => false end.

(** [list(d.keys())] *)
Definition keys {V : Type} (d : dict V) : list string := fst <$> d.

(** The skill taxonomies are read through their keys only; the
    attributes of an entry (category, demand, growth) are never used by
    the functions below. *)
Definition TECHNICAL_SKILLS : list string :=
  [
    "Python"; "JavaScript"; "Java"; "TypeScript"; "SQL"; "C++"; "C#"; "Go";
    "Rust"; "React"; "Vue"; "Angular"; "HTML"; "CSS"; "Tailwind CSS";
    "Next.js"; "Node.js"; "Django"; "Flask"; "Spring Boot"; "FastAPI";
    "MongoDB"; "PostgreSQL"; "MySQL"; "Redis"; "AWS"; "Azure";
    "Google Cloud"; "Docker"; "Kubernetes"; "Terraform"; "Ansible";
    "Jenkins"; "GitLab"; "GitHub"; "Machine Learning"; "Deep Learning";
    "TensorFlow"; "PyTorch"; "LLM"; "Generative AI"; "Computer Vision";
    "NLP"; "Pandas"; "NumPy"; "Spark"; "Hadoop"; "Airflow"; "Kafka"; "dbt";
    "Git"; "REST API"; "GraphQL"; "Microservices"; "System Design";
    "Swift"; "Kotlin"; "Agile"; "iOS"; "Android"
  ].

Definition SOFT_SKILLS : list string :=
  [
    "Communication"; "Leadership"; "Problem Solving"; "Teamwork";
    "Project Management"; "Critical Thinking"; "Adaptability";
    "Creativity"; "Time Management"; "Mentoring"; "Negotiation";
    "Strategic Thinking"
  ].

Definition CREATIVE_SKILLS : list string :=
  [
    "Premiere Pro"; "After Effects"; "DaVinci Resolve"; "Final Cut Pro";
    "Video Editing"; "Motion Graphics"; "Color Grading"; "Photoshop";
    "Illustrator"; "Figma"; "Adobe XD"; "Canva"; "Graphic Design";
    "UI Design"; "UX Design"; "Content Writing"; "Copywriting"; "SEO";
    "Google Analytics"; "Social Media Marketing"; "Digital Marketing";
    "Email Marketing"; "Video Production"; "Cinematography";
    "Sound Design"; "3D Modeling"; "Blender"; "Documentation";
    "Technical Writing"
  ].

(** A salary band in thousands of dollars ([locations] is not read). *)
Record band : Type := Band { band_min : Z; band_avg : Z; band_max : Z }.

Definition INDUSTRY_SALARY_DATA : list (string * list (string * band)) :=
  [ ("Tech",
      [ ("Entry Level", Band 65 85 110);
        ("Junior", Band 95 130 170);
        ("Mid-Level", Band 140 180 240);
        ("Senior", Band 190 260 380);
        ("Staff+", Band 300 400 600) ]);
    ("Finance",
      [ ("Entry Level", Band 75 95 120);
        ("Junior", Band 120 160 210);
        ("Mid-Level", Band 170 220 300);
        ("Senior", Band 250 350 500) ]);
    ("Healthcare Tech",
      [ ("Entry Level", Band 60 78 98);
        ("Junior", Band 85 115 150);
        ("Mid-Level", Band 120 160 210);
        ("Senior", Band 170 230 320) ]);
    ("Startup",
      [ ("Entry Level", Band 70 90 120);
        ("Junior", Band 100 135 180);
        ("Mid-Level", Band 150 190 260);
        ("Senior", Band 210 290 400) ]) ].

Definition SKILL_ALIASES : list (string * list string) :=
  [ ("python", ["py"; "python3"; "python 3"]);
    ("javascript", ["js"; "node"; "nodejs"]);
    ("typescript", ["ts"]);
    ("c++", ["cpp"; "c plus plus"]);
    ("c#", ["csharp"; "c sharp"]);
    ("sql", ["mysql"; "postgresql"; "sqlite"]);
    ("react", ["reactjs"; "react.js"]);
    ("aws", ["amazon web services"; "amazon aws"]);
    ("gcp", ["google cloud"; "google cloud platform"]);
    ("ml", ["machine learning"; "ml/ai"]);
    ("nlp", ["natural language processing"]);
    ("cicd", ["ci/cd"; "continuous integration"; "continuous deployment"]);
    ("rest", ["rest api"; "restful"]);
    ("oop", ["object oriented programming"]) ].

Definition SKILL_MULTIPLIERS : list (string * Q) :=
  [ ("machine learning", 12 # 100);
    ("generative ai", 15 # 100);
    ("llm", 13 # 100);
    ("kubernetes", 10 # 100);
    ("aws", 10 # 100);
    ("azure", 9 # 100);
    ("python", 8 # 100);
    ("docker", 7 # 100);
    ("go", 8 # 100);
    ("rust", 8 # 100);
    ("system design", 10 # 100);
    ("architecture", 9 # 100);
    ("leadership", 7 # 100);
    ("javascript", 5 # 100);
    ("java", 5 # 100);
    ("sql", 4 # 100);
    ("react", 6 # 100);
    ("terraform", 6 # 100);
    ("communication", 3 # 100);
    ("project management", 4 # 100) ]%Q.

(** [QUALITY_RUBRIC]: the entries with numeric tiers. *)
Record tiers : Type := Tiers
  { points : Z; excellent : Z; good : Z; acceptable : Z }.

Definition rubric_length : tiers := Tiers 15 800 600 400.
Definition rubric_skills_count : tiers := Tiers 15 12 8 5.
Definition rubric_experience : tiers := Tiers 20 5 3 1.

Definition rubric_education_points : Z := 15.
Definition rubric_education_excellent : list string := ["Master"; "PhD"].
Definition rubric_education_good : list string := ["Bachelor"].
Definition rubric_education_acceptable : list string :=
  ["Diploma"; "High School"].

Definition rubric_sections_required : list string :=
  ["experience"; "education"; "skills"].

Definition rubric_action_verbs : list string :=
  ["Led"; "Developed"; "Managed"; "Created"; "Implemented"; "Designed";
   "Built"; "Improved"; "Achieved"; "Optimized"].

Definition rubric_metric_verbs : list string :=
  ["increased"; "reduced"; "improved"; "grew"; "decreased"; "%"; "$"].

End IndustryData.

(** ** The engine of [utils.py] *)
Module Utils.
Import IndustryData Regex.

(** An argument that the source tests with [not x] and
    [isinstance(x, str)]: [None], a string, or any other object, of which
    only the truth value matters. *)
Inductive pyval : Type :=
| PyNone
| PyStr (s : string)
| PyObj (truth : bool).

(** [min(a, b)] and [max(a, b)] on numbers: the first argument wins ties. *)
Definition qmin (a b : Q) : Q := if Qlt_le_dec b a then b else a.
Definition qmax (a b : Q) : Q := if Qlt_le_dec a b then b else a.

(** [str(n)] for a length or a count. *)
Definition show (n : nat) : string := NilEmpty.string_of_uint (Nat.to_uint n).

Definition normalize_skill (skill : string) : string :=
  Py.strip (Py.lower skill).

Definition str_eqb : string → string → bool := String.eqb.

(** [x in l] on a list of strings. *)
Definition mem (x : string) (l : list string) : bool := existsb (str_eqb x) l.

(** The loop over [SKILL_ALIASES.items()] of [expand_skill_with_aliases]. *)
Fixpoint alias_owner (skill_norm : string) (d : dict (list string))
  : option (list string) :=
  match d with
  | [] => None
  | (main_skill, aliases) :: d' =>
      if mem skill_norm aliases then Some (main_skill :: aliases)
      else alias_owner skill_norm d'
  end.

Definition expand_skill_with_aliases (skill : string) : list string :=
  let skill_norm := normalize_skill skill in
  match dict_get SKILL_ALIASES skill_norm with
  | Some aliases => skill_norm :: aliases
  | None =>
      match alias_owner skill_norm SKILL_ALIASES with
      | Some group => group
      | None => [skill_norm]
      end
  end.

(** One turn of the inner loop of [extract_skills]. *)
Definition scan_alias (text_lower skill skill_norm : string)
    (detected_skills : gset string) (alias : string) : gset string :=
  if negb (str_eqb alias skill_norm)
     && Py.str_in (" " +:+ alias +:+ " ") (" " +:+ text_lower +:+ " ")
  then {[skill]} ∪ detected_skills
  else if Py.str_in (" " +:+ alias) text_lower || Py.startswith text_lower alias
  then {[skill]} ∪ detected_skills
  else if Py.endswith text_lower (" " +:+ alias)
  then {[skill]} ∪ detected_skills
  else detected_skills.

(** One turn of the outer loop. *)
Definition scan_skill (text_lower : string) (detected_skills : gset string)
    (skill : string) : gset string :=
  let skill_norm := normalize_skill skill in
  let detected_skills :=
    if Py.str_in skill_norm text_lower
    then {[skill]} ∪ detected_skills else detected_skills in
  foldl (scan_alias text_lower skill skill_norm) detected_skills
        (expand_skill_with_aliases skill_norm).

(** [sorted(list(s))] for a set of strings. *)
Definition sorted_list (s : gset string) : list string :=
  merge_sort String.le (elements s).

Definition extract_skills (text : pyval) (skills : option (list string))
  : list string :=
  match text with
  | PyStr (String _ _ as text) =>
      let all_skills :=
        match skills with
        | None => TECHNICAL_SKILLS ++ SOFT_SKILLS
        | Some skills => skills
        end in
      let text_lower := Py.lower text in
      sorted_list (foldl (scan_skill text_lower) ∅ all_skills)
  | _ => []
  end.

(** [(?:years?|yrs?)] under [re.IGNORECASE] *)
Definition years_word : regex :=
  Alt (Seq (ilit "year") (opt (ichr "s"))) (Seq (ilit "yr") (opt (ichr "s"))).

Definition experience_patterns : list regex :=
  [ (* (\d+)\s+(?:years?|yrs?) *)
    seqs [Group (plus digit); plus space; years_word];
    (* (\d+)\+\s+(?:years?|yrs?) *)
    seqs [Group (plus digit); chr "+"; plus space; years_word];
    (* (?:since|from)\s+(?:20\d{2}|19\d{2}) *)
    seqs [Alt (ilit "since") (ilit "from"); plus space;
          Alt (Seq (lit "20") (times 2 digit)) (Seq (lit "19") (times 2 digit))] ].

(** What [re.findall] lists for a match: group 1 when the pattern has
    one, the whole match otherwise. *)
Definition findall_items (r : regex) (s : string) : list string :=
  (λ m, match m.2 with
        | Some (i, j) => Py.slice s i j
        | None => group0 s m
        end) <$> findall r s.

(** The body of the [try]; [None] when nothing is appended, be it
    through the range test or through the [except]. *)
Definition experience_of_item (item : string) : option Z :=
  if (String.length item =? 4)%nat
  then year ← Py.int_of_digits item;
       let exp := (2026 - year)%Z in
       if (0 <? exp)%Z && (exp <=? 60)%Z then Some exp else None
  else Py.int_of_digits item.

Definition extract_experience (text : string) : Z :=
  let matches :=
    omap experience_of_item
         (mjoin ((λ pattern, findall_items pattern text) <$> experience_patterns)) in
  match matches with
  | [] => 0
  | m :: ms => Z.min (foldl Z.max m ms) 50
  end.

(** The patterns of [education_mapping] use literals, [.] and [?] only. *)
Fixpoint simple_pattern (s : string) : regex :=
  match s with
  | EmptyString => Eps
  | String a s' =>
      let atom := if Ascii.eqb a "." then any else chr a in
      match s' with
      | String "?"%char s'' => Seq (opt atom) (simple_pattern s'')
      | _ => Seq atom (simple_pattern s')
      end
  end.

Definition education_mapping : dict (list string) :=
  [ ("PhD", ["phd"; "doctorate"; "doctor of philosophy"; "postdoctoral"]);
    ("Master", ["master'?s?"; "ms"; "m.s"; "mba"; "mtech"; "m.tech"]);
    ("Bachelor", ["bachelor'?s?"; "bs"; "b.s"; "b.tech"; "btech"; "bsc"; "b.sc"]);
    ("Diploma", ["diploma"; "associate"; "a.s"]);
    ("High School", ["high school"; "secondary"; "h.s"; "hs"]) ].

Definition education_hit (text_lower pattern : string) : bool :=
  bool_decide (is_Some (search (seqs [WordB; simple_pattern pattern; WordB]) text_lower)).

Fixpoint first_degree (text_lower : string) (d : dict (list string))
  : option string :=
  match d with
  | [] => None
  | (degree, patterns) :: d' =>
      if existsb (education_hit text_lower) patterns then Some degree
      else first_degree text_lower d'
  end.

Definition extract_education (text : string) : string :=
  default "Not Mentioned" (first_degree (Py.lower text) education_mapping).

Record contact_info : Type := ContactInfo
  { email : option string; phone : option string; linkedin : option string }.

Definition in_class (extra : string) (c : ascii) : bool :=
  Py.is_alpha c || Py.is_digit c || Py.str_in (String c EmptyString) extra.

(** \b[A-Za-z0-9._%+-]+@[A-Za-z0-9.-]+\.[A-Z|a-z]{2,}\b *)
Definition email_pattern : regex :=
  seqs [WordB; plus (Chr (in_class "._%+-")); chr "@";
        plus (Chr (in_class ".-")); chr ".";
        Rep true 2 None (Chr (λ c, Py.is_alpha c || Ascii.eqb c "|")); WordB].

(** \b\d{3}[-.]?\d{3}[-.]?\d{4}\b *)
Definition phone_pattern : regex :=
  let sep := opt (Chr (λ c, Ascii.eqb c "-" || Ascii.eqb c ".")) in
  seqs [WordB; times 3 digit; sep; times 3 digit; sep; times 4 digit; WordB].

(** linkedin\.com/in/[A-Za-z0-9-]+ under [re.IGNORECASE] *)
Definition linkedin_pattern : regex :=
  Seq (ilit "linkedin.com/in/") (plus (Chr (in_class "-"))).

Definition extract_contact_info (text : string) : contact_info :=
  {| email := group0 text <$> search email_pattern text;
     phone := group0 text <$> search phone_pattern text;
     linkedin := group0 text <$> search linkedin_pattern text |}.

(** The unreadable file, or what each page's [extract_text()] gives
    ([None] when it raises): all that [PdfReader] is to the engine. *)
Inductive pdf : Type :=
| Unreadable (message : string)
| Pages (pages : list (option string)).

Definition extract_text_from_pdf (pdf_file : pdf) : string :=
  match pdf_file with
  | Unreadable e => "Error extracting PDF: " +:+ e
  | Pages [] => "Error: PDF has no pages"
  | Pages pages =>
      let text :=
        foldl (λ text page,
                 match page with
                 | Some t => text +:+ t +:+ String "010" EmptyString
                 | None => text
                 end) EmptyString pages in
      match Py.strip text with
      | EmptyString => "Error: Could not extract text"
      | stripped => stripped
      end
  end.

(** ** Matching and scoring *)

Local Open Scope Z_scope.

(** The second argument of the matching functions: a text or a list. *)
Inductive requirements : Type :=
| ReqText (text : string)
| ReqList (skills : list string).

Definition required_skills (job_requirements : requirements) : list string :=
  match job_requirements with
  | ReqText text => extract_skills (PyStr text) None
  | ReqList skills => skills
  end.

Definition norm_set (skills : list string) : gset string :=
  list_to_set (normalize_skill <$> skills).

(** The third component lists a set: its order is the one of [elements]. *)
Definition calculate_match (resume_skills : list string)
    (job_requirements : requirements) : Q * list string * list string :=
  match required_skills job_requirements with
  | [] => (0%Q, [], [])
  | required_skills =>
      let resume_set := norm_set resume_skills in
      let required_set := norm_set required_skills in
      let matched := resume_set ∩ required_set in
      let missing := required_set ∖ resume_set in
      let match_percentage :=
        if (size required_set =? 0)%nat then 0%Q
        else ((Z.of_nat (size matched) # 1) / (Z.of_nat (size required_set) # 1) * 100)%Q in
      let matched_with_case :=
        filter (λ s, normalize_skill s ∈ matched) resume_skills in
      (Py.round_n match_percentage 2, matched_with_case, elements missing)
  end.

(** One turn of the loop of [calculate_weighted_match_score] on the pair
    [(total_weight, matched_weight)]. *)
Definition weigh (resume_norm : gmap string string) (acc : Q * Q)
    (req_skill : string) : Q * Q :=
  let '(total_weight, matched_weight) := acc in
  let req_norm := normalize_skill req_skill in
  let multiplier := default 1%Q (dict_get SKILL_MULTIPLIERS req_norm) in
  let weight := ((1 + multiplier) * 10)%Q in
  ((total_weight + weight)%Q,
   if bool_decide (is_Some (resume_norm !! req_norm))
   then (matched_weight + weight)%Q else matched_weight).

Definition calculate_weighted_match_score (resume_skills : list string)
    (job_requirements : requirements) : Q :=
  match required_skills job_requirements with
  | [] => 0%Q
  | required_skills =>
      let resume_norm : gmap string string :=
        list_to_map ((λ s, (normalize_skill s, s)) <$> resume_skills) in
      let '(total_weight, matched_weight) :=
        foldl (weigh resume_norm) (0%Q, 0%Q) required_skills in
      if Qeq_bool total_weight 0 then 0%Q
      else Py.round_n (matched_weight / total_weight * 100) 2
  end.

(** ** Resume quality *)

(** Points and issues of one rubric category. *)
Definition grade : Type := (Z * list string)%type.

Definition grade_length (char_count : nat) : grade :=
  let n := Z.of_nat char_count in
  if (excellent rubric_length <=? n)%Z then (points rubric_length, [])
  else if (good rubric_length <=? n)%Z then (12, [])
  else if (acceptable rubric_length <=? n)%Z
  then (8, ["Resume text is short (" +:+ show char_count +:+ " chars, 800+ recommended)"])
  else (0, ["Resume is too brief (" +:+ show char_count +:+ " chars, minimum 400 required)"]).

Definition grade_skills (skill_count : nat) : grade :=
  let n := Z.of_nat skill_count in
  if (excellent rubric_skills_count <=? n)%Z then (points rubric_skills_count, [])
  else if (good rubric_skills_count <=? n)%Z then (12, [])
  else if (acceptable rubric_skills_count <=? n)%Z then (8, [])
  else (0, ["Too few skills (" +:+ show skill_count +:+ ", 8+ recommended)"]).

Definition geq (x : Q) (bound : Z) : bool := Qle_bool (inject_Z bound) x.

Definition grade_experience (experience : Q) : grade :=
  if geq experience (excellent rubric_experience) then (points rubric_experience, [])
  else if geq experience (good rubric_experience) then (15, [])
  else if geq experience (acceptable rubric_experience) then (10, [])
  else (0, ["Include years of professional experience"]).

Definition grade_education (education : string) : grade :=
  if mem education rubric_education_excellent then (rubric_education_points, [])
  else if mem education rubric_education_good then (12, [])
  else if mem education rubric_education_acceptable then (8, [])
  else (0, ["Mention your educational background"]).

Definition grade_contact (resume_text : string) : grade :=
  let info := extract_contact_info resume_text in
  let contact_found :=
    length (filter is_Some [email info; phone info; linkedin info]) in
  if (3 <=? contact_found)%nat then (10, [])
  else if (2 <=? contact_found)%nat then (8, [])
  else if (1 <=? contact_found)%nat
  then (5, ["Add more contact information (email, phone, LinkedIn)"])
  else (0, ["Add contact information: email, phone, LinkedIn"]).

(** [missing[0]] exists whenever two of the three sections were found. *)
Definition grade_sections (resume_text : string) : grade :=
  let required_sections := rubric_sections_required in
  let found_sections :=
    filter (λ section, Py.str_in (Py.lower section) (Py.lower resume_text))
           required_sections in
  if (3 <=? length found_sections)%nat then (10, [])
  else if (2 <=? length found_sections)%nat
  then
    let missing := filter (λ s, negb (mem s found_sections)) required_sections in
    (7, ["Add " +:+ Py.lower (default EmptyString (head missing)) +:+ " section"])
  else (3, ["Include Experience, Education, and Skills sections"]).

Definition grade_verbs (resume_text : string) : grade :=
  let verb_count :=
    sum_list ((λ verb, Py.count (Py.lower resume_text) (Py.lower verb))
                <$> rubric_action_verbs) in
  if (8 <=? verb_count)%nat then (10, [])
  else if (5 <=? verb_count)%nat then (7, [])
  else if (2 <=? verb_count)%nat
  then (4, ["Use more action verbs (led, developed, managed, created, etc.)"])
  else (0, ["Start bullet points with strong action verbs"]).

Definition grade_metrics (resume_text : string) : grade :=
  let metrics_found :=
    sum_list ((λ keyword, Py.count resume_text keyword) <$> rubric_metric_verbs) in
  if (5 <=? metrics_found)%nat then (5, [])
  else if (2 <=? metrics_found)%nat then (3, [])
  else (0, ["Add metrics/numbers to achievements (e.g., 20% improvement)"]).

(** [total_score += ...; issues.append(...)] *)
Definition add_grade (acc g : grade) : grade := (acc.1 + g.1, acc.2 ++ g.2)%Z.

(** The score and the issues; the third component of the source, a
    dictionary of display labels, takes no part in either. *)
Definition analyze_resume_quality (resume_text : pyval)
    (resume_skills : list string) (experience : Q) (education : string)
  : Z * list string :=
  match resume_text with
  | PyStr (String _ _ as resume_text) =>
      let '(total_score, issues) :=
        foldl add_grade (0%Z, [])
          [ grade_length (String.length resume_text);
            grade_skills (length resume_skills);
            grade_experience experience;
            grade_education education;
            grade_contact resume_text;
            grade_sections resume_text;
            grade_verbs resume_text;
            grade_metrics resume_text ] in
      let final_score := Z.min 100 total_score in
      (final_score, issues)
  | _ => (0%Z, ["Resume text is empty"])
  end.

(** ** Salary prediction *)

(** The first argument of [predict_salary]: an [int], or any other
    object, which the source reads through [str()]. *)
Inductive experience_arg : Type :=
| ExpInt (n : Z)
| ExpOther (repr : string).

Definition experience_value (experience_years : experience_arg) : Z :=
  match experience_years with
  | ExpInt n => n
  | ExpOther repr =>
      match search (plus digit) repr with
      | Some m => default 0%Z (Py.int_of_digits (group0 repr m))
      | None => 0%Z
      end
  end.

Record salary : Type := Salary
  { sal_min : Q; sal_avg : Q; sal_max : Q;
    sal_level : string; sal_currency : string; sal_period : string }.

Definition seniority (exp : Z) : string :=
  if exp <? 2 then "Entry Level"
  else if exp <? 5 then "Junior"
  else if exp <? 10 then "Mid-Level"
  else if exp <? 15 then "Senior"
  else "Staff+".

Definition education_multiplier (education : string) : Q :=
  if str_eqb education "PhD" then 115 # 100
  else if str_eqb education "Master" then 110 # 100
  else if str_eqb education "Bachelor" then 105 # 100
  else 1%Q.

Definition skill_multiplier (resume_skills : list string) : Q :=
  let resume_norm := norm_set resume_skills in
  qmin 2 (foldl (λ acc '(skill, premium),
                   if bool_decide (skill ∈ resume_norm)
                   then (acc + premium)%Q else acc)
                1%Q SKILL_MULTIPLIERS).

(** [None] is an exception: a [KeyError] of one of the two subscripts, or
    the [OverflowError] of [min(exp, 20) * 0.02]. *)
Definition predict_salary (experience_years : experience_arg)
    (resume_skills : list string) (education industry : string)
  : option salary :=
  let exp := Z.min (experience_value experience_years) 30 in
  tech ← dict_get INDUSTRY_SALARY_DATA "Tech";
  let industry_data := default tech (dict_get INDUSTRY_SALARY_DATA industry) in
  let level := seniority exp in
  mid ← dict_get industry_data "Mid-Level";
  let base_salary := default mid (dict_get industry_data level) in
  capped ← Py.float_of_int (Z.min exp 20);
  let exp_mult := (1 + capped * (2 # 100))%Q in
  let total_mult :=
    (skill_multiplier resume_skills * education_multiplier education * exp_mult)%Q in
  let min_sal := (inject_Z (band_min base_salary) * total_mult)%Q in
  let avg_sal := (inject_Z (band_avg base_salary) * total_mult)%Q in
  let max_sal := (inject_Z (band_max base_salary) * total_mult)%Q in
  Some {| sal_min := Py.round_n (qmax 35 min_sal) 0;
          sal_avg := Py.round_n (qmax 50 avg_sal) 0;
          sal_max := Py.round_n (qmax 70 max_sal) 0;
          sal_level := level;
          sal_currency := "USD";
          sal_period := "annual (2024-2026)" |}.

(** ** Job role detection *)

Local Open Scope nat_scope.

(** [re.sub(r'\s+', ' ', s)]: [in_run] tells that the character before
    was a space, already replaced. *)
Fixpoint collapse_go (in_run : bool) (s : string) : string :=
  match s with
  | EmptyString => EmptyString
  | String c s' =>
      if Py.is_space c
      then if in_run then collapse_go true s'
           else String " " (collapse_go true s')
      else String c (collapse_go false s')
  end.

Definition collapse_spaces (s : string) : string := collapse_go false s.

(** Non-technical and creative roles, looked up first. *)
Definition exact_phrases_non_tech : list (string * list string) :=
  [ ("Digital Marketing", ["digital marketing"; "digital marketer";
       "digital markiting"; "digital markting"; "marketing specialist";
       "performance marketing"; "growth marketing"; "online marketing";
       "digital marketing manager"; "dm manager"; "seo specialist";
       "ppc specialist"; "we are hiring for digital marketing";
       "job for digital marketing"; "role: digital marketing"]);
    ("Video Editor", ["video editor"; "video editing"; "video edit";
       "we are hiring video editor"; "looking for video editor"]);
    ("Graphic Designer", ["graphic designer"; "graphic design";
       "visual designer"]);
    ("Content Writer", ["content writer"; "content writing";
       "content creator"; "copywriter"]);
    ("Social Media Manager", ["social media manager";
       "social media specialist"; "smm "; "social media marketing";
       "social media coordinator"; "community manager"]);
    ("UX Designer", ["ux designer"; "ux design";
       "user experience designer"]);
    ("UI Designer", ["ui designer"; "ui design"; "user interface designer"]);
    ("Motion Graphics Designer", ["motion graphics"; "motion designer";
       "motion graphics designer"]);
    ("Video Producer", ["video producer"; "video production"]) ].

(** Technical roles, by exact phrase. *)
Definition exact_phrases_tech : list (string * list string) :=
  [ ("Product Manager", ["product manager"; "product management";
       "pm role"; "technical product manager"]);
    ("Project Manager", ["project manager"; "project management";
       "it project manager"]);
    ("Business Analyst", ["business analyst"; "ba role";
       "business analysis"]);
    ("Scrum Master", ["scrum master"; "agile coach"; "scrum master role"]);
    ("DevOps Engineer", ["devops engineer"; "dev ops engineer"]);
    ("Cloud Architect", ["cloud architect"; "solutions architect"]);
    ("Data Scientist", ["data scientist"]);
    ("Data Engineer", ["data engineer"]);
    ("Data Analyst", ["data analyst"; "bi analyst";
       "business intelligence analyst"]);
    ("Backend Developer", ["backend developer"; "back-end developer";
       "backend engineer"]);
    ("Frontend Developer", ["frontend developer"; "front-end developer";
       "frontend engineer"]);
    ("Full Stack Developer", ["full stack developer";
       "fullstack developer"; "full stack engineer"]);
    ("iOS Developer", ["ios developer"; "ios engineer"; "swift developer";
       "apple ios"]);
    ("Android Developer", ["android developer"; "android engineer";
       "kotlin developer"; "android app"]);
    (".NET Developer", [".net developer"; ".net engineer"; "c# developer";
       "asp.net developer"]);
    ("QA Engineer", ["qa engineer"; "quality assurance engineer";
       "test engineer"]);
    ("Security Engineer", ["security engineer"; "cybersecurity engineer"]);
    ("Machine Learning Engineer", ["machine learning engineer";
       "ml engineer"; "ai engineer"]);
    ("Technical Writer", ["technical writer"; "technical writing";
       "documentation writer"]);
    ("Software Engineer", ["software engineer"; "software developer";
       "application developer"]) ].

(** Technical roles, by keyword count. *)
Definition role_patterns : list (string * list string) :=
  [ ("DevOps Engineer", ["devops"; "dev-ops"; "infrastructure engineer";
       "site reliability engineer"; "sre "; "kubernetes"; "docker";
       "terraform"; "ci/cd"; "cicd"; "deployment engineer";
       "linux engineer"]);
    ("Cloud Architect", ["cloud architect"; "cloud infrastructure";
       "aws architect"; "azure architect"; "gcp architect";
       "cloud solutions"]);
    ("Backend Developer", ["backend"; "back-end"; "api development";
       "server-side"; "server side"; "django developer"; "flask developer";
       "nodejs developer"; "node.js developer"; "spring developer";
       "fastapi developer"; "rest api"; "microservices"]);
    ("Frontend Developer", ["frontend"; "front-end"; "react developer";
       "vue developer"; "angular developer"; "javascript developer";
       "typescript developer"; "web developer"; "frontend engineer"]);
    ("Full Stack Developer", ["full stack"; "fullstack"; "full-stack";
       "full stack engineer"]);
    ("Machine Learning Engineer", ["machine learning"; "ml engineer";
       "deep learning"; "neural network"; "tensorflow"; "pytorch";
       "nlp engineer"; "computer vision"; "ai/ml"]);
    ("Data Scientist", ["data scientist"; "statistical analysis";
       "predictive model"; "machine learning model"]);
    ("Data Engineer", ["data engineer"; "etl engineer"; "data pipeline";
       "big data"; "spark"; "hadoop"; "data warehouse";
       "data architecture"]);
    ("Data Analyst", ["data analyst"; "bi analyst";
       "business intelligence"; "tableau"; "power bi";
       "analytics engineer"; "sql analyst"]);
    ("QA Engineer", ["qa engineer"; "quality assurance"; "test engineer";
       "test automation"; "automated tester"; "selenium";
       "quality engineer"]);
    ("Security Engineer", ["security engineer"; "cybersecurity"; "infosec";
       "penetration tester"; "security architect"]);
    ("Product Manager", ["product roadmap"; "product strategy";
       "product owner"; "prioritization"; "user stories"]);
    ("Project Manager", ["project management"; "pm certification"; "pmp";
       "stakeholder management"; "project delivery"]) ].

(** The first role, in the order of the table, one of whose phrases
    occurs in the text; [prepare] is applied to a phrase before the test. *)
Fixpoint first_role (prepare : string → string) (job_lower : string)
    (d : dict (list string)) : option string :=
  match d with
  | [] => None
  | (role, phrases) :: d' =>
      if existsb (λ phrase, Py.str_in (prepare phrase) job_lower) phrases
      then Some role
      else first_role prepare job_lower d'
  end.

(** [role_scores]: the roles with a positive number of keywords found. *)
Definition score_roles (job_lower : string) (d : dict (list string))
  : dict nat :=
  omap (λ '(role, patterns),
          let match_count :=
            length (filter (λ pattern, Py.str_in pattern job_lower) patterns) in
          if 0 <? match_count then Some (role, match_count) else None) d.

(** [max(role_scores, key=role_scores.get)]: the first key of the
    largest score. *)
Definition best_role (role_scores : dict nat) : option string :=
  match role_scores with
  | [] => None
  | first :: others =>
      Some (foldl (λ best entry, if best.2 <? entry.2 then entry else best)
                  first others).1
  end.

Definition title_class (c : ascii) : bool := Py.is_alpha c || Py.is_space c.

(** The three patterns are searched under [re.IGNORECASE]. *)
Definition title_patterns : list regex :=
  [ (* (?:job title|position|role|we are hiring|looking for|hiring)
       \s*[:\-]\s*([a-z\s]+?)(?:\s*\-|\s*\(|\.|$) *)
    seqs [alts [ilit "job title"; ilit "position"; ilit "role";
                ilit "we are hiring"; ilit "looking for"; ilit "hiring"];
          star space;
          Chr (λ c, Ascii.eqb c ":" || Ascii.eqb c "-");
          star space;
          Group (lazy_plus (Chr title_class));
          alts [Seq (star space) (chr "-"); Seq (star space) (chr "(");
                chr "."; Eol]];
    (* ^([a-z\s]+?)\s*[\-\|]\s*(?:full time|part time|remote) *)
    seqs [Bol; Group (lazy_plus (Chr title_class)); star space;
          Chr (λ c, Ascii.eqb c "-" || Ascii.eqb c "|");
          star space;
          alts [ilit "full time"; ilit "part time"; ilit "remote"]];
    (* ^#?\s*([a-z][a-z\s]{3,40}?)(?:\s+job|\s+position|\.) *)
    seqs [Bol; opt (chr "#"); star space;
          Group (Seq (Chr Py.is_alpha) (Rep false 3 (Some 40) (Chr title_class)));
          alts [Seq (plus space) (ilit "job");
                Seq (plus space) (ilit "position"); chr "."]] ].

(** The loop over [title_patterns]. *)
Fixpoint extract_title (head : string) (patterns : list regex)
  : option string :=
  match patterns with
  | [] => None
  | pat :: patterns' =>
      match search pat head with
      | Some m =>
          let title := Py.strip (group1 head m) in
          if (4 <=? String.length title) && (String.length title <? 50)
             && negb (Py.str_in "experience" title)
             && negb (Py.str_in "description" title)
          then Some (Py.title title)
          else extract_title head patterns'
      | None => extract_title head patterns'
      end
  end.

Definition detect_job_role (job_description : pyval) : string :=
  match job_description with
  | PyStr (String _ _ as job_description) =>
      let job_lower := collapse_spaces (Py.strip (Py.lower job_description)) in
      match first_role Py.strip job_lower exact_phrases_non_tech with
      | Some role => role
      | None =>
      match first_role id job_lower exact_phrases_tech with
      | Some role => role
      | None =>
      match best_role (score_roles job_lower role_patterns) with
      | Some detected_role => detected_role
      | None =>
      match extract_title (Py.slice job_lower 0 300) title_patterns with
      | Some title => title
      | None => "Other Role"
      end end end end
  | _ => "Software Engineer"
  end.

(** ** Job requirements *)

Definition requirement_patterns : list string :=
  ["required skills:"; "must have:"; "should have:"; "preferred skills:";
   "looking for:"; "we need:"; "seeking:"; "responsibilities:";
   "qualifications:"; "required:"; "preferred:"; "must:"; "skills needed:";
   "technical skills:"; "you should have:"; "you will need:";
   "requirement"; "key skills:"; "tools:"].

Definition skill_indicators : list string :=
  ["experience with"; "knowledge of"; "fluent in"; "skilled in";
   "proficiency"; "familiar with"; "expertise in"; "work with";
   "proficient in"].

Definition role_defaults : list (string * list string) :=
  [ ("Backend Developer", ["Python"; "Django"; "REST API"; "PostgreSQL";
       "AWS"; "SQL"; "Git"]);
    ("Frontend Developer", ["React"; "JavaScript"; "HTML"; "CSS";
       "TypeScript"; "REST API"; "Git"]);
    ("Full Stack Developer", ["React"; "Node.js"; "Python"; "SQL"; "AWS";
       "Git"; "REST API"; "HTML"; "CSS"]);
    ("DevOps Engineer", ["Docker"; "Kubernetes"; "AWS"; "Jenkins";
       "Terraform"; "Linux"; "Git"; "CI/CD"]);
    ("Cloud Architect", ["AWS"; "Azure"; "Google Cloud"; "Terraform";
       "System Design"; "Security"; "Docker"]);
    ("Data Scientist", ["Python"; "Machine Learning"; "SQL"; "TensorFlow";
       "Pandas"; "Statistics"; "NumPy"; "Data Analysis"]);
    ("Data Engineer", ["Python"; "SQL"; "Spark"; "Hadoop"; "AWS"; "ETL";
       "Data Pipelines"]);
    ("Data Analyst", ["SQL"; "Excel"; "Tableau"; "Python"; "Power BI";
       "Data Analysis"; "Statistics"]);
    ("QA Engineer", ["TestNG"; "Selenium"; "Automation"; "Java"; "Testing";
       "Git"; "CI/CD"]);
    ("Security Engineer", ["Linux"; "Cybersecurity"; "AWS"; "Encryption";
       "Penetration Testing"; "Security"]);
    ("Machine Learning Engineer", ["Python"; "Machine Learning";
       "Deep Learning"; "TensorFlow"; "PyTorch"; "SQL"; "Git"]);
    ("ML Engineer", ["Python"; "Machine Learning"; "Deep Learning";
       "TensorFlow"; "PyTorch"; "SQL"]);
    ("Software Engineer", ["Python"; "JavaScript"; "SQL"; "Git";
       "REST API"; "Problem Solving"]);
    ("Video Editor", ["Premiere Pro"; "After Effects"; "Video Editing";
       "Motion Graphics"; "DaVinci Resolve"; "Color Grading"]);
    ("Graphic Designer", ["Photoshop"; "Illustrator"; "Graphic Design";
       "Figma"; "Canva"; "UI Design"]);
    ("Content Writer", ["Content Writing"; "Copywriting"; "SEO";
       "Communication"]);
    ("Digital Marketing", ["Digital Marketing"; "SEO";
       "Social Media Marketing"; "Content Writing"; "Google Analytics";
       "Email Marketing"]);
    ("Social Media Manager", ["Social Media Marketing"; "Content Writing";
       "Communication"; "Canva"]);
    ("Product Manager", ["Project Management"; "Communication";
       "Problem Solving"; "SQL"; "Data Analysis"; "Agile"]);
    ("Project Manager", ["Project Management"; "Communication";
       "Leadership"; "Agile"; "Problem Solving"]);
    ("Business Analyst", ["SQL"; "Excel"; "Data Analysis"; "Communication";
       "Problem Solving"]);
    ("Scrum Master", ["Agile"; "Project Management"; "Communication";
       "Leadership"]);
    ("iOS Developer", ["Swift"; "iOS"; "Git"; "REST API";
       "Problem Solving"]);
    ("Android Developer", ["Kotlin"; "Java"; "Git"; "REST API";
       "Problem Solving"]);
    (".NET Developer", ["C#"; "SQL"; "REST API"; "Git"; "Problem Solving"]);
    ("Technical Writer", ["Content Writing"; "Communication";
       "Documentation"; "Technical Writing"]);
    ("UX Designer", ["UX Design"; "Figma"; "User Research"; "Wireframing";
       "Prototyping"]);
    ("UI Designer", ["UI Design"; "Figma"; "Photoshop"; "Illustrator";
       "Design Systems"]);
    ("Motion Graphics Designer", ["After Effects"; "Motion Graphics";
       "Premiere Pro"; "Cinematography"]);
    ("Video Producer", ["Video Production"; "Premiere Pro";
       "Video Editing"; "Project Management"]) ].

(** [detected_skills.update(extract_skills(text, all_skills))] *)
Definition update_from (all_skills : list string)
    (detected_skills : gset string) (text : string) : gset string :=
  detected_skills ∪ list_to_set (extract_skills (PyStr text) (Some all_skills)).

(** The sections that follow a requirement header, at most 500
    characters each. *)
Definition requirement_sections (job_description job_lower : string)
  : list string :=
  omap (λ pattern,
          idx ← Py.find pattern job_lower;
          let start := idx + String.length pattern in
          let end_ := Nat.min (start + 500) (String.length job_description) in
          Some (Py.slice job_description start end_))
       requirement_patterns.

(** [parts[1:]] of every split at an indicator, cut at 150 characters. *)
Definition indicator_windows (job_lower : string) : list string :=
  mjoin ((λ indicator,
            (λ part, Py.slice part 0 150) <$> tail (Py.split job_lower indicator))
           <$> skill_indicators).

(** The skills read off the description itself, in the three passes
    that come before the role is looked at. *)
Definition literal_skills (job_description : string) : gset string :=
  let all_skills := TECHNICAL_SKILLS ++ SOFT_SKILLS ++ CREATIVE_SKILLS in
  let job_lower := Py.lower job_description in
  let detected_skills :=
    foldl (update_from all_skills) ∅
          (requirement_sections job_description job_lower) in
  let detected_skills :=
    if bool_decide (detected_skills = ∅)
    then update_from all_skills detected_skills job_description
    else detected_skills in
  if size detected_skills <? 5
  then foldl (update_from all_skills) detected_skills
             (indicator_windows job_lower)
  else detected_skills.

Definition extract_job_requirements (job_description : string)
  : list string :=
  if String.length (Py.strip job_description) <? 10 then []
  else
    let detected_skills := literal_skills job_description in
    let detected_role := detect_job_role (PyStr job_description) in
    let detected_skills :=
      match dict_get role_defaults detected_role with
      | Some defaults =>
          if size detected_skills <? 6
          then detected_skills ∪ list_to_set defaults
          else detected_skills
      | None =>
          if bool_decide (detected_skills = ∅)
             && negb (str_eqb detected_role "Other Role")
          then {[detected_role]} ∪ detected_skills
          else detected_skills
      end in
    sorted_list detected_skills.

(** ** Readability *)

Record readability : Type := Readability
  { word_count : nat; char_count : nat; reading_time_mins : Z;
    length_ok : bool; suggestion : string }.

Definition get_readability_stats (resume_text : string) : readability :=
  match resume_text with
  | EmptyString => Readability 0 0 0 false "Add resume content."
  | _ =>
      let words := Py.split_ws resume_text in
      let word_count := length words in
      let char_count := String.length resume_text in
      let reading_time_mins :=
        Z.max 1 (Py.round_half_even (Z.of_nat word_count # 200)) in
      let length_ok := (400 <=? word_count) && (word_count <=? 1200) in
      let suggestion :=
        if word_count <? 400
        then "Resume is too short. Add more bullet points and achievements (target 400–800 words)."
        else if 1200 <? word_count
        then "Resume is long. Consider trimming to 1–2 pages (under 800 words) for ATS."
        else "Length is good for ATS and recruiters." in
      Readability word_count char_count reading_time_mins length_ok suggestion
  end.

End Utils.

(** ** The batch comparison of [app.py] *)
Module App.
Import IndustryData Utils.

Definition default_skills : list string :=
  ["Python"; "SQL"; "Machine Learning"; "Data Analysis"; "Java"; "C++";
   "Communication"; "Excel"; "Leadership"; "AWS"; "React"; "Node.js";
   "Docker"; "Git"; "Agile"; "REST API"; "JavaScript"; "TypeScript"].

(** An uploaded file. *)
Record upload : Type := Upload { name : string; content : pdf }.

(** One entry of [ranking_data]. *)
Record row : Type := Row
  { resume : string;
    ats_score : Q;
    job_match : Q;
    quality : Q;
    matched_skills : nat;
    total_skills : nat }.

Definition custom_skills_of (custom_skills_input : string) : list string :=
  match custom_skills_input with
  | EmptyString => default_skills
  | _ => Py.strip <$> Py.split custom_skills_input ","
  end.

(** The body of the loop over [uploaded_files]. *)
Definition rank_file (custom_skills job_skills_batch : list string)
    (file : upload) : row :=
  let resume_text := extract_text_from_pdf (content file) in
  if Py.startswith resume_text "Error"
  then Row (name file) 0 0 0 0 0
  else
    let all_industry := TECHNICAL_SKILLS ++ SOFT_SKILLS in
    let resume_skills := extract_skills (PyStr resume_text) (Some custom_skills) in
    let resume_skills_full := extract_skills (PyStr resume_text) (Some all_industry) in
    let resume_skills :=
      sorted_list (list_to_set resume_skills ∪ list_to_set resume_skills_full) in
    let job_skills := job_skills_batch in
    let '(match_score, matched, _) :=
      calculate_match resume_skills (ReqList job_skills) in
    let '(quality_score, _) :=
      analyze_resume_quality (PyStr resume_text) resume_skills
        (inject_Z (extract_experience resume_text))
        (extract_education resume_text) in
    let ats_score := inject_Z quality_score in
    Row (name file)
        (Py.round_n ats_score 2)
        (Py.round_n match_score 2)
        (Py.round_n (inject_Z quality_score) 2)
        (length matched)
        (length resume_skills).

(** [ranking_data] once the loop has run. *)
Definition ranking_data (uploaded_files : list upload)
    (job_description custom_skills_input : string) : list row :=
  let custom_skills := custom_skills_of custom_skills_input in
  let job_skills_batch :=
    match extract_job_requirements job_description with
    | [] => default_skills
    | job_skills => job_skills
    end in
  rank_file custom_skills job_skills_batch <$> uploaded_files.

(** The order of [sort_values(by="ATS Score", ascending=False)]. *)
Definition ranks_before (r1 r2 : row) : Prop :=
  Qle_bool (ats_score r2) (ats_score r1) = true.

Global Instance ranks_before_dec : RelDecision ranks_before.
Proof. intros r1 r2. unfold ranks_before. apply _. Defined.

(** The ranking table; [None] when the page shows none, for want of
    files or of a job description. Rows of equal score are kept in
    upload order, one of the orders the data frame may give them. *)
Definition batch_ranking (uploaded_files : list upload)
    (job_description custom_skills_input : string) : option (list row) :=
  match uploaded_files, job_description with
  | _ :: _, String _ _ =>
      Some (merge_sort ranks_before
              (ranking_data uploaded_files job_description custom_skills_input))
  | _, _ => None
  end.

End App.

(** ** Skill classes, insights and tools of [utils.py] *)
Module Insights.
Import IndustryData Utils.

Local Open Scope nat_scope.

(** [s.count(p)] for any [p]: the empty string is found at every
    position, the end included. *)
Definition count_any (s p : string) : nat :=
  match p with
  | EmptyString => S (String.length s)
  | _ => Py.count s p
  end.

(** *** Technical and other skills *)

Definition soft_skill_keywords : list string :=
  ["communication"; "leadership"; "teamwork"; "collaboration";
   "problem solving"; "project management"; "time management";
   "critical thinking"; "negotiation"; "presentation"; "mentoring";
   "adaptability"; "creativity"; "emotional intelligence"].

Definition is_technical_skill (skill : string) : bool :=
  let skill_norm := normalize_skill skill in
  if existsb (λ tech_skill, str_eqb (normalize_skill tech_skill) skill_norm)
             TECHNICAL_SKILLS
  then true
  else if existsb (λ soft_skill, str_eqb (normalize_skill soft_skill) skill_norm)
                  SOFT_SKILLS
  then false
  else negb (mem skill_norm soft_skill_keywords).

Definition filter_technical_skills (skills : list string) : list string :=
  filter (λ skill, is_technical_skill skill) skills.

(** [{normalize_skill(k): k for k in table}]: a later key takes the place
    of an earlier one of the same normal form. *)
Definition norm_to_name (table : list string) : gmap string string :=
  foldl (λ names k, <[normalize_skill k := k]> names) ∅ table.

Record categories : Type := Categories
  { technical : list string; soft : list string; creative : list string;
    tools : list string; total : nat }.

(** One turn of the loop of [categorize_skills] on the four lists. *)
Definition file_skill
    (tech_norm_to_name soft_norm_to_name creative_norm_to_name
       : gmap string string)
    (acc : list string * list string * list string * list string)
    (skill : string)
  : list string * list string * list string * list string :=
  let '(technical, soft, creative, tools) := acc in
  let sn := normalize_skill skill in
  match tech_norm_to_name !! sn with
  | Some name => (technical ++ [name], soft, creative, tools)
  | None =>
  match soft_norm_to_name !! sn with
  | Some name => (technical, soft ++ [name], creative, tools)
  | None =>
  match creative_norm_to_name !! sn with
  | Some name => (technical, soft, creative ++ [name], tools)
  | None => (technical, soft, creative, tools ++ [skill])
  end end end.

Definition categorize_skills (skills : list string) : categories :=
  let tech_norm_to_name := norm_to_name TECHNICAL_SKILLS in
  let soft_norm_to_name := norm_to_name SOFT_SKILLS in
  let creative_norm_to_name := norm_to_name CREATIVE_SKILLS in
  let '(technical, soft, creative, tools) :=
    foldl (file_skill tech_norm_to_name soft_norm_to_name creative_norm_to_name)
          ([], [], [], []) skills in
  {| technical := sorted_list (list_to_set technical);
     soft := sorted_list (list_to_set soft);
     creative := sorted_list (list_to_set creative);
     tools := sorted_list (list_to_set tools);
     total := length skills |}.

(** *** Interview readiness *)

(** [repr] of a float that is a whole number of hundredths, not negative,
    which is what [round(x, 2)] gives here: the shortest decimal that
    reads back as the same float, one digit after the point at least. *)
Definition repr_hundredths (x : Q) : string :=
  let k := Z.to_nat (Qfloor (x * 100)) in
  let cents := k mod 100 in
  show (k / 100) +:+ "." +:+
  (if cents mod 10 =? 0 then show (cents / 10)
   else show (cents / 10) +:+ show (cents mod 10)).

Record readiness : Type := Readiness
  { score : Z; strengths : list string; concerns : list string;
    readiness_level : string }.

(** [experience] is an [int]; it is printed only where it is 2 or more. *)
Definition get_interview_readiness_score (resume_skills : list string)
    (job_requirements : requirements) (experience : Z) (education : string)
  : readiness :=
  let '(match_pct, matched, missing) :=
    calculate_match resume_skills job_requirements in
  let score := 0%Z in
  let strengths : list string := [] in
  let concerns : list string := [] in
  (* Experience factor (30 pts) *)
  let '(score, strengths, concerns) :=
    if (5 <=? experience)%Z
    then ((score + 30)%Z,
          strengths ++ ["Strong experience (" +:+ show (Z.to_nat experience)
                        +:+ "+ years)"],
          concerns)
    else if (2 <=? experience)%Z
    then ((score + 20)%Z,
          strengths ++ ["Relevant experience (" +:+ show (Z.to_nat experience)
                        +:+ " years)"],
          concerns)
    else if (1 <=? experience)%Z
    then ((score + 10)%Z, strengths,
          concerns ++ ["Limited experience - prepare examples"])
    else (score, strengths,
          concerns ++ ["Entry-level position - emphasize learning"]) in
  (* Skills match (40 pts) *)
  let '(score, strengths, concerns) :=
    if Qle_bool 90 match_pct
    then ((score + 40)%Z,
          strengths ++ ["Expert match (" +:+ repr_hundredths match_pct
                        +:+ "% of required skills)"],
          concerns)
    else if Qle_bool 70 match_pct
    then ((score + 30)%Z,
          strengths ++ ["Good match (" +:+ repr_hundredths match_pct
                        +:+ "% of required skills)"],
          concerns)
    else if Qle_bool 50 match_pct
    then ((score + 20)%Z, strengths,
          concerns ++ ["Moderate skill gaps—prepare a learning plan."])
    else ((score + 10)%Z, strengths,
          concerns ++ ["Highlight transferable skills to offset gaps."]) in
  (* Education (15 pts) *)
  let '(score, strengths) :=
    if mem education ["Master"; "PhD"]
    then ((score + 15)%Z,
          strengths ++ ["Advanced degree (" +:+ education +:+ ")"])
    else if str_eqb education "Bachelor"
    then ((score + 10)%Z, strengths)
    else (score, strengths) in
  (* Technical depth (15 pts) *)
  let tech_skills := filter (λ s, mem s TECHNICAL_SKILLS) resume_skills in
  let '(score, strengths) :=
    if 10 <=? length tech_skills
    then ((score + 15)%Z, strengths ++ ["Strong technical depth"])
    else if 5 <=? length tech_skills
    then ((score + 10)%Z, strengths)
    else (score, strengths) in
  {| score := Z.min 100 score;
     strengths := take 3 strengths;
     concerns := take 3 concerns;
     readiness_level :=
       if (85 <=? score)%Z then "Excellent"
       else if (75 <=? score)%Z then "Very Good"
       else if (60 <=? score)%Z then "Good"
       else "Fair" |}.

(** *** Career paths *)

Record path : Type := Path
  { title : string; timeline : string; salary_increase : string;
    skills : list string }.

(** [any(s in resume_norm for s in l)] *)
Definition any_in (resume_norm : gset string) (l : list string) : bool :=
  existsb (λ s, bool_decide (s ∈ resume_norm)) l.

(** The third argument of the source, [job_description], is not read. *)
Definition get_career_progression_path (experience_years : experience_arg)
    (resume_skills : list string) : list path :=
  let exp := experience_value experience_years in
  let paths : list path := [] in
  let resume_norm := norm_set resume_skills in
  (* Python/Backend Developer Path *)
  let paths :=
    if any_in resume_norm ["python"; "java"; "javascript"; "node.js"]
    then
      if (exp <? 2)%Z
      then paths ++ [Path "Mid-Level Developer" "1-2 years" "15-25%"
             ["System Design"; "SQL Optimization"; "API Design";
              "Code Architecture"]]
      else if (exp <? 5)%Z
      then paths ++ [Path "Senior Developer" "2-3 years" "25-40%"
             ["System Architecture"; "Performance Tuning";
              "Security Practices"; "Tech Leadership"]]
      else paths ++ [Path "Tech Lead / Engineering Manager" "3-5 years"
             "35-60%"
             ["Team Leadership"; "Strategic Planning"; "Mentoring";
              "Project Management"]]
    else paths in
  (* Cloud/DevOps Path *)
  let paths :=
    if any_in resume_norm ["aws"; "azure"; "docker"; "kubernetes"]
    then
      if (exp <? 2)%Z
      then paths ++ [Path "Cloud Engineer" "1-2 years" "20-30%"
             ["Container Orchestration"; "Infrastructure as Code"; "CI/CD";
              "Cloud Security"]]
      else if (exp <? 5)%Z
      then paths ++ [Path "Senior DevOps/Cloud Engineer" "2-3 years" "30-45%"
             ["Multi-Cloud Architecture"; "Kubernetes Mastery"; "Terraform";
              "Cost Optimization"]]
      else paths ++ [Path "Cloud Architect" "2-4 years" "40-70%"
             ["Enterprise Architecture"; "Compliance & Security";
              "Disaster Recovery"; "Cost Strategy"]]
    else paths in
  (* Data/ML Path *)
  let paths :=
    if any_in resume_norm ["machine learning"; "deep learning"; "python"]
    then
      if (exp <? 3)%Z
      then paths ++ [Path "ML Engineer" "2-3 years" "25-35%"
             ["Deep Learning Frameworks"; "Model Optimization";
              "Feature Engineering"; "MLOps"]]
      else paths ++ [Path "Senior ML Engineer / ML Architect" "3-4 years"
             "40-60%"
             ["Advanced ML Architectures"; "Distributed ML"; "Research";
              "Production ML Systems"]]
    else paths in
  (* Default if no specific path matched *)
  let paths :=
    match paths with
    | [] => paths ++ [Path "Senior Specialist" "2-3 years" "20-30%"
              ["Advanced Expertise"; "Leadership"; "Specialization";
               "Innovation"]]
    | _ => paths
    end in
  take 3 paths.

(** *** The closest job profile *)

(** A profile of [JOB_PROFILES] in [industry_data.py], through the two
    skill lists that are read here. *)
Record profile : Type := Profile
  { critical : list string; required : list string }.

Definition JOB_PROFILES : list (string * profile) :=
  [ ("Full Stack Developer",
      Profile ["JavaScript"; "React"; "Node.js"; "SQL"; "Git"; "REST API"]
              ["HTML"; "CSS"; "Database Design"; "Problem Solving";
               "Communication"]);
    ("Frontend Developer",
      Profile ["JavaScript"; "React"; "HTML"; "CSS"; "Problem Solving"]
              ["REST API"; "Git"; "Responsive Design"; "Communication"]);
    ("Backend Developer",
      Profile ["Python"; "SQL"; "Database Design"; "REST API";
               "Problem Solving"]
              ["Git"; "Backend Framework"; "Server Architecture";
               "Communication"]);
    ("Data Scientist",
      Profile ["Python"; "SQL"; "Machine Learning"; "Data Analysis";
               "Statistics"]
              ["Pandas"; "NumPy"; "Visualization"; "Problem Solving";
               "Communication"]);
    ("DevOps Engineer",
      Profile ["Docker"; "Kubernetes"; "AWS"; "Linux"; "Git"; "CI/CD"]
              ["Infrastructure as Code"; "Monitoring"; "Shell Scripting";
               "Problem Solving"]);
    ("Cloud Architect",
      Profile ["AWS"; "System Design"; "Architecture"; "Security";
               "Leadership"]
              ["Azure or GCP"; "Docker"; "Kubernetes"; "Cost Optimization"]);
    ("ML Engineer",
      Profile ["Python"; "Machine Learning"; "Deep Learning";
               "TensorFlow/PyTorch"; "Statistics"]
              ["Data Processing"; "Model Deployment"; "Git"; "Communication"]);
    ("Senior Software Engineer",
      Profile ["System Design"; "Architecture"; "Leadership";
               "Problem Solving"; "Code Review"]
              ["Multiple Languages"; "Mentoring"; "Project Management";
               "Communication"]);
    ("Solutions Architect",
      Profile ["System Design"; "Architecture"; "Cloud"; "Communication";
               "Leadership"]
              ["Technical Depth"; "Business Understanding";
               "Problem Solving"; "Documentation"]) ].

(** One turn of the loop of [match_job_profile] on
    [(best_match, best_score)]. *)
Definition closer (resume_skills : list string) (acc : option string * Q)
    (entry : string * profile) : option string * Q :=
  let '(best_match, best_score) := acc in
  let '(role, profile) := entry in
  let required := critical profile ++ required profile in
  let '(score, _, _) := calculate_match resume_skills (ReqList required) in
  if negb (Qle_bool score best_score) then (Some role, score)
  else (best_match, best_score).

(** The second argument of the source, [job_description], is not read. *)
Definition match_job_profile (resume_skills : list string) : string * Q :=
  let '(best_match, best_score) :=
    foldl (closer resume_skills) (None, 0%Q) JOB_PROFILES in
  (match best_match with
   | Some (String _ _ as role) => role
   | _ => "Unclassified Role"
   end, best_score).

(** *** Keyword density *)

Record density : Type := Density
  { found : list (string * nat); missing : list string; score_pct : Q }.

(** The count of one skill: its normal form and the other strings of its
    alias group. *)
Definition occurrences (text_lower skill : string) : nat :=
  let sn := normalize_skill skill in
  count_any text_lower sn
  + sum_list ((λ a, count_any text_lower a)
                <$> filter (λ a, negb (str_eqb a sn))
                           (expand_skill_with_aliases skill)).

Definition tally (text_lower : string)
    (acc : list (string * nat) * list string) (skill : string)
  : list (string * nat) * list string :=
  let '(found, missing) := acc in
  let count := occurrences text_lower skill in
  if 0 <? count then (found ++ [(skill, count)], missing)
  else (found, missing ++ [skill]).

Definition get_keyword_density (resume_text : string)
    (job_skills : list string) : density :=
  match resume_text, job_skills with
  | EmptyString, _ | _, [] => Density [] job_skills 0
  | _, _ =>
      let text_lower := Py.lower resume_text in
      let '(found, missing) := foldl (tally text_lower) ([], []) job_skills in
      let score_pct :=
        Py.round_n ((Z.of_nat (length found) # 1)
                    / (Z.of_nat (length job_skills) # 1) * 100) 1 in
      Density found missing score_pct
  end.

(** *** Tailoring phrases *)

(** The first argument of the source, [job_skills], is not read. *)
Definition get_tailoring_phrases (missing_skills : list string)
    (job_role : string) : list string :=
  let phrases :=
    mjoin ((λ skill,
              let skill_display := Py.title skill in
              ["Experience with " +:+ skill_display
                 +:+ " in production environments";
               "Proficient in " +:+ skill_display
                 +:+ " for building scalable solutions"])
             <$> take 5 missing_skills) in
  let phrases :=
    phrases ++ ["Strong fit for " +:+ job_role
                +:+ " role with hands-on technical delivery"] in
  take 8 phrases.

End Insights.

(** ** The analysis of one resume in [app.py] *)
Module Analysis.
Import IndustryData Utils Insights.

Record scores : Type := Scores
  { resume_skills : list string; job_skills : list string;
    experience : Z; education : string;
    match_score : Q; weighted_score : Q; quality_score : Z;
    matched_technical : list string; missing_technical : list string;
    technical_skills_count : nat; ats_score : Q }.

(** What the page computes once the text of the resume is there and
    does not start with "Error". *)
Definition analyse (resume_text : string) (custom_skills : list string)
    (job_description : string) : scores :=
  let resume_skills := extract_skills (PyStr resume_text) (Some custom_skills) in
  let all_industry_skills := TECHNICAL_SKILLS ++ SOFT_SKILLS ++ CREATIVE_SKILLS in
  let resume_skills_from_full :=
    extract_skills (PyStr resume_text) (Some all_industry_skills) in
  let resume_skills :=
    sorted_list (list_to_set resume_skills ∪ list_to_set resume_skills_from_full) in
  let job_skills := extract_job_requirements job_description in
  let experience := extract_experience resume_text in
  let experience :=
    if (experience =? 0)%Z
    then if Py.str_in "senior" (Py.lower resume_text) then 5%Z
         else if Py.str_in "junior" (Py.lower resume_text) then 1%Z
         else 2%Z
    else experience in
  let education := extract_education resume_text in
  let resume_skills :=
    match resume_skills with [] => ["Python"; "JavaScript"] | _ => resume_skills end in
  let job_skills :=
    match job_skills with [] => ["Python"; "JavaScript"] | _ => job_skills end in
  let experience := if (experience =? 0)%Z then 2%Z else experience in
  let '(match_score, matched_skills, missing_skills) :=
    calculate_match resume_skills (ReqList job_skills) in
  let weighted_score :=
    calculate_weighted_match_score resume_skills (ReqList job_skills) in
  let '(quality_score, quality_issues) :=
    analyze_resume_quality (PyStr resume_text) resume_skills
      (inject_Z experience) education in
  let matched_technical := filter_technical_skills matched_skills in
  let missing_technical := filter_technical_skills missing_skills in
  let technical_skills_count :=
    length (filter (λ s, is_technical_skill s) resume_skills) in
  let skill_factor :=
    match technical_skills_count with
    | O => 0%Q
    | _ => qmin 100 ((Z.of_nat technical_skills_count # 1) / 10 * 100)%Q
    end in
  let experience_factor :=
    if (experience =? 0)%Z then 0%Q
    else qmin 100 (inject_Z experience / 8 * 100)%Q in
  let ats_score :=
    (inject_Z quality_score * (5 # 10) + skill_factor * (25 # 100)
     + experience_factor * (25 # 100))%Q in
  {| resume_skills := resume_skills; job_skills := job_skills;
     experience := experience; education := education;
     match_score := match_score; weighted_score := weighted_score;
     quality_score := quality_score;
     matched_technical := matched_technical;
     missing_technical := missing_technical;
     technical_skills_count := technical_skills_count;
     ats_score := ats_score |}.

End Analysis.

(** * Properties *)

Import IndustryData Utils App.

Set Warnings "-clear-no-such-hyp".

(** ** Vocabulary of the statements *)

(** An alias is looked for where a token starts: at the head of the text or
    right after a space. Nothing is asked of what follows it. *)
Definition token_start (alias t : string) : Prop :=
  Py.startswith t alias = true ∨ Py.str_in (" " +:+ alias) t = true.

(** The three tests of [scan_alias], as one boolean. *)
Definition alias_hit (t skill_norm alias : string) : bool :=
  (negb (str_eqb alias skill_norm)
   && Py.str_in (" " +:+ alias +:+ " ") (" " +:+ t +:+ " "))
  || (Py.str_in (" " +:+ alias) t || Py.startswith t alias)
  || Py.endswith t (" " +:+ alias).

(** When [extract_skills] reports a candidate on the lower-cased text [t]. *)
Definition skill_hit (t skill : string) : Prop :=
  Py.str_in (normalize_skill skill) t = true
  ∨ ∃ alias, alias ∈ expand_skill_with_aliases (normalize_skill skill)
             ∧ token_start alias t.

(** The weight of a required skill as the specification words it: the
    premium of a skill that the table does not list is 0. *)
Definition spec_weight (req_skill : string) : Q :=
  ((1 + default 0 (dict_get SKILL_MULTIPLIERS (normalize_skill req_skill))) * 10)%Q.

Definition total_weight (skills : list string) : Q :=
  foldr (λ s acc, (spec_weight s + acc)%Q) 0%Q skills.

(** The weighted percentage as the specification words it. *)
Definition spec_weighted_match (resume_skills required : list string) : Q :=
  let matched :=
    filter (λ s, normalize_skill s ∈ norm_set resume_skills) required in
  (total_weight matched / total_weight required * 100)%Q.

(** The roles that [detect_job_role] holds for technical: those of its
    two technical tables. *)
Definition technical_roles : list string :=
  keys exact_phrases_tech ++ keys role_patterns.

(** An argument that is [None], the empty string, or no string at all. *)
Definition absent_text (v : pyval) : Prop :=
  v = PyNone ∨ v = PyStr EmptyString ∨ ∀ s, v ≠ PyStr s.

(** The reading time as the specification words it: rounded up. *)
Definition reading_time_rounded_up (word_count : nat) : Z :=
  Z.max 1 (Qceiling (Z.of_nat word_count # 200)).

(** A text of [n] words. *)
Definition words_text (n : nat) : string :=
  String.concat " " (replicate n "word").

(** The text of the file is one of the sentinels. *)
Definition extraction_failed (file : upload) : Prop :=
  Py.startswith (extract_text_from_pdf (content file)) "Error" = true.

Definition zero_row (file : upload) : row := Row (name file) 0 0 0 0 0.

(** ** Vocabulary of the further statements *)

(** The candidates of [extract_skills]: the list given, or the two
    taxonomies it takes by default. *)
Definition candidates (skills : option (list string)) : list string :=
  default (TECHNICAL_SKILLS ++ SOFT_SKILLS) skills.

(** What [calculate_match] returns once the requirements are a list
    that is not empty. *)
Definition match_body (resume_skills required : list string)
  : Q * list string * list string :=
  let resume_set := norm_set resume_skills in
  let required_set := norm_set required in
  let matched := resume_set ∩ required_set in
  (Py.round_n
     (if (size required_set =? 0)%nat then 0%Q
      else ((Z.of_nat (size matched) # 1)
            / (Z.of_nat (size required_set) # 1) * 100)%Q) 2,
   filter (λ s, normalize_skill s ∈ matched) resume_skills,
   elements (required_set ∖ resume_set)).

(** The weight of a required skill in [calculate_weighted_match_score]. *)
Definition skill_weight (req_skill : string) : Q :=
  ((1 + default 1 (dict_get SKILL_MULTIPLIERS (normalize_skill req_skill)))
   * 10)%Q.

(** A salary band of the table: positive and in order. *)
Definition band_ok (b : band) : Prop :=
  (0 < band_min b ∧ band_min b ≤ band_avg b ∧ band_avg b ≤ band_max b)%Z.

(** The band that [predict_salary] reads for a level of experience. *)
Definition base_band (exp : Z) (industry : string) : option band :=
  tech ← dict_get INDUSTRY_SALARY_DATA "Tech";
  let industry_data := default tech (dict_get INDUSTRY_SALARY_DATA industry) in
  mid ← dict_get industry_data "Mid-Level";
  Some (default mid (dict_get industry_data (seniority exp))).

(** The record that [predict_salary] builds from a band and the product
    of its three multipliers. *)
Definition salary_of (level : string) (b : band) (total_mult : Q) : salary :=
  {| sal_min := Py.round_n (qmax 35 (inject_Z (band_min b) * total_mult)) 0;
     sal_avg := Py.round_n (qmax 50 (inject_Z (band_avg b) * total_mult)) 0;
     sal_max := Py.round_n (qmax 70 (inject_Z (band_max b) * total_mult)) 0;
     sal_level := level;
     sal_currency := "USD";
     sal_period := "annual (2024-2026)" |}.

(** A rubric category reports no issue from [clean] points on, and at
    most one issue below. *)
Definition graded (g : grade) (clean full : Z) : Prop :=
  (g.2 = [] → (clean ≤ g.1)%Z) ∧ (g.1 = full → g.2 = [])
  ∧ (length g.2 ≤ 1)%nat.

(** The last character of a string, and what comes before it. *)
Fixpoint unsnoc (s : string) : option (string * ascii) :=
  match s with
  | EmptyString => None
  | String c s' =>
      match unsnoc s' with
      | None => Some (EmptyString, c)
      | Some (q, d) => Some (String c q, d)
      end
  end.

(** A phrase that the normalisation of [detect_job_role] leaves as it is:
    two characters at least, no space at either end, and inside no space
    but single blanks. *)
Definition tight (p : string) : bool :=
  match p with
  | String c1 r =>
      match unsnoc r with
      | Some (q, c2) =>
          negb (Py.is_space c1) && negb (Py.is_space c2)
          && str_eqb (collapse_go false q) q
      | None => false
      end
  | EmptyString => false
  end.

(** The number of keywords of a role that occur in the text. *)
Definition keyword_count (job_lower : string) (patterns : list string) : nat :=
  length (filter (λ pattern, Py.str_in pattern job_lower) patterns).

(** The two functions that [score_roles] and [best_role] iterate. *)
Definition scored (job_lower : string) (entry : string * list string)
  : option (string * nat) :=
  let '(role, patterns) := entry in
  let match_count :=
    length (filter (λ pattern, Py.str_in pattern job_lower) patterns) in
  if (0 <? match_count)%nat then Some (role, match_count) else None.

Definition better (best entry : string * nat) : string * nat :=
  if (best.2 <? entry.2)%nat then entry else best.

(** A string of the alias group of [skill] occurs in [text_lower]. *)
Definition group_occurs (text_lower skill : string) : bool :=
  existsb (λ a, Py.str_in a text_lower) (expand_skill_with_aliases skill).

(** The skills that open one of the three career paths. *)
Definition cluster_skills : list string :=
  ["python"; "java"; "javascript"; "node.js"; "aws"; "azure"; "docker";
   "kubernetes"; "machine learning"; "deep learning"].

(** The path of a resume that has none of them. *)
Definition senior_specialist : Insights.path :=
  Insights.Path "Senior Specialist" "2-3 years" "20-30%"
    ["Advanced Expertise"; "Leadership"; "Specialization"; "Innovation"].

(** The closing phrase of [get_tailoring_phrases]. *)
Definition role_phrase (job_role : string) : string :=
  "Strong fit for " +:+ job_role +:+ " role with hands-on technical delivery".

(** The score of a profile: the match of the resume with its critical and
    required skills. *)
Definition profile_score (resume_skills : list string)
    (p : Insights.profile) : Q :=
  (calculate_match resume_skills
     (ReqList (Insights.critical p ++ Insights.required p))).1.1.

(** The text of the pages, before it is stripped. *)
Definition pages_text (pages : list (option string)) : string :=
  foldl (λ text page,
           match page with
           | Some t => text +:+ t +:+ String "010" EmptyString
           | None => text
           end) EmptyString pages.

(** A file that could not be read: the reader fails on it, it has no
    page, or its pages give no text but white space. These are the files
    for which [extract_text_from_pdf] returns a sentinel. *)
Definition could_not_be_read (pdf_file : pdf) : Prop :=
  match pdf_file with
  | Unreadable _ => True
  | Pages pages => Py.strip (pages_text pages) = EmptyString
  end.

(** The row of a file in the batch page, for a job description and the
    custom skills typed in. *)
Definition batch_row (job_description custom_skills_input : string)
  : upload → row :=
  rank_file (custom_skills_of custom_skills_input)
    match extract_job_requirements job_description with
    | [] => default_skills
    | job_skills => job_skills
    end.

(** ** Strings *)

Section StringFacts.
Implicit Types (a b p q s t u v : string) (c : ascii).

Lemma app_cons c a b : String c a +:+ b = String c (a +:+ b).
Proof. done. Qed.

Lemma app_nil_l b : EmptyString +:+ b = b.
Proof. done. Qed.

Lemma app_nil_r a : a +:+ EmptyString = a.
Proof. induction a as [|c a IH]; [done|]. by rewrite app_cons, IH. Qed.

Lemma app_assoc a b s : (a +:+ b) +:+ s = a +:+ b +:+ s.
Proof. induction a as [|c a IH]; [done|]. by rewrite !app_cons, IH. Qed.

Lemma prefix_spec p s : String.prefix p s = true ↔ ∃ b, s = p +:+ b.
Proof.
  revert s. induction p as [|c p IH]; intros s.
  - split; [intros _; by exists s|]. by destruct s.
  - destruct s as [|d s]; cbn [String.prefix].
    + split; [done|]. by intros [b ?].
    + destruct (Ascii.ascii_dec c d) as [->|Hne].
      * rewrite IH. split; intros [b Hb]; exists b.
        -- by rewrite app_cons, <- Hb.
        -- rewrite app_cons in Hb. by injection Hb.
      * split; [done|]. intros [b Hb]. rewrite app_cons in Hb. congruence.
Qed.

Lemma str_in_spec p s : Py.str_in p s = true ↔ ∃ a b, s = a +:+ p +:+ b.
Proof.
  induction s as [|d s IH]; cbn [Py.str_in].
  - rewrite orb_false_r, prefix_spec. split.
    + intros [b Hb]. by exists EmptyString, b.
    + intros ([|? a] & b & Hb); [by exists b|done].
  - rewrite orb_true_iff, prefix_spec, IH. split.
    + intros [[b Hb]|(a & b & Hb)].
      * by exists EmptyString, b.
      * exists (String d a), b. by rewrite app_cons, Hb.
    + intros ([|e a] & b & Hb).
      * left. by exists b.
      * right. rewrite app_cons in Hb. injection Hb as -> ->. by exists a, b.
Qed.

Lemma str_in_app p a b : Py.str_in p (a +:+ p +:+ b) = true.
Proof. apply str_in_spec. by exists a, b. Qed.

Lemma endswith_spec s p : Py.endswith s p = true ↔ ∃ a, s = a +:+ p.
Proof.
  induction s as [|d s IH]; cbn [Py.endswith].
  - rewrite orb_false_r, String.eqb_eq. split.
    + intros <-. by exists EmptyString.
    + by intros ([|? a] & Ha).
  - rewrite orb_true_iff, String.eqb_eq, IH. split.
    + intros [<-|[a ->]]; [by exists EmptyString|by exists (String d a)].
    + intros ([|e a] & Ha); [by left|right].
      rewrite app_cons in Ha. injection Ha as -> ->. by exists a.
Qed.

Lemma snoc_app_inv t c u v :
  t +:+ String c EmptyString = u +:+ v →
  v = EmptyString ∨ ∃ v', v = v' +:+ String c EmptyString ∧ t = u +:+ v'.
Proof.
  revert t. induction u as [|d u IH]; intros t H.
  - right. exists t. by rewrite app_nil_l in *.
  - rewrite app_cons in H. destruct t as [|e t].
    + rewrite app_nil_l in H. injection H as -> H.
      destruct u; [|done]. rewrite app_nil_l in H. by left.
    + rewrite app_cons in H. injection H as -> H.
      destruct (IH _ H) as [->|(v' & -> & ->)]; [by left|].
      right. by exists v'.
Qed.

Lemma lower_app a b : Py.lower (a +:+ b) = Py.lower a +:+ Py.lower b.
Proof.
  induction a as [|c a IH]; [done|].
  rewrite app_cons. cbn [Py.lower]. by rewrite IH.
Qed.

Lemma lstrip_keep a c s :
  Py.is_space c = false →
  ∃ a', Py.lstrip (a +:+ String c s) = a' +:+ String c s.
Proof.
  intros Hc. induction a as [|d a IH].
  - exists EmptyString. rewrite !app_nil_l. cbn [Py.lstrip]. by rewrite Hc.
  - rewrite app_cons. cbn [Py.lstrip]. destruct (Py.is_space d); [done|].
    exists (String d a). by rewrite app_cons.
Qed.

Lemma all_space_app_false a c s :
  Py.is_space c = false → Py.all_space (a +:+ String c s) = false.
Proof.
  intros Hc. induction a as [|d a IH].
  - rewrite app_nil_l. cbn [Py.all_space]. by rewrite Hc.
  - rewrite app_cons. cbn [Py.all_space]. by rewrite IH, andb_false_r.
Qed.

Lemma rstrip_keep a c s :
  Py.is_space c = false →
  Py.rstrip (a +:+ String c s) = a +:+ String c (Py.rstrip s).
Proof.
  intros Hc. induction a as [|d a IH].
  - rewrite !app_nil_l. cbn [Py.rstrip Py.all_space]. by rewrite Hc.
  - rewrite !app_cons. cbn [Py.rstrip].
    rewrite <- app_cons, all_space_app_false by done.
    by rewrite IH.
Qed.

Lemma collapse_keep f a c s :
  Py.is_space c = false →
  collapse_go f (a +:+ String c s)
  = collapse_go f a +:+ String c (collapse_go false s).
Proof.
  intros Hc. revert f. induction a as [|d a IH]; intros f.
  - rewrite !app_nil_l. cbn [collapse_go]. by rewrite Hc.
  - rewrite app_cons. cbn [collapse_go].
    destruct (Py.is_space d); [destruct f|]; by rewrite IH.
Qed.

(** A phrase [c1 q c2] whose ends are not spaces and whose inside the
    collapse leaves alone survives the normalisation of [detect_job_role]. *)
Lemma normalise_keeps c1 q c2 a b :
  Py.is_space c1 = false → Py.is_space c2 = false →
  collapse_go false q = q →
  ∃ x y, collapse_spaces (Py.strip (a +:+ String c1 (q +:+ String c2 b)))
         = x +:+ String c1 (q +:+ String c2 y).
Proof.
  intros H1 H2 Hq. unfold Py.strip, collapse_spaces.
  destruct (lstrip_keep a c1 (q +:+ String c2 b) H1) as [a' ->].
  rewrite <- app_cons, <- app_assoc, rstrip_keep by done.
  rewrite collapse_keep by done.
  rewrite collapse_keep by done. rewrite Hq.
  eexists _, _. by rewrite app_assoc, app_cons.
Qed.

Lemma padded_token_start a t :
  Py.str_in (" " +:+ a +:+ " ") (" " +:+ t +:+ " ") = true → token_start a t.
Proof.
  intros (x & y & H)%str_in_spec.
  change (" " +:+ t +:+ " ") with (String " " t +:+ " ") in H.
  rewrite !app_assoc in H.
  change (x +:+ " " +:+ a +:+ " " +:+ y)
    with (x +:+ (String " " a +:+ String " " y)) in H.
  rewrite <- app_assoc in H.
  apply snoc_app_inv in H as [?|(v' & _ & H)]; [done|].
  rewrite app_assoc, app_cons in H.
  destruct x as [|d x].
  - left. rewrite app_nil_l in H. injection H as ->.
    apply prefix_spec. by exists v'.
  - right. rewrite app_cons in H. injection H as -> ->.
    apply str_in_spec. exists x, v'. by rewrite app_assoc.
Qed.

Lemma suffix_token_start a t :
  Py.endswith t (" " +:+ a) = true → token_start a t.
Proof.
  intros [x ->]%endswith_spec. right. apply str_in_spec.
  exists x, EmptyString. by rewrite app_nil_r.
Qed.

End StringFacts.

(** ** Skill extraction *)

Section Extraction.
Implicit Types (t skill alias x : string) (D : gset string).

Lemma alias_hit_spec t skill_norm alias :
  alias_hit t skill_norm alias = true ↔ token_start alias t.
Proof.
  unfold alias_hit. rewrite !orb_true_iff, andb_true_iff. split.
  - intros [[[_ H]|[H|H]]|H].
    + by apply padded_token_start.
    + by right.
    + by left.
    + by apply suffix_token_start.
  - intros [H|H]; left; right; [by right|by left].
Qed.

Lemma scan_alias_elem t skill skill_norm D alias x :
  x ∈ scan_alias t skill skill_norm D alias
  ↔ x ∈ D ∨ (x = skill ∧ token_start alias t).
Proof.
  rewrite <- (alias_hit_spec t skill_norm). unfold scan_alias, alias_hit.
  set (c1 := negb _ && _). set (c2 := Py.str_in _ t || _).
  set (c3 := Py.endswith _ _).
  destruct c1, c2, c3; cbn [orb]; set_solver.
Qed.

Lemma scan_aliases_elem t skill skill_norm aliases D x :
  x ∈ foldl (scan_alias t skill skill_norm) D aliases
  ↔ x ∈ D ∨ (x = skill ∧ ∃ alias, alias ∈ aliases ∧ token_start alias t).
Proof.
  revert D. induction aliases as [|a aliases IH]; intros D; cbn [foldl].
  - set_solver.
  - rewrite IH, scan_alias_elem. set_solver.
Qed.

Lemma scan_skill_elem t D skill x :
  x ∈ scan_skill t D skill ↔ x ∈ D ∨ (x = skill ∧ skill_hit t skill).
Proof.
  unfold scan_skill, skill_hit. cbv zeta. rewrite scan_aliases_elem.
  destruct (Py.str_in (normalize_skill skill) t); set_solver.
Qed.

Lemma scan_skills_elem t skills D x :
  x ∈ foldl (scan_skill t) D skills ↔ x ∈ D ∨ (x ∈ skills ∧ skill_hit t x).
Proof.
  revert D. induction skills as [|s skills IH]; intros D; cbn [foldl].
  - set_solver.
  - rewrite IH, scan_skill_elem. set_solver.
Qed.

Lemma sorted_list_elem (S : gset string) x : x ∈ sorted_list S ↔ x ∈ S.
Proof.
  unfold sorted_list. by rewrite merge_sort_Permutation, elem_of_elements.
Qed.

(** The result of [extract_skills] is sorted, the way [sorted] leaves it. *)
Lemma extract_skills_sorted text skills :
  Sorted String.le (extract_skills text skills).
Proof.
  destruct text as [|[|c t]|]; try apply Sorted_nil.
  apply (Sorted_merge_sort String.le).
Qed.

End Extraction.

(** C1, as stated, fails: the candidate "Go" is reported for the text
    "google", whose only token is "google"; the alias group of "go" is
    "go" alone and it is not a space-bounded part of the text. *)
Lemma go_inside_google :
  extract_skills (PyStr "google") (Some ["Go"]) = ["Go"]
  ∧ expand_skill_with_aliases (normalize_skill "Go") = ["go"]
  ∧ Py.split_ws "google" = ["google"]
  ∧ Py.str_in " go " " google " = false.
Proof. by vm_compute. Qed.

(** When exactly a candidate is reported on a non-empty text: its
    normalised form occurs anywhere in the lower-cased text, or a string
    of its alias group starts a token of it. *)
Lemma extract_skills_spec (text : string) (skills : list string)
    (skill : string) :
  text ≠ EmptyString →
  skill ∈ extract_skills (PyStr text) (Some skills)
  ↔ skill ∈ skills ∧ skill_hit (Py.lower text) skill.
Proof.
  intros Ht. destruct text as [|c t]; [done|].
  unfold extract_skills.
  rewrite sorted_list_elem, scan_skills_elem, elem_of_empty. tauto.
Qed.

Lemma token_start_str_in alias t : token_start alias t → Py.str_in alias t = true.
Proof.
  intros [[b ->]%prefix_spec|(x & y & ->)%str_in_spec]; apply str_in_spec.
  - by exists EmptyString, b.
  - exists (x +:+ " "), y. by rewrite !app_assoc.
Qed.

(** C1, amended. On a non-empty text, [extract_skills] reports a
    candidate exactly when its normalised form occurs anywhere in the
    lower-cased text, as a plain substring with no guard on the characters
    around it, or a string of its alias group occurs at the head of the
    lower-cased text or right after a space: an alias is guarded in front,
    and nothing is asked of what follows it. *)
Theorem extract_skills_reports (text : string) (skills : list string)
    (skill : string) :
  text ≠ EmptyString →
  skill ∈ extract_skills (PyStr text) (Some skills)
  ↔ skill ∈ skills
    ∧ (Py.str_in (normalize_skill skill) (Py.lower text) = true
       ∨ ∃ alias,
           alias ∈ expand_skill_with_aliases (normalize_skill skill)
           ∧ (Py.startswith (Py.lower text) alias = true
              ∨ Py.str_in (" " +:+ alias) (Py.lower text) = true)).
Proof. intros Ht. by apply extract_skills_spec. Qed.

Lemma extract_skills_reports_witness :
  "happy birthday" ≠ EmptyString
  ∧ ("Python" ∈ extract_skills (PyStr "happy birthday") (Some ["Python"; "Go"])
     ↔ "Python" ∈ ["Python"; "Go"]
       ∧ (Py.str_in (normalize_skill "Python") (Py.lower "happy birthday")
          = true
          ∨ ∃ alias,
              alias ∈ expand_skill_with_aliases (normalize_skill "Python")
              ∧ (Py.startswith (Py.lower "happy birthday") alias = true
                 ∨ Py.str_in (" " +:+ alias) (Py.lower "happy birthday")
                   = true))).
Proof.
  assert ("happy birthday" ≠ EmptyString) as H by discriminate.
  split; [exact H|].
  exact (extract_skills_reports "happy birthday" ["Python"; "Go"] "Python" H).
Defined.

(** The guard at work: the alias "py" inside "happy" reports nothing,
    the alias "js" at the head of "jsfiddle" reports its skill, and the
    skill "Go" is reported from "google" by the direct test. *)
Example alias_guard_at_work :
  extract_skills (PyStr "happy birthday") (Some ["Python"]) = []
  ∧ extract_skills (PyStr "try jsfiddle") (Some ["JavaScript"])
    = ["JavaScript"]
  ∧ extract_skills (PyStr "google") (Some ["Go"]) = ["Go"].
Proof. by vm_compute. Qed.

(** ** Weighted match *)

Section Rounding.
Local Open Scope Q_scope.

Lemma round_half_even_lower (x : Q) : (Qfloor x <= Py.round_half_even x)%Z.
Proof.
  unfold Py.round_half_even.
  destruct (_ ?= _); [destruct (Z.even _)|..]; lia.
Qed.

Lemma round_half_even_proper (x y : Q) :
  x == y → Py.round_half_even x = Py.round_half_even y.
Proof.
  intros E. unfold Py.round_half_even.
  rewrite (Qfloor_comp _ _ E).
  assert (x - inject_Z (Qfloor y) == y - inject_Z (Qfloor y)) as ->
    by (by rewrite E).
  done.
Qed.

Lemma round_n_proper (x y : Q) (n : nat) :
  x == y → Py.round_n x n == Py.round_n y n.
Proof.
  intros E. unfold Py.round_n.
  rewrite (round_half_even_proper (x * _) (y * inject_Z (10 ^ Z.of_nat n)));
    [done|].
  by rewrite E.
Qed.

Lemma qmax_lower (a b : Q) : a <= qmax a b.
Proof.
  unfold qmax. destruct (Qlt_le_dec a b); [by apply Qlt_le_weak|apply Qle_refl].
Qed.

(** [round(max(k, y), 0)] is never below the integer [k]. *)
Lemma round_floor (k : Z) (y : Q) :
  inject_Z k <= Py.round_n (qmax (inject_Z k) y) 0.
Proof.
  unfold Py.round_n. change (inject_Z (10 ^ Z.of_nat 0)) with 1.
  set (x := qmax (inject_Z k) y).
  assert (inject_Z (Py.round_half_even (x * 1)) / 1
          == inject_Z (Py.round_half_even x)) as ->.
  { rewrite (round_half_even_proper (x * 1) x) by ring. field. }
  rewrite <- Zle_Qle.
  etrans; [|apply round_half_even_lower].
  rewrite <- (Qfloor_Z k). apply Qfloor_resp_le, qmax_lower.
Qed.

(** The nearest integer, the even one of two that are equally near. *)
Lemma round_half_even_nearest (w : Z) :
  let r := Py.round_half_even (w # 200) in
  (200 * r - 100 ≤ w ≤ 200 * r + 100)%Z
  ∧ (Z.abs (200 * r - w) = 100%Z → Z.even r = true).
Proof.
  unfold Py.round_half_even.
  change (Qfloor (w # 200)) with (w / 200)%Z.
  pose proof (Z.div_mod w 200 ltac:(lia)) as Hdm.
  pose proof (Z.mod_pos_bound w 200 ltac:(lia)) as Hm.
  set (f := (w / 200)%Z) in *. set (m := (w mod 200)%Z) in *.
  destruct (_ ?= _) eqn:Hc.
  - apply Qeq_alt in Hc. unfold Qeq in Hc. cbn in Hc.
    assert (m = 100%Z) by lia.
    destruct (Z.even f) eqn:He; (split; [lia|]); [done|].
    intros _. by rewrite Z.even_add, He.
  - apply Qlt_alt in Hc. unfold Qlt in Hc. cbn in Hc.
    split; [lia|]. intros Ha. lia.
  - apply Qgt_alt in Hc. unfold Qlt in Hc. cbn in Hc.
    split; [lia|]. intros Ha. lia.
Qed.

End Rounding.

(** A required skill that the premium table does not list weighs
    [(1 + 1) * 10 = 20] in the source, more than any listed skill. *)
Lemma weigh_absent resume_norm acc req_skill :
  dict_get SKILL_MULTIPLIERS (normalize_skill req_skill) = None →
  ((weigh resume_norm acc req_skill).1 == acc.1 + 20)%Q.
Proof.
  intros H. unfold weigh. destruct acc as [total matched]. rewrite H.
  cbn [default fst]. ring.
Qed.

(** C2 on the input [resume = ["Python"]], [required = ["Python"; "Figma"]]:
    "figma" is not in the premium table; the source answers 35.06, where
    the weights of the claim, 10.8 and 10, give 10.8 / 20.8 * 100. *)
Theorem weighted_match_absent_premium :
  dict_get SKILL_MULTIPLIERS (normalize_skill "Figma") = None
  ∧ (calculate_weighted_match_score ["Python"] (ReqList ["Python"; "Figma"])
     == 3506 # 100)%Q
  ∧ (spec_weighted_match ["Python"] ["Python"; "Figma"] == 675 # 13)%Q
  ∧ ¬ (calculate_weighted_match_score ["Python"] (ReqList ["Python"; "Figma"])
       == Py.round_n (spec_weighted_match ["Python"] ["Python"; "Figma"]) 2)%Q.
Proof. by vm_compute. Qed.

(** ** Job role *)

Lemma first_role_head prepare t role phrase phrases d :
  Py.str_in (prepare phrase) t = true →
  first_role prepare t ((role, phrase :: phrases) :: d) = Some role.
Proof. intros H. cbn [first_role existsb]. by rewrite H. Qed.

Lemma first_role_in_keys prepare t d role :
  first_role prepare t d = Some role → role ∈ keys d.
Proof.
  induction d as [|[r ps] d IH]; [done|]. cbn [first_role].
  destruct (existsb _ ps).
  - intros [= ->]. unfold keys. cbn. left.
  - intros H. unfold keys. cbn. right. by apply IH.
Qed.

(** The non-technical table is read first: a hit there is the answer,
    whatever the technical tables would say. *)
Lemma non_tech_first (c : ascii) (t : string) role :
  first_role Py.strip (collapse_spaces (Py.strip (Py.lower (String c t))))
    exact_phrases_non_tech = Some role →
  detect_job_role (PyStr (String c t)) = role
  ∧ role ∈ keys exact_phrases_non_tech.
Proof.
  intros H. split; [|by eapply first_role_in_keys].
  unfold detect_job_role. by rewrite H.
Qed.

(** The phrase may come in any letter case and with any text around it. *)
Lemma detect_digital_marketing_any_case (text : string) :
  Py.str_in "digital marketing manager" (Py.lower text) = true →
  detect_job_role (PyStr text) = "Digital Marketing".
Proof.
  intros H. apply str_in_spec in H as (a & b & Hab).
  destruct text as [|c t]; [by destruct a|].
  unfold detect_job_role.
  set (job_lower := collapse_spaces (Py.strip (Py.lower (String c t)))).
  assert (Py.str_in "digital marketing" job_lower = true) as Hin.
  { subst job_lower. rewrite Hab.
    change (a +:+ "digital marketing manager" +:+ b)
      with (a +:+ String "d" ("igital marketing manage" +:+ String "r" b)).
    destruct (normalise_keeps "d" "igital marketing manage" "r" a b)
      as (x & y & ->); [done..|].
    change (x +:+ String "d" ("igital marketing manage" +:+ String "r" y))
      with (x +:+ "digital marketing" +:+ (" manager" +:+ y)).
    apply str_in_app. }
  unfold exact_phrases_non_tech. by rewrite first_role_head.
Qed.

(** C3. For every job description that contains the phrase
    "digital marketing manager", [detect_job_role] answers
    "Digital Marketing", which is none of the technical roles, whatever
    else the text contains. *)
Theorem digital_marketing_manager_role (text : string) :
  Py.str_in "digital marketing manager" text = true →
  detect_job_role (PyStr text) = "Digital Marketing"
  ∧ "Digital Marketing" ∉ technical_roles.
Proof.
  intros H. split; [|compute_done].
  apply detect_digital_marketing_any_case.
  apply str_in_spec in H as (a & b & ->).
  rewrite !lower_app. apply str_in_app.
Qed.

Lemma digital_marketing_manager_role_witness :
  Py.str_in "digital marketing manager"
    "hiring a digital marketing manager for our analytics platform" = true
  ∧ detect_job_role
      (PyStr "hiring a digital marketing manager for our analytics platform")
    = "Digital Marketing"
  ∧ "Digital Marketing" ∉ technical_roles.
Proof.
  split; [reflexivity|].
  apply (digital_marketing_manager_role
           "hiring a digital marketing manager for our analytics platform").
  reflexivity.
Defined.

(** C10. On [None], on the empty string and on any object that is not a
    string, [detect_job_role] answers "Software Engineer", not the
    "Other Role" at the end of its cascade. *)
Theorem detect_job_role_absent (job_description : pyval) :
  absent_text job_description →
  detect_job_role job_description = "Software Engineer"
  ∧ detect_job_role job_description ≠ "Other Role".
Proof.
  intros [->|[->|Hns]]; [done..|].
  destruct job_description as [|s|b]; [done| |done].
  by destruct (Hns s).
Qed.

Lemma detect_job_role_absent_witness :
  absent_text (PyObj true)
  ∧ detect_job_role (PyObj true) = "Software Engineer"
  ∧ detect_job_role (PyObj true) ≠ "Other Role".
Proof.
  assert (absent_text (PyObj true)) as H by (right; right; intros s; discriminate).
  split; [exact H|exact (detect_job_role_absent (PyObj true) H)].
Defined.

(** ** Job requirements *)

(** What the source does by its tables: a role without an entry in
    [role_defaults] gets the literal skills, or its own name when there
    are none and it is not "Other Role". *)
Lemma requirements_outside_table (job_description : string) :
  (String.length (Py.strip job_description) <? 10)%nat = false →
  dict_get role_defaults (detect_job_role (PyStr job_description)) = None →
  extract_job_requirements job_description
  = if bool_decide (literal_skills job_description = ∅)
       && negb (str_eqb (detect_job_role (PyStr job_description)) "Other Role")
    then [detect_job_role (PyStr job_description)]
    else sorted_list (literal_skills job_description).
Proof.
  intros Hlen Hrole. unfold extract_job_requirements.
  rewrite Hlen, Hrole. cbv zeta.
  generalize (detect_job_role (PyStr job_description)) as role.
  generalize (literal_skills job_description) as detected. intros detected role.
  destruct (bool_decide_reflect (detected = ∅)) as [->|_]; [|done]. cbn [andb].
  destruct (negb _); [|done].
  rewrite (right_id_L ∅ (∪)).
  unfold sorted_list. by rewrite elements_singleton.
Qed.

(** Every role of the non-technical table has an entry in [role_defaults]:
    with fewer than six skills read off the text, each of them is given
    its defaults. *)
Lemma non_tech_roles_have_defaults :
  Forall (λ role, dict_has role_defaults role = true)
         (keys exact_phrases_non_tech).
Proof. compute_done. Qed.

(** C4 on the description "We are hiring a video editor for our studio":
    the role is "Video Editor", a role of the non-technical table and of
    no technical one; no skill is read off the text; the six defaults of
    the role are returned all the same, and the role name is not. *)
Theorem video_editor_gets_defaults :
  detect_job_role (PyStr "We are hiring a video editor for our studio")
  = "Video Editor"
  ∧ "Video Editor" ∈ keys exact_phrases_non_tech
  ∧ ("Video Editor" ∉ technical_roles)
  ∧ elements (literal_skills "We are hiring a video editor for our studio") = []
  ∧ extract_job_requirements "We are hiring a video editor for our studio"
    = ["After Effects"; "Color Grading"; "DaVinci Resolve"; "Motion Graphics";
       "Premiere Pro"; "Video Editing"].
Proof. split_and!; [by vm_compute|compute_done|compute_done|by vm_compute..]. Qed.

(** ** Plain match *)

Lemma filter_all {A} (P : A → Prop) `{∀ x, Decision (P x)} (l : list A) :
  Forall P l → filter P l = l.
Proof.
  induction 1 as [|x l Hx _ IH]; [done|].
  rewrite filter_cons_True by done. by rewrite IH.
Qed.

Lemma calculate_match_list (resume_skills required : list string) :
  required ≠ [] →
  calculate_match resume_skills (ReqList required)
  = let resume_set := norm_set resume_skills in
    let required_set := norm_set required in
    let matched := resume_set ∩ required_set in
    (Py.round_n
       (if (size required_set =? 0)%nat then 0%Q
        else ((Z.of_nat (size matched) # 1)
              / (Z.of_nat (size required_set) # 1) * 100)%Q) 2,
     filter (λ s, normalize_skill s ∈ matched) resume_skills,
     elements (required_set ∖ resume_set)).
Proof. by destruct required. Qed.

(** C5. For every non-empty list of skills [X], [calculate_match X X]
    gives 100 percent, [X] itself as the matched list, in its own casing
    and order, and no missing skill. *)
Theorem calculate_match_self (X : list string) :
  X ≠ [] →
  ((calculate_match X (ReqList X)).1.1 == 100)%Q
  ∧ (calculate_match X (ReqList X)).1.2 = X
  ∧ (calculate_match X (ReqList X)).2 = [].
Proof.
  intros HX. rewrite calculate_match_list by done. cbv zeta.
  set (S := norm_set X).
  assert (size S ≠ 0) as Hsize.
  { apply size_non_empty_iff. destruct X as [|x X']; [done|].
    intros HS. apply (not_elem_of_empty (C:=gset string) (normalize_skill x)).
    rewrite <- HS. apply elem_of_list_to_set. cbn. left. }
  rewrite (idemp_L (∩) S), difference_diag_L, elements_empty. cbn [fst snd].
  split_and!; [|apply filter_all|done].
  - destruct (Nat.eqb_spec (size S) 0) as [|_]; [done|].
    rewrite (round_n_proper _ (inject_Z 100)); [done|].
    field. unfold Qeq; cbn. lia.
  - apply Forall_forall. intros s Hs.
    apply elem_of_list_to_set, list_elem_of_fmap. eauto.
Qed.

Lemma calculate_match_self_witness :
  ["Python"; "SQL"; "Machine Learning"] ≠ []
  ∧ ((calculate_match ["Python"; "SQL"; "Machine Learning"]
        (ReqList ["Python"; "SQL"; "Machine Learning"])).1.1 == 100)%Q
  ∧ (calculate_match ["Python"; "SQL"; "Machine Learning"]
       (ReqList ["Python"; "SQL"; "Machine Learning"])).1.2
    = ["Python"; "SQL"; "Machine Learning"]
  ∧ (calculate_match ["Python"; "SQL"; "Machine Learning"]
       (ReqList ["Python"; "SQL"; "Machine Learning"])).2 = [].
Proof.
  assert (["Python"; "SQL"; "Machine Learning"] ≠ []) as H by discriminate.
  split; [exact H|].
  exact (calculate_match_self ["Python"; "SQL"; "Machine Learning"] H).
Defined.

(** ** Resume quality *)

Section Quality.
Local Open Scope Z_scope.

Ltac grade_cases :=
  repeat case_match; cbn; unfold rubric_education_points; lia.

Lemma grade_length_bounds n : 0 ≤ (grade_length n).1 ≤ 15.
Proof. unfold grade_length. grade_cases. Qed.

Lemma grade_skills_bounds n : 0 ≤ (grade_skills n).1 ≤ 15.
Proof. unfold grade_skills. grade_cases. Qed.

Lemma grade_experience_bounds e : 0 ≤ (grade_experience e).1 ≤ 20.
Proof. unfold grade_experience. grade_cases. Qed.

Lemma grade_education_bounds e : 0 ≤ (grade_education e).1 ≤ 15.
Proof. unfold grade_education. grade_cases. Qed.

Lemma grade_contact_bounds t : 0 ≤ (grade_contact t).1 ≤ 10.
Proof. unfold grade_contact. grade_cases. Qed.

Lemma grade_sections_bounds t : 3 ≤ (grade_sections t).1 ≤ 10.
Proof. unfold grade_sections. grade_cases. Qed.

Lemma grade_verbs_bounds t : 0 ≤ (grade_verbs t).1 ≤ 10.
Proof. unfold grade_verbs. grade_cases. Qed.

Lemma grade_metrics_bounds t : 0 ≤ (grade_metrics t).1 ≤ 5.
Proof. unfold grade_metrics. grade_cases. Qed.

Lemma quality_total (t : string) skills experience education :
  t ≠ EmptyString →
  (analyze_resume_quality (PyStr t) skills experience education).1
  = Z.min 100
      ((grade_length (String.length t)).1 + (grade_skills (length skills)).1
       + (grade_experience experience).1 + (grade_education education).1
       + (grade_contact t).1 + (grade_sections t).1
       + (grade_verbs t).1 + (grade_metrics t).1).
Proof.
  intros Ht. destruct t as [|c t]; [done|].
  unfold analyze_resume_quality. cbn [foldl].
  unfold add_grade. cbn [fst snd]. f_equal.
Qed.

(** C7. Whatever the text (a string or not), the skill list, the
    experience and the education, the score of [analyze_resume_quality]
    lies between 0 and 100. *)
Theorem quality_score_bounds (resume_text : pyval)
    (resume_skills : list string) (experience : Q) (education : string) :
  0 ≤ (analyze_resume_quality resume_text resume_skills experience education).1
    ≤ 100.
Proof.
  destruct resume_text as [|t|]; [done| |done].
  destruct (decide (t = EmptyString)) as [->|Ht]; [done|].
  rewrite quality_total by done.
  pose proof (grade_length_bounds (String.length t)).
  pose proof (grade_skills_bounds (length resume_skills)).
  pose proof (grade_experience_bounds experience).
  pose proof (grade_education_bounds education).
  pose proof (grade_contact_bounds t).
  pose proof (grade_sections_bounds t).
  pose proof (grade_verbs_bounds t).
  pose proof (grade_metrics_bounds t).
  lia.
Qed.

End Quality.

(** ** Salary *)

Lemma salary_table_mid (industry : string) (data : dict band) :
  dict_get INDUSTRY_SALARY_DATA industry = Some data →
  is_Some (dict_get data "Mid-Level").
Proof.
  unfold INDUSTRY_SALARY_DATA. cbn [dict_get].
  repeat (destruct (String.eqb industry _); [intros [= <-]; by eexists|]).
  done.
Qed.

(** The floors hold whenever the experience is above the float range's
    lower end, in particular for every experience that is not negative,
    however large, and for every object that is not an [int]. *)
Lemma predict_salary_floor (experience_years : experience_arg)
    (resume_skills : list string) (education industry : string) :
  (- (2 ^ 1024 - 2 ^ 970) < experience_value experience_years)%Z →
  ∃ s,
    predict_salary experience_years resume_skills education industry = Some s
    ∧ (35 <= sal_min s)%Q ∧ (50 <= sal_avg s)%Q ∧ (70 <= sal_max s)%Q.
Proof.
  intros Hexp. unfold predict_salary.
  destruct (dict_get INDUSTRY_SALARY_DATA "Tech") as [tech|] eqn:Htech; [|done].
  cbn [mbind option_bind].
  set (industry_data := default tech _).
  assert (is_Some (dict_get industry_data "Mid-Level")) as [mid Hmid].
  { subst industry_data.
    destruct (dict_get INDUSTRY_SALARY_DATA industry) as [data|] eqn:Hdata;
      cbn [default]; by eapply salary_table_mid. }
  rewrite Hmid. cbn [mbind option_bind].
  unfold Py.float_of_int.
  assert (20 < 2 ^ 1024 - 2 ^ 970)%Z as Hbig by done.
  set (bound := (2 ^ 1024 - 2 ^ 970)%Z) in *.
  destruct (Z.ltb_spec (Z.abs (Z.min (Z.min (experience_value experience_years) 30) 20))
              bound) as [_|Hge]; [|lia].
  cbn [mbind option_bind].
  eexists; split; [done|]. cbn [sal_min sal_avg sal_max].
  split_and!;
    [apply (round_floor 35)|apply (round_floor 50)|apply (round_floor 70)].
Qed.

Lemma experience_not_int_in_range (repr : string) :
  (0 ≤ experience_value (ExpOther repr))%Z.
Proof.
  unfold experience_value. destruct (Regex.search _ _) as [m|]; [|done].
  generalize (Regex.group0 repr m). intros digits.
  unfold Py.int_of_digits.
  destruct digits as [|c d]; [done|]. destruct (_ <? _)%nat; [done|].
  assert (∀ s acc, (0 ≤ acc)%Z → (0 ≤ default 0 (Py.digits_go acc s))%Z) as H.
  { induction s as [|a s IH]; intros acc Hacc; cbn [Py.digits_go]; [done|].
    destruct (Py.is_digit a); [|done]. apply IH. lia. }
  by apply H.
Qed.

(** C6 on the input [experience_years = -2**1024]: the upper side is
    capped by [min(exp, 30)], the lower side is not, and the conversion of
    the integer in [min(exp, 20) * 0.02] fails; no salary is returned. One
    step above the failing range, and on every larger integer, the floors
    hold. *)
Theorem predict_salary_overflow :
  predict_salary (ExpInt (- 2 ^ 1024)) [] "PhD" "Tech" = None
  ∧ sal_min <$> predict_salary (ExpInt (- 10 ^ 9)) [] "PhD" "Tech" = Some 35%Q
  ∧ sal_min <$> predict_salary (ExpInt (10 ^ 400)) [] "PhD" "Tech" = Some 483%Q.
Proof. by vm_compute. Qed.

(** ** Reading time *)

(** C8, as stated, fails: on a text of 250 words the source reports 1
    minute, where rounding 250 / 200 up gives 2. *)
Lemma reading_time_250_words :
  word_count (get_readability_stats (words_text 250)) = 250
  ∧ reading_time_mins (get_readability_stats (words_text 250)) = 1%Z
  ∧ reading_time_rounded_up 250 = 2%Z
  ∧ reading_time_mins (get_readability_stats (words_text 250))
    ≠ reading_time_rounded_up 250.
Proof. by vm_compute. Qed.

(** C8, amended. For every non-empty resume text of [w] words the reading
    time is [max 1 r], where [r] is the whole number nearest to [w / 200],
    the even one when two are equally near. *)
Theorem reading_time_nearest (resume_text : string) :
  resume_text ≠ EmptyString →
  word_count (get_readability_stats resume_text)
  = length (Py.split_ws resume_text)
  ∧ ∃ r : Z,
      reading_time_mins (get_readability_stats resume_text) = Z.max 1 r
      ∧ (200 * r - 100
         ≤ Z.of_nat (word_count (get_readability_stats resume_text))
         ≤ 200 * r + 100)%Z
      ∧ (Z.abs (200 * r - Z.of_nat (word_count (get_readability_stats resume_text)))
         = 100%Z → Z.even r = true).
Proof.
  intros Ht. destruct resume_text as [|c t]; [done|].
  cbn [get_readability_stats word_count reading_time_mins].
  split; [done|].
  eexists; split; [done|].
  apply round_half_even_nearest.
Qed.

Lemma reading_time_nearest_witness :
  words_text 300 ≠ EmptyString
  ∧ word_count (get_readability_stats (words_text 300))
    = length (Py.split_ws (words_text 300))
  ∧ ∃ r : Z,
      reading_time_mins (get_readability_stats (words_text 300)) = Z.max 1 r
      ∧ (200 * r - 100
         ≤ Z.of_nat (word_count (get_readability_stats (words_text 300)))
         ≤ 200 * r + 100)%Z
      ∧ (Z.abs (200 * r - Z.of_nat (word_count (get_readability_stats (words_text 300))))
         = 100%Z → Z.even r = true).
Proof.
  assert (words_text 300 ≠ EmptyString) as H by (vm_compute; discriminate).
  split; [exact H|exact (reading_time_nearest (words_text 300) H)].
Defined.

(** ** Batch ranking *)

Lemma rank_file_failed custom job file :
  extraction_failed file → rank_file custom job file = zero_row file.
Proof. unfold extraction_failed, rank_file. by intros ->. Qed.

Lemma ranking_data_length files jd custom :
  length (ranking_data files jd custom) = length files.
Proof. unfold ranking_data. by rewrite length_fmap. Qed.

(** An unreadable file and a file without pages give a sentinel. *)
Lemma unreadable_fails name e : extraction_failed (Upload name (Unreadable e)).
Proof. done. Qed.

Lemma no_pages_fails name : extraction_failed (Upload name (Pages [])).
Proof. done. Qed.

(** C9. For every batch of [N >= 1] files and every job description (not
    empty, or the page shows no table), the ranking is, up to its order,
    one row per file: it has exactly [N] rows, and the row of every file
    whose text is a sentinel carries the file's name and five zeros. *)
Theorem batch_ranking_rows (uploaded_files : list upload)
    (job_description custom_skills_input : string) :
  uploaded_files ≠ [] → job_description ≠ EmptyString →
  ∃ rows row_of,
    batch_ranking uploaded_files job_description custom_skills_input = Some rows
    ∧ rows ≡ₚ row_of <$> uploaded_files
    ∧ length rows = length uploaded_files
    ∧ ∀ file, extraction_failed file → row_of file = zero_row file.
Proof.
  intros Hf Hj. unfold batch_ranking.
  destruct uploaded_files as [|f fs]; [done|].
  destruct job_description as [|c jd]; [done|].
  eexists _, _. split; [done|].
  split; [apply merge_sort_Permutation|].
  split; [|intros file; apply rank_file_failed].
  rewrite merge_sort_Permutation. apply ranking_data_length.
Qed.

Lemma batch_ranking_rows_witness :
  [Upload "a.pdf" (Pages [Some "Python developer, 5 years, AWS and Docker"]);
   Upload "b.pdf" (Unreadable "EOF marker not found");
   Upload "c.pdf" (Pages [Some "Led teams. Skills: SQL, Git. me@x.org"])] ≠ []
  ∧ "We need a devops engineer with python and aws" ≠ EmptyString
  ∧ ∃ rows row_of,
      batch_ranking
        [Upload "a.pdf" (Pages [Some "Python developer, 5 years, AWS and Docker"]);
         Upload "b.pdf" (Unreadable "EOF marker not found");
         Upload "c.pdf" (Pages [Some "Led teams. Skills: SQL, Git. me@x.org"])]
        "We need a devops engineer with python and aws" EmptyString = Some rows
      ∧ rows ≡ₚ row_of <$>
          [Upload "a.pdf" (Pages [Some "Python developer, 5 years, AWS and Docker"]);
           Upload "b.pdf" (Unreadable "EOF marker not found");
           Upload "c.pdf" (Pages [Some "Led teams. Skills: SQL, Git. me@x.org"])]
      ∧ length rows
        = length
            [Upload "a.pdf" (Pages [Some "Python developer, 5 years, AWS and Docker"]);
             Upload "b.pdf" (Unreadable "EOF marker not found");
             Upload "c.pdf" (Pages [Some "Led teams. Skills: SQL, Git. me@x.org"])]
      ∧ ∀ file, extraction_failed file → row_of file = zero_row file.
Proof.
  split; [discriminate|]. split; [discriminate|].
  apply batch_ranking_rows; discriminate.
Defined.

(** Three resumes, the second of which cannot be read: three rows, the
    unreadable one last with an ATS score of 0. *)
Example batch_of_three :
  (λ rows : list row,
     (λ r : row, (resume r, Qeq_bool (ats_score r) 0)) <$> rows) <$>
    batch_ranking
      [Upload "a.pdf" (Pages [Some "Python developer, 5 years, AWS and Docker"]);
       Upload "b.pdf" (Unreadable "EOF marker not found");
       Upload "c.pdf" (Pages [Some "Led teams. Skills: SQL, Git. me@x.org"])]
      "We need a devops engineer with python and aws" EmptyString
  = Some [("a.pdf", false); ("c.pdf", false); ("b.pdf", true)].
Proof. by vm_compute. Qed.

(** * Further properties *)

Import Insights.

(** ** Normal forms and alias groups *)

Section Normalisation.
Implicit Types (s t : string) (c : ascii).

Lemma is_space_lower c : Py.is_space (Py.lower_char c) = Py.is_space c.
Proof. by destruct c as [[] [] [] [] [] [] [] []]. Qed.

Lemma lower_char_idem c : Py.lower_char (Py.lower_char c) = Py.lower_char c.
Proof. by destruct c as [[] [] [] [] [] [] [] []]. Qed.

Lemma lower_idem s : Py.lower (Py.lower s) = Py.lower s.
Proof.
  induction s as [|c s IH]; [done|]. cbn. by rewrite lower_char_idem, IH.
Qed.

Lemma lower_lstrip s : Py.lower (Py.lstrip s) = Py.lstrip (Py.lower s).
Proof.
  induction s as [|c s IH]; [done|]. cbn [Py.lower Py.lstrip].
  rewrite is_space_lower. by destruct (Py.is_space c).
Qed.

Lemma all_space_lower s : Py.all_space (Py.lower s) = Py.all_space s.
Proof.
  induction s as [|c s IH]; [done|]. cbn [Py.lower Py.all_space].
  by rewrite is_space_lower, IH.
Qed.

Lemma lower_rstrip s : Py.lower (Py.rstrip s) = Py.rstrip (Py.lower s).
Proof.
  induction s as [|c s IH]; [done|].
  change (Py.lower (String c s)) with (String (Py.lower_char c) (Py.lower s)).
  cbn [Py.rstrip].
  change (String (Py.lower_char c) (Py.lower s)) with (Py.lower (String c s)).
  rewrite all_space_lower. destruct (Py.all_space (String c s)); [done|].
  cbn [Py.lower]. by rewrite IH.
Qed.

Lemma lower_strip s : Py.lower (Py.strip s) = Py.strip (Py.lower s).
Proof. unfold Py.strip. by rewrite lower_rstrip, lower_lstrip. Qed.

Lemma all_space_rstrip s :
  Py.all_space s = false → Py.all_space (Py.rstrip s) = false.
Proof.
  induction s as [|c s IH]; [done|]. intros H. cbn [Py.rstrip]. rewrite H.
  cbn [Py.all_space] in *. destruct (Py.is_space c); [|done].
  cbn [andb] in *. by apply IH.
Qed.

Lemma rstrip_idem s : Py.rstrip (Py.rstrip s) = Py.rstrip s.
Proof.
  induction s as [|c s IH]; [done|]. cbn [Py.rstrip].
  destruct (Py.all_space (String c s)) eqn:H; [done|].
  cbn [Py.rstrip].
  assert (Py.all_space (String c (Py.rstrip s)) = false) as ->.
  { cbn [Py.all_space] in *. destruct (Py.is_space c); [|done].
    cbn [andb] in *. by apply all_space_rstrip. }
  by rewrite IH.
Qed.

Lemma lstrip_head s :
  Py.lstrip s = EmptyString
  ∨ ∃ c t, Py.lstrip s = String c t ∧ Py.is_space c = false.
Proof.
  induction s as [|c s IH]; [by left|]. cbn [Py.lstrip].
  destruct (Py.is_space c) eqn:H; [done|]. right. by exists c, s.
Qed.

Lemma strip_idem s : Py.strip (Py.strip s) = Py.strip s.
Proof.
  unfold Py.strip. destruct (lstrip_head s) as [->|(c & t & -> & Hc)]; [done|].
  assert (Py.rstrip (String c t) = String c (Py.rstrip t)) as ->.
  { cbn [Py.rstrip Py.all_space]. by rewrite Hc. }
  cbn [Py.lstrip]. rewrite Hc.
  change (String c (Py.rstrip t)) with (EmptyString +:+ String c (Py.rstrip t)).
  rewrite rstrip_keep by done. by rewrite rstrip_idem.
Qed.

Lemma normalize_idem s : normalize_skill (normalize_skill s) = normalize_skill s.
Proof.
  unfold normalize_skill. by rewrite lower_strip, lower_idem, strip_idem.
Qed.

Lemma expand_normalized s :
  expand_skill_with_aliases (normalize_skill s) = expand_skill_with_aliases s.
Proof. unfold expand_skill_with_aliases. by rewrite normalize_idem. Qed.

Lemma str_eqb_eq a b : str_eqb a b = true → a = b.
Proof. unfold str_eqb. intros H. by apply String.eqb_eq. Qed.

Lemma dict_get_elem {V} (d : dict V) k v : dict_get d k = Some v → (k, v) ∈ d.
Proof.
  induction d as [|[k' v'] d IH]; [done|]. cbn [dict_get].
  destruct (String.eqb_spec k k') as [->|_].
  - intros [= ->]. left.
  - intros H. right. by apply IH.
Qed.

Lemma alias_owner_elem skill_norm d group :
  alias_owner skill_norm d = Some group →
  ∃ k als, (k, als) ∈ d ∧ group = k :: als.
Proof.
  induction d as [|[k als] d IH]; [done|]. cbn [alias_owner].
  destruct (mem skill_norm als).
  - intros [= <-]. exists k, als. split; [left|done].
  - intros (k' & als' & Hin & ->)%IH. exists k', als'. split; [by right|done].
Qed.

Lemma expand_cases skill :
  expand_skill_with_aliases skill = [normalize_skill skill]
  ∨ ∃ k als, (k, als) ∈ SKILL_ALIASES
             ∧ expand_skill_with_aliases skill = k :: als.
Proof.
  unfold expand_skill_with_aliases.
  destruct (dict_get SKILL_ALIASES _) as [als|] eqn:Hk.
  - right. eexists _, als. split; [by apply dict_get_elem|done].
  - destruct (alias_owner _ _) as [group|] eqn:Ho; [|by left].
    right. apply alias_owner_elem in Ho as (k & als & Hin & ->). eauto.
Qed.

(** Every string of an alias group expands to the whole group. *)
Lemma alias_groups_closed :
  Forall (λ '(k, als),
            Forall (λ a, expand_skill_with_aliases a = k :: als) (k :: als))
         SKILL_ALIASES.
Proof. compute_done. Qed.

Lemma norm_in_group skill :
  normalize_skill skill ∈ expand_skill_with_aliases skill.
Proof.
  unfold expand_skill_with_aliases. cbv zeta.
  destruct (dict_get SKILL_ALIASES _); [left|].
  destruct (alias_owner _ _) as [group|] eqn:E; [|left].
  clear -E. induction SKILL_ALIASES as [|[m al] d IH]; [done|].
  cbn [alias_owner] in E. destruct (mem _ al) eqn:Hm; [|by apply IH].
  injection E as <-. right. unfold mem in Hm.
  apply existsb_exists in Hm as (x & Hx & Heq).
  apply str_eqb_eq in Heq as ->. by apply list_elem_of_In.
Qed.

(** X1. [normalize_skill] is idempotent, and a skill and its normal form
    have the same alias group: [extract_skills], which expands the normal
    form, and [get_keyword_density], which expands the skill as given,
    look for the same strings. *)
Theorem normalize_skill_idempotent (skill : string) :
  normalize_skill (normalize_skill skill) = normalize_skill skill
  ∧ expand_skill_with_aliases (normalize_skill skill)
    = expand_skill_with_aliases skill.
Proof. split; [apply normalize_idem|apply expand_normalized]. Qed.

(** X2. The alias groups are symmetric: a string of the group of a skill
    (the skill in normal form, its main name, one of its aliases) expands
    to the same group. *)
Theorem alias_group_symmetric (skill alias : string) :
  alias ∈ expand_skill_with_aliases skill →
  expand_skill_with_aliases alias = expand_skill_with_aliases skill.
Proof.
  destruct (expand_cases skill) as [H|(k & als & Hin & ->)].
  - rewrite H. intros ->%list_elem_of_singleton. by rewrite expand_normalized.
  - intros Ha. pose proof alias_groups_closed as H.
    rewrite Forall_forall in H. specialize (H _ Hin). cbn in H.
    rewrite Forall_forall in H. by apply H.
Qed.

Lemma alias_group_symmetric_witness :
  "nodejs" ∈ expand_skill_with_aliases " JS"
  ∧ expand_skill_with_aliases "nodejs" = expand_skill_with_aliases " JS".
Proof.
  split; [compute_done|]. apply (alias_group_symmetric " JS" "nodejs").
  compute_done.
Defined.

End Normalisation.

(** ** What the extractors return *)

Section Extractors.

Lemma sorted_list_NoDup (S : gset string) : NoDup (sorted_list S).
Proof.
  unfold sorted_list. rewrite merge_sort_Permutation. apply NoDup_elements.
Qed.

Lemma sorted_list_Sorted (S : gset string) : Sorted String.le (sorted_list S).
Proof. apply (Sorted_merge_sort String.le). Qed.

Lemma sorted_list_nil (S : gset string) : sorted_list S = [] ↔ S = ∅.
Proof.
  split.
  - intros H. apply set_eq. intros x. rewrite <- sorted_list_elem, H.
    set_solver.
  - by intros ->.
Qed.

(** X3. Whatever the text and the candidates, the list of
    [extract_skills] is sorted, has no duplicate, and holds candidates
    only, each in the spelling of the candidate list. *)
Theorem extract_skills_output (text : pyval) (skills : option (list string)) :
  Sorted String.le (extract_skills text skills)
  ∧ NoDup (extract_skills text skills)
  ∧ extract_skills text skills ⊆ candidates skills.
Proof.
  destruct text as [|[|c t]|];
    try (split_and!; [constructor|constructor|by intros ? ?%elem_of_nil]).
  unfold extract_skills. split_and!.
  - apply sorted_list_Sorted.
  - apply sorted_list_NoDup.
  - intros skill. rewrite sorted_list_elem, scan_skills_elem, elem_of_empty.
    intros [[]|[H _]]. by destruct skills.
Qed.

(** X4. The candidates do not interfere: a candidate is reported from a
    list exactly when it is reported from the list that holds it alone. *)
Theorem extract_skills_one_by_one (text : string) (skills : list string)
    (skill : string) :
  skill ∈ extract_skills (PyStr text) (Some skills)
  ↔ skill ∈ skills ∧ skill ∈ extract_skills (PyStr text) (Some [skill]).
Proof.
  destruct text as [|c t].
  - cbn. rewrite elem_of_nil. tauto.
  - rewrite !extract_skills_spec by done. rewrite list_elem_of_singleton. tauto.
Qed.

Lemma digits_go_nonneg s acc n :
  (0 ≤ acc)%Z → Py.digits_go acc s = Some n → (0 ≤ n)%Z.
Proof.
  revert acc. induction s as [|a s IH]; intros acc Hacc; cbn [Py.digits_go].
  - by intros [= <-].
  - destruct (Py.is_digit a); [|done]. apply IH. lia.
Qed.

Lemma int_of_digits_nonneg s n : Py.int_of_digits s = Some n → (0 ≤ n)%Z.
Proof.
  unfold Py.int_of_digits. destruct s; [done|]. destruct (_ <? _)%nat; [done|].
  by apply digits_go_nonneg.
Qed.

Lemma experience_of_item_nonneg item n :
  experience_of_item item = Some n → (0 ≤ n)%Z.
Proof.
  unfold experience_of_item. destruct (_ =? _)%nat.
  - destruct (Py.int_of_digits item) as [year|]; [|done]. cbn.
    destruct (_ && _) eqn:H; [|done]. intros [= <-].
    apply andb_true_iff in H as [H%Z.ltb_lt _]. lia.
  - apply int_of_digits_nonneg.
Qed.

Lemma foldl_max_lower m ms : (m ≤ foldl Z.max m ms)%Z.
Proof.
  revert m. induction ms as [|x ms IH]; intros m; cbn [foldl]; [lia|].
  etrans; [|apply IH]. lia.
Qed.

Lemma extract_experience_nonneg text : (0 ≤ extract_experience text)%Z.
Proof.
  unfold extract_experience.
  set (items := mjoin _).
  destruct (omap experience_of_item items) as [|m ms] eqn:H; [lia|].
  assert (0 ≤ m)%Z.
  { assert (m ∈ omap experience_of_item items) as Hm by (rewrite H; left).
    apply list_elem_of_omap in Hm as (item & _ & Hm).
    by eapply experience_of_item_nonneg. }
  pose proof (foldl_max_lower m ms). lia.
Qed.

Lemma extract_experience_capped text : (extract_experience text ≤ 50)%Z.
Proof. unfold extract_experience. destruct (omap _ _); lia. Qed.

(** X5. The years of experience read off a text lie between 0 and 50,
    whatever numbers the text holds. *)
Theorem extract_experience_bounds (text : string) :
  (0 ≤ extract_experience text ≤ 50)%Z.
Proof.
  split; [apply extract_experience_nonneg|apply extract_experience_capped].
Qed.

Lemma first_degree_key text d degree :
  first_degree text d = Some degree → degree ∈ keys d.
Proof.
  induction d as [|[k ps] d IH]; [done|]. cbn [first_degree].
  destruct (existsb _ ps).
  - intros [= ->]. unfold keys. cbn. left.
  - intros H. unfold keys. cbn. right. by apply IH.
Qed.

(** X6. [extract_education] returns one of six labels, and the quality
    rubric gives no point for education exactly on "Not Mentioned". *)
Theorem extract_education_labels (text : string) :
  extract_education text
    ∈ ["PhD"; "Master"; "Bachelor"; "Diploma"; "High School"; "Not Mentioned"]
  ∧ ((grade_education (extract_education text)).1 = 0%Z
     ↔ extract_education text = "Not Mentioned").
Proof.
  assert (extract_education text
    ∈ ["PhD"; "Master"; "Bachelor"; "Diploma"; "High School"; "Not Mentioned"])
    as H.
  { unfold extract_education.
    destruct (first_degree _ _) as [degree|] eqn:H; cbn [default].
    - apply first_degree_key in H.
      change (keys education_mapping)
        with ["PhD"; "Master"; "Bachelor"; "Diploma"; "High School"] in H.
      set_solver.
    - set_solver. }
  split; [done|].
  repeat (apply elem_of_cons in H as [->|H]);
    [by vm_compute..|by apply elem_of_nil in H].
Qed.

Lemma extract_text_nonempty (pdf_file : pdf) :
  extract_text_from_pdf pdf_file ≠ EmptyString.
Proof.
  destruct pdf_file as [e|[|p pages]]; [done|done|].
  unfold extract_text_from_pdf. by destruct (Py.strip _).
Qed.

(** X7. The text that [extract_text_from_pdf] returns is never empty: it
    is a sentinel that starts with "Error", or the text of the pages,
    which has no space left at either end. *)
Theorem extract_text_never_empty (pdf_file : pdf) (pages : list (option string)) :
  extract_text_from_pdf pdf_file ≠ EmptyString
  ∧ Py.strip (extract_text_from_pdf (Pages pages))
    = extract_text_from_pdf (Pages pages).
Proof.
  split; [apply extract_text_nonempty|].
  destruct pages as [|p pages]; [by vm_compute|].
  unfold extract_text_from_pdf. set (text := foldl _ _ _).
  destruct (Py.strip text) eqn:H; [by vm_compute|].
  by rewrite <- H, strip_idem.
Qed.

End Extractors.

(** ** Matching and scoring *)

Section RoundingOrder.
Local Open Scope Q_scope.

Lemma round_half_even_upper (x : Q) : (Py.round_half_even x <= Qfloor x + 1)%Z.
Proof.
  unfold Py.round_half_even.
  destruct (_ ?= _); [destruct (Z.even _)|..]; lia.
Qed.

Lemma round_half_even_mono (x y : Q) :
  x <= y → (Py.round_half_even x <= Py.round_half_even y)%Z.
Proof.
  intros Hxy. pose proof (Qfloor_resp_le _ _ Hxy) as Hf.
  destruct (Z.eq_dec (Qfloor x) (Qfloor y)) as [E|NE].
  - unfold Py.round_half_even. rewrite <- E.
    assert (x - inject_Z (Qfloor x) <= y - inject_Z (Qfloor x)) as Hr by lra.
    destruct (Qcompare_spec (x - inject_Z (Qfloor x)) (1 # 2)) as [Hx|Hx|Hx];
      destruct (Qcompare_spec (y - inject_Z (Qfloor x)) (1 # 2)) as [Hy|Hy|Hy];
      try destruct (Z.even (Qfloor x)); try lia; exfalso; lra.
  - pose proof (round_half_even_upper x). pose proof (round_half_even_lower y).
    lia.
Qed.

Lemma round_half_even_Z (z : Z) : Py.round_half_even (inject_Z z) = z.
Proof.
  unfold Py.round_half_even. rewrite Qfloor_Z.
  assert (inject_Z z - inject_Z z == 0) as -> by ring.
  done.
Qed.

Lemma round_n_mono (x y : Q) (n : nat) :
  x <= y → Py.round_n x n <= Py.round_n y n.
Proof.
  intros Hxy. unfold Py.round_n.
  assert (0 < inject_Z (10 ^ Z.of_nat n)) as Hpos.
  { change 0 with (inject_Z 0). rewrite <- Zlt_Qlt. apply Z.pow_pos_nonneg; lia. }
  apply Qmult_le_compat_r; [|by apply Qlt_le_weak, Qinv_lt_0_compat].
  rewrite <- Zle_Qle. apply round_half_even_mono.
  apply Qmult_le_compat_r; [done|by apply Qlt_le_weak].
Qed.

Lemma round_n_Z (z : Z) (n : nat) : Py.round_n (inject_Z z) n == inject_Z z.
Proof.
  unfold Py.round_n.
  assert (0 < 10 ^ Z.of_nat n)%Z as Hpos by (apply Z.pow_pos_nonneg; lia).
  rewrite (round_half_even_proper _ (inject_Z (z * 10 ^ Z.of_nat n))).
  2:{ by rewrite inject_Z_mult. }
  rewrite round_half_even_Z, inject_Z_mult. field.
  change 0 with (inject_Z 0). rewrite inject_Z_injective. lia.
Qed.

Lemma round_n_bounds (x : Q) (lo hi : Z) (n : nat) :
  inject_Z lo <= x <= inject_Z hi →
  inject_Z lo <= Py.round_n x n <= inject_Z hi.
Proof.
  intros [Hlo Hhi]. split.
  - rewrite <- (round_n_Z lo n). by apply round_n_mono.
  - rewrite <- (round_n_Z hi n). by apply round_n_mono.
Qed.

Lemma Qmult_pos_neg (a b : Q) : 0 < a → b < 0 → a * b < 0.
Proof.
  intros Ha Hb.
  assert (0 < a * - b) as H by (apply Qmult_lt_0_compat; lra). lra.
Qed.

Lemma Qmult_ge_1 (a b : Q) : 1 <= a → 1 <= b → 1 <= a * b.
Proof. intros. nra. Qed.

Lemma qmax_mono a b x y : a <= b → x <= y → qmax a x <= qmax b y.
Proof.
  intros Hab Hxy. unfold qmax.
  destruct (Qlt_le_dec a x), (Qlt_le_dec b y); lra.
Qed.

Lemma qmin_mono a b x y : a <= b → x <= y → qmin a x <= qmin b y.
Proof.
  intros Hab Hxy. unfold qmin.
  destruct (Qlt_le_dec x a), (Qlt_le_dec y b); lra.
Qed.

Lemma qmin_100_range x : 0 <= x → 0 <= qmin 100 x <= 100.
Proof. intros Hx. unfold qmin. destruct (Qlt_le_dec x 100); lra. Qed.

Lemma ratio_bounds (a b : nat) :
  (a ≤ b)%nat → (0 < b)%nat →
  0 <= (Z.of_nat a # 1) / (Z.of_nat b # 1) * 100 <= 100.
Proof.
  intros Hab Hb.
  assert (0 < Z.of_nat b # 1) as Hpos by (unfold Qlt; cbn; lia).
  assert (0 <= (Z.of_nat a # 1) / (Z.of_nat b # 1) <= 1) as [H0 H1].
  { split.
    - apply Qle_shift_div_l; [done|]. unfold Qle; cbn; lia.
    - apply Qle_shift_div_r; [done|]. unfold Qle; cbn; lia. }
  split; lra.
Qed.

End RoundingOrder.

Section Matching.
Local Open Scope Q_scope.

Lemma calculate_match_cases resume_skills job_requirements :
  (required_skills job_requirements = []
   ∧ calculate_match resume_skills job_requirements = (0, [], []))
  ∨ (required_skills job_requirements ≠ []
     ∧ calculate_match resume_skills job_requirements
       = match_body resume_skills (required_skills job_requirements)).
Proof.
  unfold calculate_match.
  destruct (required_skills job_requirements); [by left|by right].
Qed.

Lemma match_percentage_bounds (A B : gset string) :
  0 <= (if (size B =? 0)%nat then 0
        else (Z.of_nat (size (A ∩ B)) # 1) / (Z.of_nat (size B) # 1) * 100)
    <= 100.
Proof.
  destruct (Nat.eqb_spec (size B) 0) as [|Hne]; [done|].
  apply ratio_bounds; [|lia]. apply subseteq_size. set_solver.
Qed.

Lemma match_pct_range resume_skills job_requirements :
  0 <= (calculate_match resume_skills job_requirements).1.1 <= 100.
Proof.
  destruct (calculate_match_cases resume_skills job_requirements)
    as [[_ ->]|[_ ->]]; [done|].
  unfold match_body. cbn [fst snd].
  apply (round_n_bounds _ 0 100), match_percentage_bounds.
Qed.

Lemma matched_sublist resume_skills job_requirements :
  (calculate_match resume_skills job_requirements).1.2
    `sublist_of` resume_skills.
Proof.
  destruct (calculate_match_cases resume_skills job_requirements)
    as [[_ ->]|[_ ->]]; [apply sublist_nil_l|].
  unfold match_body. cbn [fst snd]. apply sublist_filter.
Qed.

Lemma norm_set_filled (required : list string) :
  required ≠ [] → size (norm_set required) ≠ 0%nat.
Proof.
  intros Hreq. apply size_non_empty_iff. destruct required as [|x X']; [done|].
  intros HS. apply (not_elem_of_empty (C:=gset string) (normalize_skill x)).
  rewrite <- HS. apply elem_of_list_to_set. cbn. left.
Qed.

Lemma missing_empty_iff (resume_skills required : list string) :
  required ≠ [] →
  (calculate_match resume_skills (ReqList required)).2 = []
  ↔ norm_set required ⊆ norm_set resume_skills.
Proof.
  intros Hreq. rewrite calculate_match_list by done. cbv zeta. cbn [snd].
  generalize (norm_set required) (norm_set resume_skills). intros B A.
  split.
  - intros H%elements_empty_inv. set_solver.
  - intros H. replace (B ∖ A) with (∅ : gset string) by set_solver.
    apply elements_empty.
Qed.

(** X8. [calculate_match]: the percentage lies between 0 and 100; the
    matched skills are resume skills, in the order and the spelling of the
    resume, each one required; the missing skills are required skills in
    normal form, none twice and none held by the resume. *)
Theorem calculate_match_bounds (resume_skills : list string)
    (job_requirements : requirements) :
  0 <= (calculate_match resume_skills job_requirements).1.1 <= 100
  ∧ (calculate_match resume_skills job_requirements).1.2
      `sublist_of` resume_skills
  ∧ Forall (λ s, normalize_skill s
                   ∈ norm_set (required_skills job_requirements))
           (calculate_match resume_skills job_requirements).1.2
  ∧ NoDup (calculate_match resume_skills job_requirements).2
  ∧ Forall (λ m, m ∈ norm_set (required_skills job_requirements)
                 ∧ m ∉ norm_set resume_skills)
           (calculate_match resume_skills job_requirements).2.
Proof.
  split; [apply match_pct_range|]. split; [apply matched_sublist|].
  destruct (calculate_match_cases resume_skills job_requirements)
    as [[_ ->]|[_ ->]].
  - cbn. split_and!; constructor.
  - unfold match_body. cbn [fst snd]. split_and!.
    + apply Forall_forall. intros s [Hs _]%list_elem_of_filter. set_solver.
    + apply NoDup_elements.
    + apply Forall_forall. intros m Hm%elem_of_elements. set_solver.
Qed.

(** X9. For a list of requirements that is not empty: nothing is missing
    exactly when every requirement, in normal form, is a resume skill in
    normal form; and then the percentage is 100. *)
Theorem calculate_match_covered (resume_skills required : list string) :
  required ≠ [] →
  ((calculate_match resume_skills (ReqList required)).2 = []
   ↔ norm_set required ⊆ norm_set resume_skills)
  ∧ (norm_set required ⊆ norm_set resume_skills →
     (calculate_match resume_skills (ReqList required)).1.1 == 100).
Proof.
  intros Hreq. split; [by apply missing_empty_iff|].
  rewrite calculate_match_list by done. cbv zeta. cbn [fst snd].
  pose proof (norm_set_filled required Hreq) as Hsize.
  generalize dependent (norm_set required). intros B HB.
  generalize (norm_set resume_skills). intros A.
  intros Hsub. replace (A ∩ B) with B by set_solver.
  destruct (Nat.eqb_spec (size B) 0) as [|_]; [done|].
  rewrite (round_n_proper _ (inject_Z 100)); [apply round_n_Z|].
  field. unfold Qeq; cbn. lia.
Qed.

Lemma calculate_match_covered_witness :
  ["Python"; "SQL"] ≠ []
  ∧ ((calculate_match ["sql"; "Go"; "python "] (ReqList ["Python"; "SQL"])).2
       = []
     ↔ norm_set ["Python"; "SQL"] ⊆ norm_set ["sql"; "Go"; "python "])
  ∧ (norm_set ["Python"; "SQL"] ⊆ norm_set ["sql"; "Go"; "python "] →
     (calculate_match ["sql"; "Go"; "python "]
        (ReqList ["Python"; "SQL"])).1.1 == 100).
Proof.
  split; [done|].
  apply (calculate_match_covered ["sql"; "Go"; "python "] ["Python"; "SQL"]).
  done.
Defined.

Lemma premiums_nonneg :
  Forall (λ kv : string * Q, Qle_bool 0 kv.2 = true) SKILL_MULTIPLIERS.
Proof. compute_done. Qed.

Lemma premium_nonneg k : 0 <= default 1 (dict_get SKILL_MULTIPLIERS k).
Proof.
  destruct (dict_get SKILL_MULTIPLIERS k) as [v|] eqn:H; cbn [default]; [|lra].
  apply dict_get_elem in H. pose proof premiums_nonneg as HF.
  rewrite Forall_forall in HF. apply HF in H. by apply Qle_bool_iff in H.
Qed.

Lemma skill_weight_lower s : 10 <= skill_weight s.
Proof.
  unfold skill_weight. pose proof (premium_nonneg (normalize_skill s)). lra.
Qed.

Lemma weigh_eq resume_norm t m s :
  weigh resume_norm (t, m) s
  = (t + skill_weight s,
     if bool_decide (is_Some (resume_norm !! normalize_skill s))
     then m + skill_weight s else m).
Proof. done. Qed.

(** The loop keeps [0 <= matched_weight <= total_weight], and the total
    grows by 10 at least with every requirement. *)
Lemma weigh_inv resume_norm required t m :
  0 <= m <= t →
  0 <= (foldl (weigh resume_norm) (t, m) required).2
    <= (foldl (weigh resume_norm) (t, m) required).1
  ∧ t + 10 * inject_Z (Z.of_nat (length required))
    <= (foldl (weigh resume_norm) (t, m) required).1.
Proof.
  revert t m. induction required as [|s required IH]; intros t m Hm.
  - cbn [foldl fst snd length]. change (inject_Z (Z.of_nat 0)) with 0.
    split; [done|]. clear -Hm. lra.
  - cbn [foldl]. rewrite weigh_eq.
    pose proof (skill_weight_lower s) as Hw.
    rewrite length_cons, Nat2Z.inj_succ, <- Z.add_1_r, inject_Z_plus.
    change (inject_Z 1) with 1.
    destruct (bool_decide _).
    + assert (0 <= m + skill_weight s <= t + skill_weight s) as Hp
        by (clear -Hm Hw; lra).
      destruct (IH _ _ Hp) as [H1 H2]. split; [done|]. clear -H2 Hw. lra.
    + assert (0 <= m <= t + skill_weight s) as Hp by (clear -Hm Hw; lra).
      destruct (IH _ _ Hp) as [H1 H2]. split; [done|]. clear -H2 Hw. lra.
Qed.

Lemma weigh_all_matched resume_norm required t m :
  Forall (λ s, is_Some (resume_norm !! normalize_skill s)) required →
  t == m →
  (foldl (weigh resume_norm) (t, m) required).1
  == (foldl (weigh resume_norm) (t, m) required).2.
Proof.
  intros H. revert t m. induction H as [|s required Hs _ IH]; intros t m Htm.
  - done.
  - cbn [foldl]. rewrite weigh_eq.
    rewrite bool_decide_eq_true_2 by done. apply IH. by rewrite Htm.
Qed.

Lemma weighted_unfold resume_skills required :
  required ≠ [] →
  calculate_weighted_match_score resume_skills (ReqList required)
  = let resume_norm : gmap string string :=
      list_to_map ((λ s, (normalize_skill s, s)) <$> resume_skills) in
    let acc := foldl (weigh resume_norm) (0, 0) required in
    if Qeq_bool acc.1 0 then 0
    else Py.round_n (acc.2 / acc.1 * 100) 2.
Proof.
  intros H. destruct required as [|r rs]; [done|].
  unfold calculate_weighted_match_score, required_skills. cbv zeta.
  by destruct (foldl _ _ _).
Qed.

Lemma resume_norm_lookup resume_skills k :
  is_Some ((list_to_map ((λ s, (normalize_skill s, s)) <$> resume_skills)
            : gmap string string) !! k)
  ↔ k ∈ norm_set resume_skills.
Proof.
  rewrite <- elem_of_dom, dom_list_to_map_L, <- list_fmap_compose.
  unfold norm_set. by rewrite !elem_of_list_to_set.
Qed.

Lemma weighted_range resume_skills job_requirements :
  0 <= calculate_weighted_match_score resume_skills job_requirements <= 100.
Proof.
  unfold calculate_weighted_match_score.
  destruct (required_skills job_requirements) as [|r rs]; [done|].
  generalize (r :: rs). intros required. cbv zeta.
  match goal with |- context [foldl (weigh ?rn) _ _] =>
    destruct (weigh_inv rn required 0 0) as [[H1 H2] _]; [done|];
    destruct (foldl (weigh rn) (0, 0) required) as [t m] end.
  cbn [fst snd] in H1, H2 |- *.
  destruct (Qeq_bool t 0) eqn:Ht; [done|].
  apply Qeq_bool_neq in Ht.
  apply (round_n_bounds _ 0 100).
  change (inject_Z 0) with 0. change (inject_Z 100) with 100.
  assert (0 < t) as Hpos by (clear -H1 H2 Ht; lra).
  split.
  - apply Qmult_le_0_compat; [|done].
    apply Qle_shift_div_l; [done|]. clear -H1. lra.
  - assert (m / t <= 1) as Hle; [|clear -Hle; lra].
    apply Qle_shift_div_r; [done|]. clear -H2. lra.
Qed.

(** X10. The weighted score lies between 0 and 100, whatever the resume
    skills and the requirements, a text or a list. *)
Theorem weighted_score_bounds (resume_skills : list string)
    (job_requirements : requirements) :
  0 <= calculate_weighted_match_score resume_skills job_requirements <= 100.
Proof. apply weighted_range. Qed.

(** X11. The two scores agree on a full match: when [calculate_match]
    finds nothing missing in a list of requirements that is not empty, the
    weighted score is 100. *)
Theorem weighted_score_covered (resume_skills required : list string) :
  required ≠ [] →
  (calculate_match resume_skills (ReqList required)).2 = [] →
  calculate_weighted_match_score resume_skills (ReqList required) == 100.
Proof.
  intros Hne Hmiss. apply missing_empty_iff in Hmiss; [|done].
  rewrite weighted_unfold by done. cbv zeta.
  match goal with |- context [foldl (weigh ?rn) _ _] =>
    destruct (weigh_inv rn required 0 0) as [_ H3]; [done|];
    pose proof (weigh_all_matched rn required 0 0) as Heq;
    destruct (foldl (weigh rn) (0, 0) required) as [t m] end.
  cbn [fst snd] in H3, Heq |- *.
  assert (0 < t) as Hpos.
  { destruct required as [|r rs]; [done|].
    rewrite length_cons, Nat2Z.inj_succ, <- Z.add_1_r, inject_Z_plus in H3.
    assert (0 <= inject_Z (Z.of_nat (length rs))) as Hl.
    { change 0 with (inject_Z 0). rewrite <- Zle_Qle. lia. }
    change (inject_Z 1) with 1 in H3. clear -H3 Hl. lra. }
  destruct (Qeq_bool t 0) eqn:Ht.
  { apply Qeq_bool_iff in Ht. clear -Ht Hpos. lra. }
  assert (t == m) as Htm.
  { apply Heq; [|done]. apply Forall_forall. intros s Hs.
    apply resume_norm_lookup, Hmiss. unfold norm_set.
    by apply elem_of_list_to_set, list_elem_of_fmap_2. }
  apply (Qeq_trans _ (Py.round_n 100 2)); [|apply (round_n_Z 100)].
  apply round_n_proper. rewrite <- Htm. field. clear -Hpos. lra.
Qed.

Lemma weighted_score_covered_witness :
  ["Python"; "Figma"] ≠ []
  ∧ (calculate_match ["figma"; "Python"] (ReqList ["Python"; "Figma"])).2 = []
  ∧ calculate_weighted_match_score ["figma"; "Python"]
      (ReqList ["Python"; "Figma"]) == 100.
Proof.
  split; [done|]. split; [by vm_compute|].
  apply (weighted_score_covered ["figma"; "Python"] ["Python"; "Figma"]);
    [done|by vm_compute].
Defined.

End Matching.

(** ** Salary *)

Section Salary.
Local Open Scope Q_scope.

Lemma bands_ordered :
  Forall (λ kv : string * dict band,
            Forall (λ lb : string * band,
              bool_decide (0 < band_min lb.2 ∧ band_min lb.2 ≤ band_avg lb.2
                           ∧ band_avg lb.2 ≤ band_max lb.2)%Z = true) kv.2)
         INDUSTRY_SALARY_DATA.
Proof. compute_done. Qed.

Lemma base_band_ok exp industry b : base_band exp industry = Some b → band_ok b.
Proof.
  unfold base_band.
  destruct (dict_get INDUSTRY_SALARY_DATA "Tech") as [tech|] eqn:Htech; [|done].
  cbn [mbind option_bind].
  assert (∃ k, (k, default tech (dict_get INDUSTRY_SALARY_DATA industry))
               ∈ INDUSTRY_SALARY_DATA) as [k Hk].
  { destruct (dict_get INDUSTRY_SALARY_DATA industry) as [d|] eqn:Hd.
    - exists industry. by apply dict_get_elem.
    - exists "Tech"%string. by apply dict_get_elem. }
  generalize dependent (default tech (dict_get INDUSTRY_SALARY_DATA industry)).
  intros data Hk.
  destruct (dict_get data "Mid-Level") as [mid|] eqn:Hmid; [|done].
  cbn [mbind option_bind]. intros [= <-].
  pose proof bands_ordered as HF. rewrite Forall_forall in HF.
  apply HF in Hk. cbn [snd] in Hk. rewrite Forall_forall in Hk.
  destruct (dict_get data (seniority exp)) as [b|] eqn:Hb; cbn [default].
  - apply dict_get_elem, Hk in Hb. by apply bool_decide_eq_true in Hb.
  - apply dict_get_elem, Hk in Hmid. by apply bool_decide_eq_true in Hmid.
Qed.

Lemma base_band_some exp industry : is_Some (base_band exp industry).
Proof.
  unfold base_band.
  destruct (dict_get INDUSTRY_SALARY_DATA "Tech") as [tech|] eqn:Htech; [|done].
  cbn [mbind option_bind].
  assert (is_Some (dict_get (default tech
                     (dict_get INDUSTRY_SALARY_DATA industry)) "Mid-Level"))
    as [mid ->].
  { destruct (dict_get INDUSTRY_SALARY_DATA industry) as [d|] eqn:E;
      cbn [default]; by eapply salary_table_mid. }
  cbn [mbind option_bind]. by eexists.
Qed.

Lemma predict_salary_eq experience_years resume_skills education industry :
  predict_salary experience_years resume_skills education industry
  = let exp := Z.min (experience_value experience_years) 30 in
    b ← base_band exp industry;
    capped ← Py.float_of_int (Z.min exp 20);
    Some (salary_of (seniority exp) b
            (skill_multiplier resume_skills * education_multiplier education
             * (1 + capped * (2 # 100)))).
Proof.
  unfold predict_salary, base_band. cbv zeta.
  destruct (dict_get INDUSTRY_SALARY_DATA "Tech") as [tech|]; [|done].
  cbn [mbind option_bind].
  destruct (dict_get _ "Mid-Level") as [mid|]; [|done].
  done.
Qed.

(** The salary is there for every experience that converts to a float. *)
Lemma predict_salary_defined experience_years resume_skills education industry :
  (- (2 ^ 1024 - 2 ^ 970) < experience_value experience_years)%Z →
  ∃ b,
    base_band (Z.min (experience_value experience_years) 30) industry = Some b
    ∧ band_ok b
    ∧ predict_salary experience_years resume_skills education industry
      = Some (salary_of
                (seniority (Z.min (experience_value experience_years) 30)) b
                (skill_multiplier resume_skills
                 * education_multiplier education
                 * (1 + inject_Z (Z.min
                          (Z.min (experience_value experience_years) 30) 20)
                        * (2 # 100)))).
Proof.
  intros Hexp. rewrite predict_salary_eq. cbv zeta.
  destruct (base_band_some (Z.min (experience_value experience_years) 30)
              industry) as [b Hb].
  exists b. split; [done|]. split; [by eapply base_band_ok|]. rewrite Hb.
  cbn [mbind option_bind]. unfold Py.float_of_int.
  destruct (Z.ltb_spec
              (Z.abs (Z.min (Z.min (experience_value experience_years) 30) 20))
              (2 ^ 1024 - 2 ^ 970)) as [_|Hge]; [done|].
  exfalso.
  assert (30 < 2 ^ 1024 - 2 ^ 970)%Z by done. lia.
Qed.

Lemma salary_of_ordered level b tm :
  band_ok b →
  sal_min (salary_of level b tm) <= sal_avg (salary_of level b tm)
  ∧ sal_avg (salary_of level b tm) <= sal_max (salary_of level b tm).
Proof.
  intros (Hpos & H1 & H2). cbn [salary_of sal_min sal_avg sal_max].
  rewrite Zle_Qle in H1, H2.
  assert (0 < inject_Z (band_min b)) as Hp.
  { change 0 with (inject_Z 0). by rewrite <- Zlt_Qlt. }
  generalize dependent (inject_Z (band_min b)).
  generalize dependent (inject_Z (band_avg b)).
  generalize dependent (inject_Z (band_max b)). clear.
  intros mx av H2 mn H1 Hp.
  destruct (Qlt_le_dec tm 0) as [Hneg|Hnn].
  - assert (mn * tm < 0) as N1 by (apply Qmult_pos_neg; lra).
    assert (av * tm < 0) as N2 by (apply Qmult_pos_neg; lra).
    assert (mx * tm < 0) as N3 by (apply Qmult_pos_neg; lra).
    split; apply round_n_mono; unfold qmax;
      do 2 destruct (Qlt_le_dec _ _); lra.
  - split; apply round_n_mono; apply qmax_mono; try lra;
      apply Qmult_le_compat_r; lra.
Qed.

Lemma salary_of_mono level b tm tm' :
  band_ok b → tm <= tm' →
  sal_min (salary_of level b tm) <= sal_min (salary_of level b tm')
  ∧ sal_avg (salary_of level b tm) <= sal_avg (salary_of level b tm')
  ∧ sal_max (salary_of level b tm) <= sal_max (salary_of level b tm').
Proof.
  intros (Hpos & H1 & H2) Htm. cbn [salary_of sal_min sal_avg sal_max].
  assert (0 < inject_Z (band_min b)) as Hp.
  { change 0 with (inject_Z 0). by rewrite <- Zlt_Qlt. }
  rewrite Zle_Qle in H1, H2.
  generalize dependent (inject_Z (band_min b)).
  generalize dependent (inject_Z (band_avg b)).
  generalize dependent (inject_Z (band_max b)). clear -Htm.
  intros mx av H2 mn H1 Hp.
  repeat split; apply round_n_mono; apply qmax_mono; try lra;
    rewrite !(Qmult_comm _ tm), !(Qmult_comm _ tm');
    apply Qmult_le_compat_r; lra.
Qed.

(** Below a negative multiplier the three floors are all there is. *)
Lemma salary_of_floors level b tm tm' :
  band_ok b → tm < 0 → tm' < 0 →
  sal_min (salary_of level b tm) <= sal_min (salary_of level b tm')
  ∧ sal_avg (salary_of level b tm) <= sal_avg (salary_of level b tm')
  ∧ sal_max (salary_of level b tm) <= sal_max (salary_of level b tm').
Proof.
  intros (Hpos & H1 & H2) N N'. cbn [salary_of sal_min sal_avg sal_max].
  assert (0 < inject_Z (band_min b)) as Hp.
  { change 0 with (inject_Z 0). by rewrite <- Zlt_Qlt. }
  rewrite Zle_Qle in H1, H2.
  generalize dependent (inject_Z (band_min b)).
  generalize dependent (inject_Z (band_avg b)).
  generalize dependent (inject_Z (band_max b)). clear -N N'.
  intros mx av H2 mn H1 Hp.
  assert (mn * tm < 0) by (apply Qmult_pos_neg; lra).
  assert (av * tm < 0) by (apply Qmult_pos_neg; lra).
  assert (mx * tm < 0) by (apply Qmult_pos_neg; lra).
  assert (mn * tm' < 0) by (apply Qmult_pos_neg; lra).
  assert (av * tm' < 0) by (apply Qmult_pos_neg; lra).
  assert (mx * tm' < 0) by (apply Qmult_pos_neg; lra).
  repeat split; apply round_n_mono; unfold qmax;
    do 2 destruct (Qlt_le_dec _ _); lra.
Qed.

Lemma premium_fold_mono (A B : gset string) (l : list (string * Q)) a b :
  A ⊆ B → a <= b →
  Forall (λ kv : string * Q, Qle_bool 0 kv.2 = true) l →
  foldl (λ acc '(skill, premium),
           if bool_decide (skill ∈ A) then acc + premium else acc) a l
  <= foldl (λ acc '(skill, premium),
           if bool_decide (skill ∈ B) then acc + premium else acc) b l.
Proof.
  intros HAB Hab HF. revert a b Hab.
  induction HF as [|[k p] l Hp _ IH]; intros a b Hab; cbn [foldl]; [done|].
  apply Qle_bool_iff in Hp. cbn [snd] in Hp. apply IH.
  repeat case_bool_decide; try lra. set_solver.
Qed.

Lemma premium_fold_lower (A : gset string) (l : list (string * Q)) a :
  Forall (λ kv : string * Q, Qle_bool 0 kv.2 = true) l →
  a <= foldl (λ acc '(skill, premium),
           if bool_decide (skill ∈ A) then acc + premium else acc) a l.
Proof.
  intros HF. revert a.
  induction HF as [|[k p] l Hp _ IH]; intros a; cbn [foldl]; [lra|].
  apply Qle_bool_iff in Hp. cbn [snd] in Hp.
  eapply Qle_trans; [|apply IH]. case_bool_decide; lra.
Qed.

Lemma skill_multiplier_mono resume_skills resume_skills' :
  norm_set resume_skills ⊆ norm_set resume_skills' →
  skill_multiplier resume_skills <= skill_multiplier resume_skills'.
Proof.
  intros H. unfold skill_multiplier. cbv zeta.
  apply qmin_mono; [lra|].
  apply premium_fold_mono; [done|lra|apply premiums_nonneg].
Qed.

Lemma skill_multiplier_range resume_skills :
  1 <= skill_multiplier resume_skills <= 2.
Proof.
  unfold skill_multiplier. cbv zeta.
  pose proof (premium_fold_lower (norm_set resume_skills) SKILL_MULTIPLIERS 1
                premiums_nonneg) as H.
  revert H. generalize (foldl (λ acc '(skill, premium),
           if bool_decide (skill ∈ norm_set resume_skills)
           then acc + premium else acc)
           1 SKILL_MULTIPLIERS).
  intros q Hq. unfold qmin. destruct (Qlt_le_dec q 2); lra.
Qed.

Lemma education_multiplier_range education :
  1 <= education_multiplier education <= 115 # 100.
Proof.
  unfold education_multiplier. repeat destruct (str_eqb _ _); lra.
Qed.

(** X12. Whenever the experience converts to a float, the three figures
    of [predict_salary] come in order: min <= avg <= max, the floors 35,
    50 and 70 and the rounding included. *)
Theorem predict_salary_ordered (experience_years : experience_arg)
    (resume_skills : list string) (education industry : string) :
  (- (2 ^ 1024 - 2 ^ 970) < experience_value experience_years)%Z →
  ∃ s,
    predict_salary experience_years resume_skills education industry = Some s
    ∧ sal_min s <= sal_avg s ∧ sal_avg s <= sal_max s.
Proof.
  intros Hexp.
  destruct (predict_salary_defined experience_years resume_skills education
              industry Hexp) as (b & _ & Hb & ->).
  eexists. split; [done|]. by apply salary_of_ordered.
Qed.

Lemma predict_salary_ordered_witness :
  (- (2 ^ 1024 - 2 ^ 970) < experience_value (ExpOther "7 years"))%Z
  ∧ ∃ s,
      predict_salary (ExpOther "7 years") ["Python"; "AWS"] "Master" "Finance"
      = Some s
      ∧ sal_min s <= sal_avg s ∧ sal_avg s <= sal_max s.
Proof.
  split; [by vm_compute|].
  apply (predict_salary_ordered (ExpOther "7 years")). by vm_compute.
Defined.

(** X13. More skills never lower the salary: when the skills of one
    resume, in normal form, are among those of another, none of the three
    figures of the first exceeds that of the second. *)
Theorem predict_salary_more_skills (experience_years : experience_arg)
    (resume_skills resume_skills' : list string)
    (education industry : string) :
  (- (2 ^ 1024 - 2 ^ 970) < experience_value experience_years)%Z →
  norm_set resume_skills ⊆ norm_set resume_skills' →
  ∃ s s',
    predict_salary experience_years resume_skills education industry = Some s
    ∧ predict_salary experience_years resume_skills' education industry
      = Some s'
    ∧ sal_min s <= sal_min s' ∧ sal_avg s <= sal_avg s'
    ∧ sal_max s <= sal_max s'.
Proof.
  intros Hexp Hsub.
  destruct (predict_salary_defined experience_years resume_skills education
              industry Hexp) as (b & Eb & Hb & ->).
  destruct (predict_salary_defined experience_years resume_skills' education
              industry Hexp) as (b' & Eb' & _ & ->).
  assert (b' = b) as -> by congruence. clear Eb Eb'.
  eexists _, _. split; [done|]. split; [done|].
  pose proof (skill_multiplier_mono _ _ Hsub) as Hm.
  pose proof (skill_multiplier_range resume_skills) as Hr.
  pose proof (skill_multiplier_range resume_skills') as Hr'.
  pose proof (education_multiplier_range education) as He.
  revert Hm Hr Hr' He.
  generalize (skill_multiplier resume_skills) (skill_multiplier resume_skills')
             (education_multiplier education).
  generalize (inject_Z (Z.min (Z.min (experience_value experience_years) 30) 20)).
  intros x k k' e Hm Hr Hr' He.
  destruct (Qlt_le_dec (1 + x * (2 # 100)) 0) as [Hneg|Hnn].
  - apply salary_of_floors; [done|..]; (apply Qmult_pos_neg; [|done]).
    + pose proof (Qmult_ge_1 k e). lra.
    + pose proof (Qmult_ge_1 k' e). lra.
  - apply salary_of_mono; [done|].
    apply Qmult_le_compat_r; [|done].
    apply Qmult_le_compat_r; [done|]. clear -He. lra.
Qed.

Lemma predict_salary_more_skills_witness :
  (- (2 ^ 1024 - 2 ^ 970) < experience_value (ExpInt 4))%Z
  ∧ norm_set ["Python"] ⊆ norm_set ["AWS"; "python"]
  ∧ ∃ s s',
      predict_salary (ExpInt 4) ["Python"] "Bachelor" "Tech" = Some s
      ∧ predict_salary (ExpInt 4) ["AWS"; "python"] "Bachelor" "Tech" = Some s'
      ∧ sal_min s <= sal_min s' ∧ sal_avg s <= sal_avg s'
      ∧ sal_max s <= sal_max s'.
Proof.
  split; [by vm_compute|]. split; [compute_done|].
  apply (predict_salary_more_skills (ExpInt 4) ["Python"] ["AWS"; "python"]);
    [by vm_compute|compute_done].
Defined.

(** X14. Past 20 years the experience changes nothing: the level is
    "Staff+" and the experience multiplier is capped, so the whole record
    is that of 20 years. *)
Theorem predict_salary_plateau (n : Z) (resume_skills : list string)
    (education industry : string) :
  (20 ≤ n)%Z →
  predict_salary (ExpInt n) resume_skills education industry
  = predict_salary (ExpInt 20) resume_skills education industry.
Proof.
  intros Hn. rewrite !predict_salary_eq. cbv zeta. cbn [experience_value].
  assert (seniority (Z.min n 30) = seniority (Z.min 20 30)) as Hs.
  { unfold seniority. by rewrite !(proj2 (Z.ltb_ge _ _)) by lia. }
  unfold base_band. rewrite Hs.
  replace (Z.min (Z.min n 30) 20) with (Z.min (Z.min 20 30) 20) by lia.
  done.
Qed.

Lemma predict_salary_plateau_witness :
  (20 ≤ 10 ^ 400)%Z
  ∧ predict_salary (ExpInt (10 ^ 400)) ["Python"] "PhD" "Startup"
    = predict_salary (ExpInt 20) ["Python"] "PhD" "Startup".
Proof.
  split; [by vm_compute|].
  apply (predict_salary_plateau (10 ^ 400)). by vm_compute.
Defined.

End Salary.

(** ** The quality report *)

Section QualityReport.
Local Open Scope Z_scope.

Ltac graded_cases :=
  unfold graded; repeat case_match; cbn; unfold rubric_education_points;
  repeat split; first [done | lia].

Lemma grade_length_graded n : graded (grade_length n) 12 15.
Proof. unfold grade_length. graded_cases. Qed.

Lemma grade_skills_graded n : graded (grade_skills n) 8 15.
Proof. unfold grade_skills. graded_cases. Qed.

Lemma grade_experience_graded e : graded (grade_experience e) 10 20.
Proof. unfold grade_experience. graded_cases. Qed.

Lemma grade_education_graded e : graded (grade_education e) 8 15.
Proof. unfold grade_education. graded_cases. Qed.

Lemma grade_contact_graded t : graded (grade_contact t) 8 10.
Proof. unfold grade_contact. graded_cases. Qed.

Lemma grade_sections_graded t : graded (grade_sections t) 10 10.
Proof. unfold grade_sections. graded_cases. Qed.

Lemma grade_verbs_graded t : graded (grade_verbs t) 7 10.
Proof. unfold grade_verbs. graded_cases. Qed.

Lemma grade_metrics_graded t : graded (grade_metrics t) 3 5.
Proof. unfold grade_metrics. graded_cases. Qed.

Lemma quality_issues (t : string) skills experience education :
  t ≠ EmptyString →
  (analyze_resume_quality (PyStr t) skills experience education).2
  = (grade_length (String.length t)).2 ++ (grade_skills (length skills)).2
    ++ (grade_experience experience).2 ++ (grade_education education).2
    ++ (grade_contact t).2 ++ (grade_sections t).2
    ++ (grade_verbs t).2 ++ (grade_metrics t).2.
Proof.
  intros Ht. destruct t as [|c t]; [done|].
  unfold analyze_resume_quality. cbn [foldl].
  unfold add_grade. cbn [fst snd app]. by rewrite <- !List.app_assoc.
Qed.

(** The score of a text that is not empty: the sections alone give 3. *)
Lemma quality_text_range (t : string) skills experience education :
  t ≠ EmptyString →
  3 ≤ (analyze_resume_quality (PyStr t) skills experience education).1 ≤ 100.
Proof.
  intros Ht. rewrite quality_total by done.
  pose proof (grade_length_bounds (String.length t)).
  pose proof (grade_skills_bounds (length skills)).
  pose proof (grade_experience_bounds experience).
  pose proof (grade_education_bounds education).
  pose proof (grade_contact_bounds t).
  pose proof (grade_sections_bounds t).
  pose proof (grade_verbs_bounds t).
  pose proof (grade_metrics_bounds t).
  lia.
Qed.

Lemma quality_range (t : string) skills experience education :
  0 ≤ (analyze_resume_quality (PyStr t) skills experience education).1 ≤ 100.
Proof.
  destruct (decide (t = EmptyString)) as [->|Ht]; [done|].
  pose proof (quality_text_range t skills experience education Ht). lia.
Qed.

(** X15. The report on a text that is not empty: the score is 3 at
    least; there are eight issues at most, one per category; a report
    without issue scores 66 at least; and a score of 100 comes without
    issue. *)
Theorem quality_report_shape (t : string) (skills : list string)
    (experience : Q) (education : string) :
  t ≠ EmptyString →
  3 ≤ (analyze_resume_quality (PyStr t) skills experience education).1
  ∧ (length (analyze_resume_quality (PyStr t) skills experience education).2
     ≤ 8)%nat
  ∧ ((analyze_resume_quality (PyStr t) skills experience education).2 = [] →
     66 ≤ (analyze_resume_quality (PyStr t) skills experience education).1)
  ∧ ((analyze_resume_quality (PyStr t) skills experience education).1 = 100 →
     (analyze_resume_quality (PyStr t) skills experience education).2 = []).
Proof.
  intros Ht.
  split; [by apply quality_text_range|].
  rewrite quality_total, quality_issues by done.
  destruct (grade_length_graded (String.length t)) as (A1 & B1 & C1).
  destruct (grade_skills_graded (length skills)) as (A2 & B2 & C2).
  destruct (grade_experience_graded experience) as (A3 & B3 & C3).
  destruct (grade_education_graded education) as (A4 & B4 & C4).
  destruct (grade_contact_graded t) as (A5 & B5 & C5).
  destruct (grade_sections_graded t) as (A6 & B6 & C6).
  destruct (grade_verbs_graded t) as (A7 & B7 & C7).
  destruct (grade_metrics_graded t) as (A8 & B8 & C8).
  pose proof (grade_length_bounds (String.length t)).
  pose proof (grade_skills_bounds (length skills)).
  pose proof (grade_experience_bounds experience).
  pose proof (grade_education_bounds education).
  pose proof (grade_contact_bounds t).
  pose proof (grade_sections_bounds t).
  pose proof (grade_verbs_bounds t).
  pose proof (grade_metrics_bounds t).
  split; [rewrite !length_app; lia|]. split.
  - intros E. repeat (apply List.app_eq_nil in E; destruct E as [? E]).
    specialize (A1 ltac:(done)). specialize (A2 ltac:(done)).
    specialize (A3 ltac:(done)). specialize (A4 ltac:(done)).
    specialize (A5 ltac:(done)). specialize (A6 ltac:(done)).
    specialize (A7 ltac:(done)). specialize (A8 ltac:(done)). lia.
  - intros E.
    rewrite B1, B2, B3, B4, B5, B6, B7, B8 by lia. done.
Qed.

Lemma quality_report_shape_witness :
  "Experience: led and built APIs. Education: BSc. Skills: Python"
    ≠ EmptyString
  ∧ 3 ≤ (analyze_resume_quality
           (PyStr "Experience: led and built APIs. Education: BSc. Skills: Python")
           ["Python"] 3 "Bachelor").1
  ∧ (length (analyze_resume_quality
           (PyStr "Experience: led and built APIs. Education: BSc. Skills: Python")
           ["Python"] 3 "Bachelor").2 ≤ 8)%nat.
Proof.
  split; [done|].
  destruct (quality_report_shape
              "Experience: led and built APIs. Education: BSc. Skills: Python"
              ["Python"] 3 "Bachelor") as (H1 & H2 & _); done.
Defined.

End QualityReport.

(** ** Roles and requirements *)

Section Roles.

Lemma unsnoc_spec s q d : unsnoc s = Some (q, d) → s = q +:+ String d "".
Proof.
  revert q d. induction s as [|c s IH]; intros q d; [done|]. cbn [unsnoc].
  destruct (unsnoc s) as [[q' d']|] eqn:E.
  - intros [= <- <-]. rewrite app_cons. f_equal. by apply IH.
  - intros [= <- <-]. destruct s as [|c' s]; [done|].
    cbn [unsnoc] in E. by destruct (unsnoc s) as [[? ?]|].
Qed.

(** A tight phrase of the lower-cased description is still there once
    the description is stripped and its spaces are collapsed. *)
Lemma tight_kept p a b :
  tight p = true →
  Py.str_in p (collapse_spaces (Py.strip (a +:+ p +:+ b))) = true.
Proof.
  destruct p as [|c1 r]; [done|]. cbn [tight].
  destruct (unsnoc r) as [[q c2]|] eqn:E; [|done].
  apply unsnoc_spec in E as ->.
  rewrite !andb_true_iff, !negb_true_iff. intros [[H1 H2] Hq%str_eqb_eq].
  rewrite app_cons, app_assoc, app_cons, app_nil_l.
  destruct (normalise_keeps c1 q c2 a b H1 H2 Hq) as (x & y & ->).
  apply str_in_spec. exists x, y.
  by rewrite app_cons, app_assoc, app_cons, app_nil_l.
Qed.

Lemma non_tech_phrases_tight :
  Forall (λ phrase, tight (Py.strip phrase) = true)
         (mjoin (exact_phrases_non_tech.*2)).
Proof. compute_done. Qed.

Lemma first_role_some prepare t d role phrases phrase :
  (role, phrases) ∈ d → phrase ∈ phrases →
  Py.str_in (prepare phrase) t = true →
  is_Some (first_role prepare t d).
Proof.
  intros Hd Hp Hin. induction d as [|[r ps] d IH]; [by apply elem_of_nil in Hd|].
  cbn [first_role]. destruct (existsb _ ps) eqn:E; [done|].
  apply elem_of_cons in Hd as [[= -> ->]|Hd]; [|by apply IH].
  assert (existsb (λ phrase, Py.str_in (prepare phrase) t) ps = true) as E'.
  { apply existsb_exists. exists phrase. split; [|done].
    by apply list_elem_of_In. }
  congruence.
Qed.

(** X16. The non-technical table comes first for all of its phrases:
    when a phrase of that table, stripped as the code strips it, occurs in
    the description in any letter case, the role is one of the nine
    non-technical roles, whatever else the description holds. *)
Theorem non_tech_precedence (job_description role phrase : string)
    (phrases : list string) :
  (role, phrases) ∈ exact_phrases_non_tech → phrase ∈ phrases →
  Py.str_in (Py.strip phrase) (Py.lower job_description) = true →
  detect_job_role (PyStr job_description) ∈ keys exact_phrases_non_tech.
Proof.
  intros Hd Hp Hin.
  assert (tight (Py.strip phrase) = true) as Ht.
  { pose proof non_tech_phrases_tight as HF. rewrite Forall_forall in HF.
    apply HF, list_elem_of_join. exists phrases. split; [done|].
    apply (list_elem_of_fmap_2 snd _ _ Hd). }
  apply str_in_spec in Hin as (a & b & Hab).
  destruct job_description as [|c t].
  { destruct a; [|done]. destruct (Py.strip phrase); done. }
  destruct (first_role_some Py.strip
              (collapse_spaces (Py.strip (Py.lower (String c t))))
              exact_phrases_non_tech role phrases phrase Hd Hp) as [r Hr].
  { rewrite Hab. by apply tight_kept. }
  by destruct (non_tech_first c t r Hr) as [-> ?].
Qed.

Lemma non_tech_precedence_witness :
  ("Social Media Manager",
   ["social media manager"; "social media specialist"; "smm ";
    "social media marketing"; "social media coordinator";
    "community manager"]) ∈ exact_phrases_non_tech
  ∧ "smm " ∈ ["social media manager"; "social media specialist"; "smm ";
              "social media marketing"; "social media coordinator";
              "community manager"]
  ∧ Py.str_in (Py.strip "smm ")
      (Py.lower "Backend developer (Python, AWS) for our SMM team") = true
  ∧ detect_job_role (PyStr "Backend developer (Python, AWS) for our SMM team")
      ∈ keys exact_phrases_non_tech.
Proof.
  split; [compute_done|]. split; [compute_done|]. split; [by vm_compute|].
  apply (non_tech_precedence _ "Social Media Manager" "smm "
           ["social media manager"; "social media specialist"; "smm ";
            "social media marketing"; "social media coordinator";
            "community manager"]);
    [compute_done|compute_done|by vm_compute].
Defined.

Lemma scored_cases t r ps :
  (scored t (r, ps) = None ∧ keyword_count t ps = 0)
  ∨ (scored t (r, ps) = Some (r, keyword_count t ps) ∧ 0 < keyword_count t ps).
Proof.
  unfold scored, keyword_count.
  destruct (Nat.ltb_spec 0 (length (filter (λ p, Py.str_in p t) ps)));
    [right|left]; split; [done|lia|done|lia].
Qed.

(** The loop of [max]: the result is the start, or the first entry that
    beats the start and everything before it, and that nothing after it
    beats. *)
Lemma best_fold t d b :
  (foldl better b (omap (scored t) d) = b
   ∧ Forall (λ e : string * list string, keyword_count t e.2 ≤ b.2) d)
  ∨ ∃ d1 r ps d2,
      d = d1 ++ (r, ps) :: d2
      ∧ foldl better b (omap (scored t) d) = (r, keyword_count t ps)
      ∧ b.2 < keyword_count t ps
      ∧ Forall (λ e : string * list string,
                  keyword_count t e.2 < keyword_count t ps) d1
      ∧ Forall (λ e : string * list string,
                  keyword_count t e.2 ≤ keyword_count t ps) d2.
Proof.
  revert b. induction d as [|[r ps] d IH]; intros b.
  { left. by split. }
  cbn [omap list_omap].
  destruct (scored_cases t r ps) as [[-> H0]|[-> Hpos]].
  - destruct (IH b) as [[E F]|(d1 & r' & ps' & d2 & -> & E & Hb & F1 & F2)].
    + left. split; [done|]. constructor; [cbn [snd]; lia|done].
    + right. exists ((r, ps) :: d1), r', ps', d2. split_and!; try done.
      constructor; [cbn [snd]; lia|done].
  - cbn [foldl]. unfold better at 2 4. cbn [snd].
    destruct (Nat.ltb_spec b.2 (keyword_count t ps)) as [Hlt|Hge].
    + destruct (IH (r, keyword_count t ps))
        as [[E F]|(d1 & r' & ps' & d2 & -> & E & Hb & F1 & F2)].
      * right. exists [], r, ps, d. split_and!; try done.
      * right. exists ((r, ps) :: d1), r', ps', d2. cbn [snd] in Hb.
        split_and!; try done; [lia|]. constructor; [done|done].
    + destruct (IH b) as [[E F]|(d1 & r' & ps' & d2 & -> & E & Hb & F1 & F2)].
      * left. split; [done|]. constructor; [done|done].
      * right. exists ((r, ps) :: d1), r', ps', d2.
        split_and!; try done. constructor; [cbn [snd]; lia|done].
Qed.

Lemma score_roles_eq t d : score_roles t d = omap (scored t) d.
Proof. done. Qed.

(** X17. The keyword stage of [detect_job_role] is an argmax with the
    first role winning a tie: the role it returns has a keyword in the
    text, more keywords than every role before it in the table, and as
    many at least as every role after it. *)
Theorem keyword_stage_argmax (job_lower role : string)
    (d : dict (list string)) :
  best_role (score_roles job_lower d) = Some role →
  ∃ before patterns after,
    d = before ++ (role, patterns) :: after
    ∧ 0 < keyword_count job_lower patterns
    ∧ Forall (λ e : string * list string,
                keyword_count job_lower e.2 < keyword_count job_lower patterns)
             before
    ∧ Forall (λ e : string * list string,
                keyword_count job_lower e.2 ≤ keyword_count job_lower patterns)
             after.
Proof.
  rewrite score_roles_eq.
  induction d as [|[r ps] d IH]; [done|].
  cbn [omap list_omap].
  destruct (scored_cases job_lower r ps) as [[-> H0]|[-> Hpos]].
  - intros (before & patterns & after & -> & Hp & F1 & F2)%IH.
    exists ((r, ps) :: before), patterns, after. split_and!; try done.
    constructor; [cbn [snd]; lia|done].
  - cbn [best_role]. fold better.
    destruct (best_fold job_lower d (r, keyword_count job_lower ps))
      as [[-> F]|(d1 & r' & ps' & d2 & -> & -> & Hb & F1 & F2)]; intros [= <-].
    + by exists [], ps, d.
    + cbn [snd] in Hb. exists ((r, ps) :: d1), ps', d2.
      split_and!; try done; [lia|]. by constructor.
Qed.

Lemma keyword_stage_argmax_witness :
  best_role (score_roles "docker, kubernetes and a react developer"
               role_patterns) = Some "DevOps Engineer"
  ∧ ∃ before patterns after,
      role_patterns = before ++ ("DevOps Engineer", patterns) :: after
      ∧ 0 < keyword_count "docker, kubernetes and a react developer" patterns
      ∧ Forall (λ e : string * list string,
                  keyword_count "docker, kubernetes and a react developer" e.2
                  < keyword_count "docker, kubernetes and a react developer"
                      patterns) before
      ∧ Forall (λ e : string * list string,
                  keyword_count "docker, kubernetes and a react developer" e.2
                  ≤ keyword_count "docker, kubernetes and a react developer"
                      patterns) after.
Proof.
  split; [by vm_compute|].
  apply (keyword_stage_argmax "docker, kubernetes and a react developer").
  by vm_compute.
Defined.

End Roles.

Section Requirements.

Lemma role_defaults_filled :
  Forall (λ kv : string * list string, bool_decide (kv.2 ≠ []) = true)
         role_defaults.
Proof. compute_done. Qed.

Lemma other_role_no_defaults : dict_get role_defaults "Other Role" = None.
Proof. done. Qed.

(** X18. When [extract_job_requirements] returns nothing: the
    description, stripped, has fewer than 10 characters; or no skill is
    read off it and the role is "Other Role". In the batch page this is
    when the default skills stand in. *)
Theorem requirements_empty (job_description : string) :
  extract_job_requirements job_description = []
  ↔ String.length (Py.strip job_description) < 10
    ∨ (literal_skills job_description = ∅
       ∧ detect_job_role (PyStr job_description) = "Other Role").
Proof.
  unfold extract_job_requirements.
  destruct (Nat.ltb_spec (String.length (Py.strip job_description)) 10)
    as [Hlt|Hge].
  { split; [by left|done]. }
  cbv zeta.
  generalize (detect_job_role (PyStr job_description)) as role.
  generalize (literal_skills job_description) as detected. intros detected role.
  rewrite sorted_list_nil.
  destruct (dict_get role_defaults role) as [defaults|] eqn:Hrole.
  - assert (defaults ≠ []) as Hne.
    { apply dict_get_elem in Hrole. pose proof role_defaults_filled as HF.
      rewrite Forall_forall in HF. apply HF in Hrole.
      by apply bool_decide_eq_true in Hrole. }
    assert (role ≠ "Other Role") as Hother.
    { intros ->. by rewrite other_role_no_defaults in Hrole. }
    split.
    + destruct (Nat.ltb_spec (size detected) 6) as [Hs|Hs].
      * intros HS. destruct defaults as [|x defaults]; [done|].
        exfalso. apply (not_elem_of_empty (C:=gset string) x).
        rewrite <- HS. set_solver.
      * intros ->. rewrite size_empty in Hs. lia.
    + intros [?|[_ ?]]; [lia|done].
  - destruct (str_eqb role "Other Role") eqn:Hr.
    + apply str_eqb_eq in Hr as ->. rewrite andb_false_r.
      split; [by right|]. by intros [?|[? _]]; [lia|].
    + rewrite andb_true_r. case_bool_decide as Hd.
      * split; [set_solver|]. intros [?|[_ ->]]; [lia|done].
      * split; [done|]. by intros [?|[? _]]; [lia|].
Qed.

(** X19. The list of requirements is sorted and has no duplicate, and
    unless the description is shorter than 10 characters it holds every
    skill read off the description: the role defaults are added to them,
    never put in their place. *)
Theorem requirements_sorted (job_description : string) :
  Sorted String.le (extract_job_requirements job_description)
  ∧ NoDup (extract_job_requirements job_description)
  ∧ (String.length (Py.strip job_description) < 10
     ∨ literal_skills job_description
         ⊆ list_to_set (extract_job_requirements job_description)).
Proof.
  unfold extract_job_requirements.
  destruct (Nat.ltb_spec (String.length (Py.strip job_description)) 10)
    as [Hlt|Hge].
  { split_and!; [constructor|constructor|by left]. }
  cbv zeta.
  generalize (detect_job_role (PyStr job_description)) as role.
  generalize (literal_skills job_description) as detected. intros detected role.
  split_and!; [apply sorted_list_Sorted|apply sorted_list_NoDup|].
  right. intros skill Hs. apply elem_of_list_to_set, sorted_list_elem.
  destruct (dict_get role_defaults role) as [defaults|].
  - destruct (_ <? _); set_solver.
  - destruct (_ && _); set_solver.
Qed.

End Requirements.

(** ** The ranking of a batch *)

Section BatchOrder.
Local Open Scope Q_scope.

Lemma extraction_failed_dec file :
  extraction_failed file
  ∨ Py.startswith (extract_text_from_pdf (content file)) "Error" = false.
Proof. unfold extraction_failed. destruct (Py.startswith _ _); auto. Qed.

(** The row of a file whose text was read. *)
Lemma rank_file_readable custom job file :
  Py.startswith (extract_text_from_pdf (content file)) "Error" = false →
  3 <= ats_score (rank_file custom job file) <= 100
  ∧ ats_score (rank_file custom job file) == quality (rank_file custom job file)
  ∧ 0 <= job_match (rank_file custom job file) <= 100
  ∧ (matched_skills (rank_file custom job file)
     ≤ total_skills (rank_file custom job file))%nat.
Proof.
  intros Hok. unfold rank_file. rewrite Hok. cbv zeta.
  pose proof (extract_text_nonempty (content file)) as Hne.
  revert Hne. generalize (extract_text_from_pdf (content file)). intros text Hne.
  set (resume_skills := sorted_list _).
  pose proof (match_pct_range resume_skills (ReqList job)) as Hpct.
  pose proof (matched_sublist resume_skills (ReqList job)) as Hsub.
  destruct (calculate_match resume_skills (ReqList job)) as [[pct matched] missing].
  cbn [fst snd] in Hpct, Hsub.
  pose proof (quality_text_range text resume_skills
                (inject_Z (extract_experience text)) (extract_education text) Hne)
    as Hq.
  destruct (analyze_resume_quality _ _ _ _) as [score issues].
  cbn [fst snd] in Hq.
  cbn [ats_score quality job_match matched_skills total_skills].
  split; [|split; [done|split]].
  - apply (round_n_bounds _ 3 100). rewrite <- !Zle_Qle. lia.
  - by apply (round_n_bounds _ 0 100).
  - by apply sublist_length.
Qed.

(** The three ways in which a file cannot be read all give a sentinel,
    a text that starts with "Error". *)
Lemma unread_is_error (pdf_file : pdf) :
  could_not_be_read pdf_file →
  Py.startswith (extract_text_from_pdf pdf_file) "Error" = true.
Proof.
  destruct pdf_file as [e|[|p pages]]; [done|done|].
  unfold could_not_be_read, pages_text, extract_text_from_pdf.
  by intros ->.
Qed.

(** X20. A row of the batch table: the ATS score is the quality score,
    between 0 and 100; the job match lies between 0 and 100; the matched
    skills are counted among the resume skills. The ATS score is 0 exactly
    when the text of the file starts with "Error", and the row is then the
    zero row; it is 3 at least otherwise. Every file that could not be
    read has such a text, and so has a readable file whose text happens to
    start with "Error". *)
Theorem rank_file_row (custom_skills job_skills_batch : list string)
    (file : upload) :
  0 <= ats_score (rank_file custom_skills job_skills_batch file) <= 100
  ∧ ats_score (rank_file custom_skills job_skills_batch file)
    == quality (rank_file custom_skills job_skills_batch file)
  ∧ 0 <= job_match (rank_file custom_skills job_skills_batch file) <= 100
  ∧ (matched_skills (rank_file custom_skills job_skills_batch file)
     ≤ total_skills (rank_file custom_skills job_skills_batch file))%nat
  ∧ (Py.startswith (extract_text_from_pdf (content file)) "Error" = true
     ↔ ats_score (rank_file custom_skills job_skills_batch file) == 0)
  ∧ (Py.startswith (extract_text_from_pdf (content file)) "Error" = true
     ↔ rank_file custom_skills job_skills_batch file = zero_row file)
  ∧ (Py.startswith (extract_text_from_pdf (content file)) "Error" = true
     ∨ 3 <= ats_score (rank_file custom_skills job_skills_batch file))
  ∧ (could_not_be_read (content file) →
     rank_file custom_skills job_skills_batch file = zero_row file).
Proof.
  assert (could_not_be_read (content file) →
          rank_file custom_skills job_skills_batch file = zero_row file)
    as Hunread.
  { intros H%unread_is_error. by apply rank_file_failed. }
  destruct (extraction_failed_dec file) as [Hf|Hok].
  - rewrite rank_file_failed by done. unfold extraction_failed in Hf.
    rewrite Hf. cbn.
    split; [done|]. split; [done|]. split; [done|]. split; [lia|].
    split; [done|]. split; [done|]. split; [by left|done].
  - destruct (rank_file_readable custom_skills job_skills_batch file Hok)
      as ((H1 & H2) & H3 & (H4 & H4') & H5).
    rewrite Hok.
    split; [split; [clear -H1; lra|done]|]. split; [done|].
    split; [done|]. split; [done|].
    split; [split; [done|]; clear -H1; intros E; lra|].
    split; [|split; [by right|done]].
    split; [done|]. intros E. rewrite E in H1. cbn in H1. clear -H1. lra.
Qed.

Lemma rank_file_row_witness :
  ¬ could_not_be_read (Pages [Some "Error budgets, SRE and Python"])
  ∧ Py.startswith
      (extract_text_from_pdf (Pages [Some "Error budgets, SRE and Python"]))
      "Error" = true
  ∧ rank_file ["Python"] ["Python"; "SQL"]
      (Upload "e.pdf" (Pages [Some "Error budgets, SRE and Python"]))
    = zero_row (Upload "e.pdf" (Pages [Some "Error budgets, SRE and Python"])).
Proof.
  split; [by vm_compute|]. split; [by vm_compute|].
  destruct (rank_file_row ["Python"] ["Python"; "SQL"]
              (Upload "e.pdf" (Pages [Some "Error budgets, SRE and Python"])))
    as (_ & _ & _ & _ & _ & [H _] & _).
  apply H. by vm_compute.
Defined.

Lemma ranks_before_total : Total ranks_before.
Proof.
  intros r1 r2. unfold ranks_before. rewrite !Qle_bool_iff.
  destruct (Qlt_le_dec (ats_score r1) (ats_score r2)); [right|left]; lra.
Qed.

Lemma ranks_before_trans : Transitive ranks_before.
Proof.
  intros r1 r2 r3. unfold ranks_before. rewrite !Qle_bool_iff. lra.
Qed.

Lemma ranking_data_rows files jd custom :
  ranking_data files jd custom = batch_row jd custom <$> files.
Proof. done. Qed.

(** The rows of a sorted table are those of the files in some order. *)
Lemma sorted_rows_of_files (g : upload → row) (files : list upload) :
  ∃ sorted_files,
    sorted_files ≡ₚ files
    ∧ merge_sort ranks_before (g <$> files) = g <$> sorted_files.
Proof.
  pose proof (merge_sort_Permutation ranks_before (g <$> files)) as HP.
  apply Permutation_map_inv in HP as (l & E & HP).
  exists l. split; [by symmetry|done].
Qed.

(** In a ranking, the first file whose text starts with "Error" has only
    such files after it. *)
Lemma errors_last custom job (files : list upload) :
  StronglySorted ranks_before (rank_file custom job <$> files) →
  ∃ good bad,
    files = good ++ bad
    ∧ Forall (λ f, Py.startswith (extract_text_from_pdf (content f)) "Error"
                   = false) good
    ∧ Forall (λ f, Py.startswith (extract_text_from_pdf (content f)) "Error"
                   = true) bad.
Proof.
  induction files as [|f files IH]; intros HS.
  { exists [], []. by split_and!. }
  cbn [fmap list_fmap] in HS. apply StronglySorted_inv in HS as [HS HF].
  destruct (extraction_failed_dec f) as [Hf|Hok].
  - exists [], (f :: files). split_and!; [done|constructor|].
    constructor; [done|].
    rewrite Forall_fmap, Forall_forall in HF. apply Forall_forall.
    intros f' Hf'. specialize (HF f' Hf'). unfold compose in HF.
    rewrite (rank_file_failed custom job f Hf) in HF.
    unfold ranks_before in HF. apply Qle_bool_iff in HF. cbn in HF.
    destruct (extraction_failed_dec f') as [H'|Hok']; [done|].
    destruct (rank_file_readable custom job f' Hok') as ((H1 & _) & _).
    exfalso. clear -H1 HF. lra.
  - destruct (IH HS) as (good & bad & -> & Hg & Hb).
    exists (f :: good), bad. split_and!; [done| |done]. by constructor.
Qed.

(** X21. The ranking of a batch, for files and a job description that
    are there: the table holds the rows of the files in descending order
    of ATS score, first those of the files whose text does not start with
    "Error", each of 3 points or more, then the zero rows of the files
    whose text starts with "Error". No file of the first block is one
    that could not be read: the unreadable files are all in the last
    block, with the readable files whose text happens to start with
    "Error". *)
Theorem batch_ranking_order (uploaded_files : list upload)
    (job_description custom_skills_input : string) :
  uploaded_files ≠ [] → job_description ≠ EmptyString →
  ∃ good bad : list upload,
    good ++ bad ≡ₚ uploaded_files
    ∧ batch_ranking uploaded_files job_description custom_skills_input
      = Some (batch_row job_description custom_skills_input <$> (good ++ bad))
    ∧ StronglySorted ranks_before
        (batch_row job_description custom_skills_input <$> (good ++ bad))
    ∧ Forall (λ f,
                ¬ could_not_be_read (content f)
                ∧ Py.startswith (extract_text_from_pdf (content f)) "Error"
                  = false
                ∧ 3 <= ats_score
                         (batch_row job_description custom_skills_input f))
             good
    ∧ Forall (λ f,
                Py.startswith (extract_text_from_pdf (content f)) "Error"
                = true
                ∧ batch_row job_description custom_skills_input f
                  = zero_row f)
             bad.
Proof.
  intros Hf Hj. unfold batch_ranking.
  destruct uploaded_files as [|f fs] eqn:Eu; [done|].
  destruct job_description as [|c jd] eqn:Ej; [done|].
  rewrite <- Eu, <- Ej. clear Eu Ej Hf Hj.
  rewrite ranking_data_rows.
  destruct (sorted_rows_of_files
              (batch_row job_description custom_skills_input) uploaded_files)
    as (sorted_files & HP & E).
  assert (StronglySorted ranks_before
            (batch_row job_description custom_skills_input <$> sorted_files))
    as HS.
  { rewrite <- E.
    apply (@Sorted_StronglySorted _ ranks_before ranks_before_trans).
    apply (@Sorted_merge_sort _ ranks_before _ ranks_before_total). }
  destruct (errors_last _ _ sorted_files HS) as (good & bad & -> & Hg & Hb).
  exists good, bad. split; [done|]. split; [by rewrite E|]. split; [done|].
  split.
  - eapply Forall_impl; [exact Hg|]. cbn. intros file Hok. split_and!.
    + intros H%unread_is_error. congruence.
    + done.
    + unfold batch_row.
      match goal with |- context [rank_file ?cs ?js file] =>
        by destruct (rank_file_readable cs js file Hok) as ((? & _) & _) end.
  - eapply Forall_impl; [exact Hb|]. cbn. intros file Hfail.
    split; [done|]. by apply rank_file_failed.
Qed.

Lemma batch_ranking_order_witness :
  [Upload "x.pdf" (Pages []);
   Upload "y.pdf" (Pages [Some "Senior Python developer"; None])] ≠ []
  ∧ "Looking for a data analyst with SQL" ≠ EmptyString
  ∧ ∃ good bad : list upload,
      good ++ bad
        ≡ₚ [Upload "x.pdf" (Pages []);
            Upload "y.pdf" (Pages [Some "Senior Python developer"; None])]
      ∧ batch_ranking
          [Upload "x.pdf" (Pages []);
           Upload "y.pdf" (Pages [Some "Senior Python developer"; None])]
          "Looking for a data analyst with SQL" "Python, SQL"
        = Some (batch_row "Looking for a data analyst with SQL" "Python, SQL"
                  <$> (good ++ bad))
      ∧ StronglySorted ranks_before
          (batch_row "Looking for a data analyst with SQL" "Python, SQL"
             <$> (good ++ bad))
      ∧ Forall (λ f,
                  ¬ could_not_be_read (content f)
                  ∧ Py.startswith (extract_text_from_pdf (content f)) "Error"
                    = false
                  ∧ 3 <= ats_score
                           (batch_row "Looking for a data analyst with SQL"
                              "Python, SQL" f))
               good
      ∧ Forall (λ f,
                  Py.startswith (extract_text_from_pdf (content f)) "Error"
                  = true
                  ∧ batch_row "Looking for a data analyst with SQL"
                      "Python, SQL" f
                    = zero_row f)
               bad.
Proof.
  split; [discriminate|]. split; [discriminate|].
  apply batch_ranking_order; discriminate.
Defined.

End BatchOrder.

(** ** Keyword density *)

Section Density.

Lemma count_go_pos p s :
  p ≠ EmptyString → 0 < Py.count_go p 0 s ↔ Py.str_in p s = true.
Proof.
  intros Hp. induction s as [|c s IH]; cbn [Py.count_go Py.str_in].
  - destruct p; [done|]. cbn. split; [lia|done].
  - destruct (String.prefix p (String c s)); cbn [orb]; [split; [done|lia]|].
    done.
Qed.

(** A string is counted at least once exactly when it occurs. *)
Lemma count_any_pos s p : 0 < count_any s p ↔ Py.str_in p s = true.
Proof.
  destruct p as [|c p].
  - cbn [count_any]. split; [intros _|lia]. apply str_in_spec.
    by exists EmptyString, s.
  - by apply count_go_pos.
Qed.

Lemma sum_list_pos (l : list nat) : 0 < sum_list l ↔ Exists (λ n, 0 < n) l.
Proof.
  induction l as [|n l IH]; cbn [sum_list].
  - split; [lia|by intros ?%Exists_nil].
  - rewrite Exists_cons, <- IH. unfold id. lia.
Qed.

Lemma occurrences_pos text_lower skill :
  0 < occurrences text_lower skill ↔ group_occurs text_lower skill = true.
Proof.
  unfold occurrences, group_occurs. cbv zeta.
  pose proof (norm_in_group skill) as Hn.
  revert Hn. generalize (expand_skill_with_aliases skill) as group.
  generalize (normalize_skill skill) as sn. intros sn group Hn.
  rewrite existsb_exists. split.
  - intros H.
    assert (0 < count_any text_lower sn
            ∨ 0 < sum_list ((λ a, count_any text_lower a)
                  <$> filter (λ a, negb (str_eqb a sn)) group)) as [H1|H2]
      by lia.
    + exists sn. split; [by apply list_elem_of_In|by apply count_any_pos].
    + apply sum_list_pos, Exists_exists in H2 as (n & Hin & Hpos).
      apply list_elem_of_fmap in Hin as (a & -> & Ha).
      apply list_elem_of_filter in Ha as [_ Ha].
      exists a. split; [by apply list_elem_of_In|by apply count_any_pos].
  - intros (a & Ha%list_elem_of_In & Hin).
    destruct (str_eqb a sn) eqn:E.
    + apply str_eqb_eq in E as ->. apply count_any_pos in Hin. lia.
    + assert (0 < sum_list ((λ a, count_any text_lower a)
                  <$> filter (λ a, negb (str_eqb a sn)) group)); [|lia].
      apply sum_list_pos, Exists_exists. exists (count_any text_lower a).
      split; [|by apply count_any_pos].
      apply list_elem_of_fmap_2, list_elem_of_filter. split; [|done].
      by rewrite E.
Qed.

Lemma tally_fold text_lower job_skills found0 missing0 :
  (foldl (tally text_lower) (found0, missing0) job_skills).1.*1
  = found0.*1 ++ filter (λ s, group_occurs text_lower s) job_skills
  ∧ (foldl (tally text_lower) (found0, missing0) job_skills).2
    = missing0 ++ filter (λ s, negb (group_occurs text_lower s)) job_skills
  ∧ (Forall (λ e : string * nat, 0 < e.2) found0 →
     Forall (λ e : string * nat, 0 < e.2)
            (foldl (tally text_lower) (found0, missing0) job_skills).1).
Proof.
  revert found0 missing0.
  induction job_skills as [|s l IH]; intros found0 missing0.
  { cbn [foldl fst snd]. rewrite filter_nil, !List.app_nil_r. done. }
  cbn [foldl]. unfold tally at 2 4 6.
  pose proof (occurrences_pos text_lower s) as Hpos.
  rewrite !filter_cons.
  destruct (Nat.ltb_spec 0 (occurrences text_lower s)) as [Hlt|Hge].
  - apply Hpos in Hlt as Hg. rewrite Hg. cbn [negb].
    destruct (IH (found0 ++ [(s, occurrences text_lower s)]) missing0)
      as (E1 & E2 & E3).
    rewrite decide_True by done. rewrite decide_False by (by intros []).
    split_and!.
    + rewrite E1, fmap_app. cbn [fmap list_fmap fst].
      by rewrite <- List.app_assoc.
    + done.
    + intros HF. apply E3, Forall_app. split; [done|]. by constructor.
  - assert (group_occurs text_lower s = false) as Hg.
    { destruct (group_occurs text_lower s); [|done].
      destruct Hpos as [_ Hpos]. specialize (Hpos eq_refl). lia. }
    rewrite Hg. cbn [negb].
    destruct (IH found0 (missing0 ++ [s])) as (E1 & E2 & E3).
    rewrite decide_False by (by intros []). rewrite decide_True by done.
    split_and!; [done| |done].
    rewrite E2. by rewrite <- List.app_assoc.
Qed.

(** The two lists of the density of a text that is not empty. *)
Lemma density_lists (resume_text : string) (job_skills : list string) :
  resume_text ≠ EmptyString →
  (found (get_keyword_density resume_text job_skills)).*1
  = filter (λ s, group_occurs (Py.lower resume_text) s) job_skills
  ∧ missing (get_keyword_density resume_text job_skills)
    = filter (λ s, negb (group_occurs (Py.lower resume_text) s)) job_skills
  ∧ Forall (λ e : string * nat, 0 < e.2)
           (found (get_keyword_density resume_text job_skills)).
Proof.
  intros Ht. destruct resume_text as [|c t]; [done|].
  destruct job_skills as [|s l].
  { cbn. split_and!; done. }
  unfold get_keyword_density.
  generalize (Py.lower (String c t)) as text_lower. intros text_lower.
  generalize (s :: l) as job_skills. intros job_skills.
  destruct (tally_fold text_lower job_skills [] []) as (E1 & E2 & E3).
  destruct (foldl (tally text_lower) ([], []) job_skills) as [fnd mis].
  cbn [fst snd fmap list_fmap app] in E1, E2, E3. cbn [found missing].
  split_and!; [done|done|by apply E3].
Qed.

Lemma density_score_range (resume_text : string) (job_skills : list string) :
  (0 <= score_pct (get_keyword_density resume_text job_skills) <= 100)%Q.
Proof.
  destruct resume_text as [|c t]; [by destruct job_skills|].
  destruct job_skills as [|s l]; [done|].
  pose proof (density_lists (String c t) (s :: l) ltac:(done)) as (E1 & _ & _).
  revert E1. unfold get_keyword_density.
  generalize (Py.lower (String c t)) as text_lower. intros text_lower.
  assert (0 < length (s :: l)) as Hpos by (cbn [length]; lia).
  revert Hpos. generalize (s :: l) as job_skills. intros job_skills Hpos.
  destruct (foldl (tally text_lower) ([], []) job_skills) as [fnd mis].
  cbn [found score_pct]. intros E1.
  apply (round_n_bounds _ 0 100).
  assert (length fnd ≤ length job_skills) as Hlen.
  { rewrite <- (length_fmap fst fnd), E1. apply length_filter. }
  by apply ratio_bounds.
Qed.

(** X22. On a text that is not empty, [get_keyword_density] splits the
    job skills in two, order and duplicates kept: found are the skills one
    of whose alias-group strings occurs in the lower-cased text, each with
    a positive count, missing are the others; the score lies between 0
    and 100. *)
Theorem keyword_density_partition (resume_text : string)
    (job_skills : list string) :
  resume_text ≠ EmptyString →
  (found (get_keyword_density resume_text job_skills)).*1
  = filter (λ s, group_occurs (Py.lower resume_text) s) job_skills
  ∧ missing (get_keyword_density resume_text job_skills)
    = filter (λ s, negb (group_occurs (Py.lower resume_text) s)) job_skills
  ∧ Forall (λ e : string * nat, 0 < e.2)
           (found (get_keyword_density resume_text job_skills))
  ∧ (0 <= score_pct (get_keyword_density resume_text job_skills) <= 100)%Q.
Proof.
  intros Ht. destruct (density_lists resume_text job_skills Ht) as (E1 & E2 & E3).
  split; [done|]. split; [done|]. split; [done|]. apply density_score_range.
Qed.

Lemma keyword_density_partition_witness :
  "Python and JS, python3" ≠ EmptyString
  ∧ (found (get_keyword_density "Python and JS, python3"
              ["Python"; "JavaScript"; "Go"])).*1
    = filter (λ s, group_occurs (Py.lower "Python and JS, python3") s)
             ["Python"; "JavaScript"; "Go"]
  ∧ missing (get_keyword_density "Python and JS, python3"
               ["Python"; "JavaScript"; "Go"])
    = filter (λ s, negb (group_occurs (Py.lower "Python and JS, python3") s))
             ["Python"; "JavaScript"; "Go"]
  ∧ Forall (λ e : string * nat, 0 < e.2)
           (found (get_keyword_density "Python and JS, python3"
                     ["Python"; "JavaScript"; "Go"]))
  ∧ (0 <= score_pct (get_keyword_density "Python and JS, python3"
                       ["Python"; "JavaScript"; "Go"]) <= 100)%Q.
Proof.
  split; [done|].
  apply (keyword_density_partition "Python and JS, python3"). done.
Defined.

(** X23. Whatever [extract_skills] reports from a text and the job
    skills, [get_keyword_density] finds in the same text: the density
    counts plain occurrences, which every test of the extraction
    implies. *)
Theorem keyword_density_covers_extraction (resume_text : string)
    (job_skills : list string) :
  extract_skills (PyStr resume_text) (Some job_skills)
  ⊆ (found (get_keyword_density resume_text job_skills)).*1.
Proof.
  intros skill H. destruct (decide (resume_text = EmptyString)) as [->|Ht].
  { by apply elem_of_nil in H. }
  apply extract_skills_spec in H as [Hin Hhit]; [|done].
  destruct (density_lists resume_text job_skills Ht) as (-> & _).
  apply list_elem_of_filter. split; [|done].
  apply Is_true_true. unfold group_occurs. apply existsb_exists.
  destruct Hhit as [Hd|(a & Ha & Hs)].
  - exists (normalize_skill skill). split; [|done].
    apply list_elem_of_In, norm_in_group.
  - exists a. split; [|by apply token_start_str_in].
    apply list_elem_of_In. by rewrite <- expand_normalized.
Qed.

End Density.

(** ** Career paths, interview readiness and tailoring *)

Section Career.

Lemma any_in_false (R : gset string) l :
  any_in R l = false ↔ Forall (λ s, s ∉ R) l.
Proof.
  unfold any_in. induction l as [|s l IH]; cbn [existsb].
  - split; [constructor|done].
  - rewrite Forall_cons, orb_false_iff, IH, bool_decide_eq_false. done.
Qed.

Lemma no_cluster (R : gset string) :
  Forall (λ s, s ∉ R) cluster_skills
  ↔ any_in R ["python"; "java"; "javascript"; "node.js"] = false
    ∧ any_in R ["aws"; "azure"; "docker"; "kubernetes"] = false
    ∧ any_in R ["machine learning"; "deep learning"; "python"] = false.
Proof.
  rewrite !any_in_false. unfold cluster_skills.
  rewrite !Forall_cons, !Forall_nil. tauto.
Qed.

(** X24. [get_career_progression_path] returns one to three paths, so
    the slice [paths[:3]] never cuts; the only path is "Senior Specialist"
    exactly when the resume holds none of the ten cluster skills; and a
    resume with Python gets two paths at least, the developer one and the
    machine-learning one. *)
Theorem career_paths (experience_years : experience_arg)
    (resume_skills : list string) :
  1 ≤ length (get_career_progression_path experience_years resume_skills) ≤ 3
  ∧ (get_career_progression_path experience_years resume_skills
     = [senior_specialist]
     ↔ Forall (λ s, s ∉ norm_set resume_skills) cluster_skills)
  ∧ ("python" ∉ norm_set resume_skills
     ∨ 2 ≤ length (get_career_progression_path experience_years resume_skills)).
Proof.
  rewrite no_cluster. unfold get_career_progression_path. cbv zeta.
  generalize (experience_value experience_years) as exp.
  generalize (norm_set resume_skills) as R. intros R exp.
  assert ("python" ∈ R →
          any_in R ["python"; "java"; "javascript"; "node.js"] = true
          ∧ any_in R ["machine learning"; "deep learning"; "python"] = true)
    as Hpy.
  { intros H. unfold any_in. cbn [existsb].
    rewrite (bool_decide_eq_true_2 _ H). by rewrite !orb_true_r. }
  destruct (decide ("python" ∈ R)) as [Hin|Hout].
  - destruct (Hpy Hin) as [-> ->].
    destruct (any_in R ["aws"; "azure"; "docker"; "kubernetes"]);
      destruct (exp <? 2)%Z, (exp <? 5)%Z, (exp <? 3)%Z;
      cbn [app take length]; unfold senior_specialist;
      (split; [lia|]); (split; [split; [done|by intros (? & ? & ?)]|]);
      right; lia.
  - clear Hpy.
    destruct (any_in R ["python"; "java"; "javascript"; "node.js"]),
             (any_in R ["aws"; "azure"; "docker"; "kubernetes"]),
             (any_in R ["machine learning"; "deep learning"; "python"]);
      destruct (exp <? 2)%Z, (exp <? 5)%Z, (exp <? 3)%Z;
      cbn [app take length]; unfold senior_specialist;
      (split; [lia|]); (split; [split; [done|by intros (? & ? & ?)]|]);
      by left.
Qed.

End Career.

Section Readiness.
Local Open Scope Z_scope.

Ltac readiness_case :=
  lazymatch goal with
  | |- _ ∧ _ => split; readiness_case
  | |- _ ↔ _ => split; intros; readiness_case
  | |- _ ∨ _ => first [left; lia | right; readiness_case]
  | |- (_ <= _)%Q =>
      first [ by apply Qle_bool_iff
            | match goal with
              | H : Qle_bool 90 ?pct = true |- _ =>
                  apply Qle_bool_iff in H; by apply (Qle_trans _ 90)
              end
            | done ]
  | |- _ => first [done | lia]
  end.

(** X25. The readiness score lies between 10 and 100, so [min(100, .)]
    never cuts; there are three strengths and two concerns at most, and
    one remark at least; the level is "Excellent" exactly from 85 on,
    which takes two years of experience and a match of 70 percent. *)
Theorem interview_readiness_bounds (resume_skills : list string)
    (job_requirements : requirements) (experience : Z) (education : string) :
  10 ≤ score (get_interview_readiness_score resume_skills job_requirements
                experience education) ≤ 100
  ∧ (length (strengths (get_interview_readiness_score resume_skills
                          job_requirements experience education)) ≤ 3)%nat
  ∧ (length (concerns (get_interview_readiness_score resume_skills
                         job_requirements experience education)) ≤ 2)%nat
  ∧ (1 ≤ length (strengths (get_interview_readiness_score resume_skills
                              job_requirements experience education))
         + length (concerns (get_interview_readiness_score resume_skills
                               job_requirements experience education)))%nat
  ∧ (readiness_level (get_interview_readiness_score resume_skills
                        job_requirements experience education) = "Excellent"
     ↔ 85 ≤ score (get_interview_readiness_score resume_skills
                     job_requirements experience education))
  ∧ (score (get_interview_readiness_score resume_skills job_requirements
              experience education) < 85
     ∨ (2 ≤ experience
        ∧ (70 <= (calculate_match resume_skills job_requirements).1.1)%Q)).
Proof.
  unfold get_interview_readiness_score.
  destruct (calculate_match resume_skills job_requirements) as [[pct m] mi].
  cbn [fst snd]. cbv zeta.
  generalize (length (filter (λ s, mem s TECHNICAL_SKILLS) resume_skills)) as n.
  intros n.
  destruct (Z.leb_spec 5 experience), (Z.leb_spec 2 experience),
           (Z.leb_spec 1 experience); try lia;
    destruct (Qle_bool 90 pct) eqn:E90, (Qle_bool 70 pct) eqn:E70,
             (Qle_bool 50 pct) eqn:E50;
    destruct (mem education ["Master"; "PhD"]), (str_eqb education "Bachelor");
    destruct (10 <=? n)%nat, (5 <=? n)%nat;
    cbn [score strengths concerns readiness_level app take length Z.add
         Z.min Z.leb Z.compare Pos.compare Pos.compare_cont Pos.add Pos.succ
         Pos.add_carry Z.ltb];
    readiness_case.
Qed.

(** X26. More experience never lowers the readiness score. *)
Theorem interview_readiness_monotone (resume_skills : list string)
    (job_requirements : requirements) (experience experience' : Z)
    (education : string) :
  experience ≤ experience' →
  score (get_interview_readiness_score resume_skills job_requirements
           experience education)
  ≤ score (get_interview_readiness_score resume_skills job_requirements
             experience' education).
Proof.
  intros Hle. unfold get_interview_readiness_score.
  destruct (calculate_match resume_skills job_requirements) as [[pct m] mi].
  cbv zeta.
  generalize (length (filter (λ s, mem s TECHNICAL_SKILLS) resume_skills)) as n.
  intros n.
  destruct (Z.leb_spec 5 experience), (Z.leb_spec 2 experience),
           (Z.leb_spec 1 experience); try lia;
    destruct (Z.leb_spec 5 experience'), (Z.leb_spec 2 experience'),
             (Z.leb_spec 1 experience'); try lia;
    destruct (Qle_bool 90 pct), (Qle_bool 70 pct), (Qle_bool 50 pct);
    destruct (mem education ["Master"; "PhD"]), (str_eqb education "Bachelor");
    destruct (10 <=? n)%nat, (5 <=? n)%nat;
    cbn [score Z.add Z.min Z.leb Z.compare Pos.compare Pos.compare_cont
         Pos.add Pos.succ Pos.add_carry]; lia.
Qed.

Lemma interview_readiness_monotone_witness :
  1 ≤ 6
  ∧ score (get_interview_readiness_score ["Python"; "SQL"]
             (ReqList ["Python"; "SQL"; "Go"]) 1 "Master")
    ≤ score (get_interview_readiness_score ["Python"; "SQL"]
               (ReqList ["Python"; "SQL"; "Go"]) 6 "Master").
Proof.
  split; [lia|].
  apply (interview_readiness_monotone ["Python"; "SQL"]
           (ReqList ["Python"; "SQL"; "Go"]) 1 6 "Master").
  lia.
Defined.

End Readiness.

Section Tailoring.

Lemma head_differs c1 s1 c2 s2 x y :
  c1 ≠ c2 → String c1 s1 +:+ x ≠ String c2 s2 +:+ y.
Proof. rewrite !app_cons. congruence. Qed.

(** X27. [get_tailoring_phrases] gives two phrases for each of the first
    five missing skills, then the phrase on the role, and keeps eight: the
    list ends with the phrase on the role exactly when three skills at
    most are missing; from four on the slice [phrases[:8]] drops it. *)
Theorem tailoring_role_phrase (missing_skills : list string)
    (job_role : string) :
  length (get_tailoring_phrases missing_skills job_role)
  = 8 `min` (2 * (5 `min` length missing_skills) + 1)
  ∧ (last (get_tailoring_phrases missing_skills job_role)
       = Some (role_phrase job_role)
     ↔ length missing_skills ≤ 3).
Proof.
  unfold get_tailoring_phrases, role_phrase. cbv zeta.
  destruct missing_skills as [|a [|b [|c [|d [|e l]]]]];
    cbn [take fmap list_fmap mjoin list_join app length last Nat.min Nat.mul
         Nat.add];
    (split; [done|]);
    (split; [first [lia|intros _; done | idtac]|first [done|lia]]).
  all: intros [= H]; by apply head_differs in H.
Qed.

End Tailoring.

(** ** Job profiles and skill classes *)

Section Profiles.
Local Open Scope Q_scope.

Lemma closer_eq resume_skills bm bs role p :
  closer resume_skills (bm, bs) (role, p)
  = if negb (Qle_bool (profile_score resume_skills p) bs)
    then (Some role, profile_score resume_skills p) else (bm, bs).
Proof.
  unfold closer, profile_score.
  by destruct (calculate_match _ _) as [[? ?] ?].
Qed.

Lemma closer_fold resume_skills (d : list (string * profile)) bm bs :
  Forall (λ e : string * profile,
            profile_score resume_skills e.2
            <= (foldl (closer resume_skills) (bm, bs) d).2) d
  ∧ bs <= (foldl (closer resume_skills) (bm, bs) d).2
  ∧ (foldl (closer resume_skills) (bm, bs) d = (bm, bs)
     ∨ ∃ role p, (role, p) ∈ d
         ∧ foldl (closer resume_skills) (bm, bs) d
           = (Some role, profile_score resume_skills p)
         ∧ bs < profile_score resume_skills p).
Proof.
  revert bm bs. induction d as [|[role p] d IH]; intros bm bs.
  { cbn [foldl snd]. split_and!; [constructor|lra|by left]. }
  cbn [foldl]. rewrite closer_eq.
  destruct (Qle_bool (profile_score resume_skills p) bs) eqn:E; cbn [negb].
  - apply Qle_bool_iff in E.
    destruct (IH bm bs) as (H1 & H2 & H3). split_and!.
    + constructor; [cbn [snd]; lra|done].
    + done.
    + destruct H3 as [H3|(role' & p' & Hin & H3 & Hlt)]; [by left|right].
      exists role', p'. split; [by right|done].
  - assert (bs < profile_score resume_skills p) as Hlt.
    { apply Qnot_le_lt. intros H. apply Qle_bool_iff in H. congruence. }
    destruct (IH (Some role) (profile_score resume_skills p)) as (H1 & H2 & H3).
    split_and!.
    + constructor; [done|done].
    + lra.
    + right. destruct H3 as [H3|(role' & p' & Hin & H3 & Hlt')].
      * exists role, p. split; [left|done].
      * exists role', p'. split; [by right|]. split; [done|lra].
Qed.

Lemma profile_names_filled :
  Forall (λ e : string * profile, bool_decide (e.1 ≠ EmptyString) = true)
         JOB_PROFILES.
Proof. compute_done. Qed.

(** X28. [match_job_profile] returns the best score, which no profile
    exceeds, with a role that reaches it; or "Unclassified Role" and 0
    when no profile scores above 0. *)
Theorem match_job_profile_best (resume_skills : list string) :
  Forall (λ e : string * profile,
            profile_score resume_skills e.2
            <= (match_job_profile resume_skills).2) JOB_PROFILES
  ∧ ((match_job_profile resume_skills = ("Unclassified Role"%string, 0)
      ∧ Forall (λ e : string * profile,
                  profile_score resume_skills e.2 == 0) JOB_PROFILES)
     ∨ ∃ p, ((match_job_profile resume_skills).1, p) ∈ JOB_PROFILES
            ∧ (match_job_profile resume_skills).2
              = profile_score resume_skills p
            ∧ 0 < (match_job_profile resume_skills).2).
Proof.
  unfold match_job_profile.
  destruct (closer_fold resume_skills JOB_PROFILES None 0) as (H1 & H2 & H3).
  destruct (foldl (closer resume_skills) (None, 0) JOB_PROFILES) as [bm bs].
  cbn [fst snd] in *. split; [done|].
  destruct H3 as [[= -> ->]|(role & p & Hin & [= -> ->] & Hlt)].
  - left. split; [done|]. eapply Forall_impl; [exact H1|].
    intros [role p] Hle. cbn [snd] in *.
    pose proof (match_pct_range resume_skills
                  (ReqList (critical p ++ required p))) as [Hp _].
    fold (profile_score resume_skills p) in Hp. lra.
  - right. exists p.
    assert (role ≠ EmptyString) as Hne.
    { pose proof profile_names_filled as HF. rewrite Forall_forall in HF.
      apply HF in Hin. by apply bool_decide_eq_true in Hin. }
    destruct role as [|c role]; [done|]. done.
Qed.

End Profiles.

Section Categories.

Lemma norm_to_name_snoc table k :
  norm_to_name (table ++ [k]) = <[normalize_skill k := k]> (norm_to_name table).
Proof. unfold norm_to_name. by rewrite foldl_app. Qed.

Lemma norm_to_name_lookup table sn k :
  NoDup (normalize_skill <$> table) →
  norm_to_name table !! sn = Some k ↔ k ∈ table ∧ normalize_skill k = sn.
Proof.
  induction table as [|k' table IH] using rev_ind.
  { intros _. unfold norm_to_name. cbn [foldl]. rewrite lookup_empty.
    split; [done|]. by intros [?%elem_of_nil _]. }
  rewrite fmap_app, NoDup_app. cbn [fmap list_fmap].
  intros (Hnd & Hdis & _). rewrite norm_to_name_snoc.
  destruct (decide (normalize_skill k' = sn)) as [<-|Hne].
  - rewrite lookup_insert_eq. split.
    + intros [= ->]. split; [|done]. apply elem_of_app. right. left.
    + intros [[Hin| ->%list_elem_of_singleton]%elem_of_app Heq]; [|done].
      exfalso. apply (Hdis (normalize_skill k')); [|left].
      rewrite <- Heq. by apply list_elem_of_fmap_2.
  - rewrite lookup_insert_ne by done. rewrite IH by done.
    rewrite elem_of_app, list_elem_of_singleton. split.
    + intros [? ?]. split; [by left|done].
    + intros [[?| ->] ?]; [done|done].
Qed.

Lemma norm_to_name_none table sn :
  NoDup (normalize_skill <$> table) →
  norm_to_name table !! sn = None
  ↔ ∀ k, k ∈ table → normalize_skill k ≠ sn.
Proof.
  intros Hnd. rewrite eq_None_not_Some. split.
  - intros Hn k Hk Heq. apply Hn. exists k. by apply norm_to_name_lookup.
  - intros Hall [k Hk]. apply norm_to_name_lookup in Hk as [Hk Heq]; [|done].
    by apply (Hall k).
Qed.

(** The three taxonomies share no skill, in normal form, and none of
    them holds one twice. *)
Lemma tables_normal :
  NoDup (normalize_skill <$> TECHNICAL_SKILLS ++ SOFT_SKILLS ++ CREATIVE_SKILLS).
Proof. compute_done. Qed.

Lemma technical_keys_technical :
  Forall (λ k, is_technical_skill k = true) TECHNICAL_SKILLS.
Proof. compute_done. Qed.

Lemma soft_keys_not_technical :
  Forall (λ k, is_technical_skill k = false) SOFT_SKILLS.
Proof. compute_done. Qed.

Lemma file_skill_fold (Tm Sm Cm : gmap string string) skills t0 s0 c0 o0 :
  (∀ x, x ∈ (foldl (file_skill Tm Sm Cm) (t0, s0, c0, o0) skills).1.1.1
        ↔ x ∈ t0 ∨ ∃ skill, skill ∈ skills
            ∧ Tm !! normalize_skill skill = Some x)
  ∧ (∀ x, x ∈ (foldl (file_skill Tm Sm Cm) (t0, s0, c0, o0) skills).1.1.2
          ↔ x ∈ s0 ∨ ∃ skill, skill ∈ skills
              ∧ Tm !! normalize_skill skill = None
              ∧ Sm !! normalize_skill skill = Some x)
  ∧ (∀ x, x ∈ (foldl (file_skill Tm Sm Cm) (t0, s0, c0, o0) skills).1.2
          ↔ x ∈ c0 ∨ ∃ skill, skill ∈ skills
              ∧ Tm !! normalize_skill skill = None
              ∧ Sm !! normalize_skill skill = None
              ∧ Cm !! normalize_skill skill = Some x)
  ∧ (∀ x, x ∈ (foldl (file_skill Tm Sm Cm) (t0, s0, c0, o0) skills).2
          ↔ x ∈ o0 ∨ (x ∈ skills
              ∧ Tm !! normalize_skill x = None
              ∧ Sm !! normalize_skill x = None
              ∧ Cm !! normalize_skill x = None)).
Proof.
  revert t0 s0 c0 o0.
  induction skills as [|skill skills IH]; intros t0 s0 c0 o0.
  { cbn [foldl fst snd]. split_and!; intros x; split; try (by left);
      intros [?|H]; try done.
    - by destruct H as (? & ?%elem_of_nil & _).
    - by destruct H as (? & ?%elem_of_nil & _).
    - by destruct H as (? & ?%elem_of_nil & _).
    - by destruct H as (?%elem_of_nil & _). }
  cbn [foldl]. unfold file_skill at 2 4 6 8. cbv zeta.
  destruct (Tm !! normalize_skill skill) as [tn|] eqn:ET;
    [destruct (IH (t0 ++ [tn]) s0 c0 o0) as (H1 & H2 & H3 & H4)
    |destruct (Sm !! normalize_skill skill) as [sn|] eqn:ES;
      [destruct (IH t0 (s0 ++ [sn]) c0 o0) as (H1 & H2 & H3 & H4)
      |destruct (Cm !! normalize_skill skill) as [cn|] eqn:EC;
        [destruct (IH t0 s0 (c0 ++ [cn]) o0) as (H1 & H2 & H3 & H4)
        |destruct (IH t0 s0 c0 (o0 ++ [skill])) as (H1 & H2 & H3 & H4)]]].
  all: split_and!; intros x;
    [rewrite H1|rewrite H2|rewrite H3|rewrite H4];
    rewrite ?elem_of_app, ?list_elem_of_singleton;
    setoid_rewrite elem_of_cons; naive_solver.
Qed.

(** X29. [categorize_skills] files every skill under one heading by its
    normal form: under technical, soft or creative goes the name that the
    taxonomy gives to a skill of the list, in the spelling of the
    taxonomy; under tools go the skills of the list that no taxonomy
    knows, as they are spelt in the list. The total counts the list,
    duplicates included. What is filed under technical is technical for
    [is_technical_skill], what is filed under soft is not. *)
Theorem categorize_skills_classes (skills : list string) :
  total (categorize_skills skills) = length skills
  ∧ (∀ name, name ∈ technical (categorize_skills skills)
       ↔ name ∈ TECHNICAL_SKILLS
         ∧ ∃ skill, skill ∈ skills
                    ∧ normalize_skill skill = normalize_skill name)
  ∧ (∀ name, name ∈ soft (categorize_skills skills)
       ↔ name ∈ SOFT_SKILLS
         ∧ ∃ skill, skill ∈ skills
                    ∧ normalize_skill skill = normalize_skill name)
  ∧ (∀ name, name ∈ creative (categorize_skills skills)
       ↔ name ∈ CREATIVE_SKILLS
         ∧ ∃ skill, skill ∈ skills
                    ∧ normalize_skill skill = normalize_skill name)
  ∧ (∀ skill, skill ∈ tools (categorize_skills skills)
       ↔ skill ∈ skills
         ∧ Forall (λ name, normalize_skill name ≠ normalize_skill skill)
                  (TECHNICAL_SKILLS ++ SOFT_SKILLS ++ CREATIVE_SKILLS))
  ∧ Forall (λ name, is_technical_skill name = true)
           (technical (categorize_skills skills))
  ∧ Forall (λ name, is_technical_skill name = false)
           (soft (categorize_skills skills)).
Proof.
  assert (total (categorize_skills skills) = length skills
  ∧ (∀ name, name ∈ technical (categorize_skills skills)
       ↔ name ∈ TECHNICAL_SKILLS
         ∧ ∃ skill, skill ∈ skills
                    ∧ normalize_skill skill = normalize_skill name)
  ∧ (∀ name, name ∈ soft (categorize_skills skills)
       ↔ name ∈ SOFT_SKILLS
         ∧ ∃ skill, skill ∈ skills
                    ∧ normalize_skill skill = normalize_skill name)
  ∧ (∀ name, name ∈ creative (categorize_skills skills)
       ↔ name ∈ CREATIVE_SKILLS
         ∧ ∃ skill, skill ∈ skills
                    ∧ normalize_skill skill = normalize_skill name)
  ∧ (∀ skill, skill ∈ tools (categorize_skills skills)
       ↔ skill ∈ skills
         ∧ Forall (λ name, normalize_skill name ≠ normalize_skill skill)
                  (TECHNICAL_SKILLS ++ SOFT_SKILLS ++ CREATIVE_SKILLS)))
    as (H0 & HT & HS & HC & HO).
  2:{ split_and!; try done.
      - apply Forall_forall. intros name [Hn _]%HT.
        pose proof technical_keys_technical as HF.
        rewrite Forall_forall in HF. by apply HF.
      - apply Forall_forall. intros name [Hn _]%HS.
        pose proof soft_keys_not_technical as HF.
        rewrite Forall_forall in HF. by apply HF. }
  unfold categorize_skills. cbv zeta.
  pose proof tables_normal as Hnd.
  rewrite !fmap_app in Hnd.
  apply NoDup_app in Hnd as (HT & HTd & Hnd).
  apply NoDup_app in Hnd as (HS & HSd & HC).
  assert (∀ a b, a ∈ TECHNICAL_SKILLS → b ∈ SOFT_SKILLS ++ CREATIVE_SKILLS →
                 normalize_skill a ≠ normalize_skill b) as HTdis.
  { intros a b Ha Hb Heq. apply (HTd (normalize_skill a)).
    - by apply list_elem_of_fmap_2.
    - rewrite <- fmap_app, Heq. by apply list_elem_of_fmap_2. }
  assert (∀ a b, a ∈ SOFT_SKILLS → b ∈ CREATIVE_SKILLS →
                 normalize_skill a ≠ normalize_skill b) as HSdis.
  { intros a b Ha Hb Heq. apply (HSd (normalize_skill a)).
    - by apply list_elem_of_fmap_2.
    - rewrite Heq. by apply list_elem_of_fmap_2. }
  pose proof (λ sn k, norm_to_name_lookup TECHNICAL_SKILLS sn k HT) as LT.
  pose proof (λ sn k, norm_to_name_lookup SOFT_SKILLS sn k HS) as LS.
  pose proof (λ sn k, norm_to_name_lookup CREATIVE_SKILLS sn k HC) as LC.
  pose proof (λ sn, norm_to_name_none TECHNICAL_SKILLS sn HT) as NT.
  pose proof (λ sn, norm_to_name_none SOFT_SKILLS sn HS) as NS.
  pose proof (λ sn, norm_to_name_none CREATIVE_SKILLS sn HC) as NC.
  revert LT LS LC NT NS NC.
  generalize (norm_to_name TECHNICAL_SKILLS) (norm_to_name SOFT_SKILLS)
             (norm_to_name CREATIVE_SKILLS).
  revert HTdis HSdis. clear.
  generalize TECHNICAL_SKILLS SOFT_SKILLS CREATIVE_SKILLS.
  intros T S C HTdis HSdis Tm Sm Cm LT LS LC NT NS NC.
  destruct (file_skill_fold Tm Sm Cm skills [] [] [] []) as (H1 & H2 & H3 & H4).
  destruct (foldl (file_skill Tm Sm Cm) ([], [], [], []) skills)
    as [[[t s] c] o].
  cbn [fst snd] in H1, H2, H3, H4. cbn [total technical soft creative tools].
  split; [done|].
  split_and!; intros x; rewrite sorted_list_elem, elem_of_list_to_set.
  - rewrite H1. setoid_rewrite LT. split.
    + intros [?%elem_of_nil|(skill & Hs & Hx & Heq)]; [done|]. eauto.
    + intros (Hx & skill & Hs & Heq). right. eauto.
  - rewrite H2. setoid_rewrite LS. setoid_rewrite NT. split.
    + intros [?%elem_of_nil|(skill & Hs & _ & Hx & Heq)]; [done|]. eauto.
    + intros (Hx & skill & Hs & Heq). right. exists skill.
      split_and!; [done| |done|done].
      intros k Hk Hkeq. apply (HTdis k x Hk); [|congruence].
      apply elem_of_app. by left.
  - rewrite H3. setoid_rewrite LC. setoid_rewrite NT. setoid_rewrite NS. split.
    + intros [?%elem_of_nil|(skill & Hs & _ & _ & Hx & Heq)]; [done|]. eauto.
    + intros (Hx & skill & Hs & Heq). right. exists skill.
      split_and!; [done| | |done|done].
      * intros k Hk Hkeq. apply (HTdis k x Hk); [|congruence].
        apply elem_of_app. by right.
      * intros k Hk Hkeq. apply (HSdis k x Hk); [done|congruence].
  - rewrite H4. rewrite NT, NS, NC, Forall_forall. split.
    + intros [?%elem_of_nil|(Hs & N1 & N2 & N3)]; [done|]. split; [done|].
      intros name [?|[?|?]%elem_of_app]%elem_of_app; eauto.
    + intros (Hs & Hall). right. split; [done|].
      split_and!; intros k Hk; apply Hall; rewrite !elem_of_app; auto.
Qed.

End Categories.

(** ** The scores of the analysis page *)

Section AnalysisScores.
Local Open Scope Q_scope.

(** X30. The analysis of one resume: the experience it works with lies
    between 1 and 50 years, the defaults standing in for 0; neither list of
    skills is empty; the ATS score, half quality, a quarter technical
    skills and a quarter experience, lies between 3.125 and 100; and the
    technical skills are counted among the resume skills. *)
Theorem analysis_scores (resume_text : string) (custom_skills : list string)
    (job_description : string) :
  (1 ≤ Analysis.experience
         (Analysis.analyse resume_text custom_skills job_description) ≤ 50)%Z
  ∧ Analysis.resume_skills
      (Analysis.analyse resume_text custom_skills job_description) ≠ []
  ∧ Analysis.job_skills
      (Analysis.analyse resume_text custom_skills job_description) ≠ []
  ∧ 25 # 8 <= Analysis.ats_score
                (Analysis.analyse resume_text custom_skills job_description)
           <= 100
  ∧ (Analysis.technical_skills_count
       (Analysis.analyse resume_text custom_skills job_description)
     ≤ length (Analysis.resume_skills
                 (Analysis.analyse resume_text custom_skills job_description)))%nat.
Proof.
  unfold Analysis.analyse.
  set (skills0 := sorted_list _).
  set (skills := match skills0 with [] => _ | _ => skills0 end).
  set (jobs0 := extract_job_requirements job_description).
  set (jobs := match jobs0 with [] => _ | _ => jobs0 end).
  set (exp0 := extract_experience resume_text).
  set (exp1 := if (exp0 =? 0)%Z then _ else exp0).
  set (exp := if (exp1 =? 0)%Z then 2%Z else exp1).
  assert (1 ≤ exp ≤ 50)%Z as Hexp.
  { pose proof (extract_experience_nonneg resume_text) as H.
    pose proof (extract_experience_capped resume_text) as H'.
    fold exp0 in H, H'.
    subst exp exp1. destruct (Z.eqb_spec exp0 0).
    - repeat destruct (Py.str_in _ _); cbn; lia.
    - destruct (Z.eqb_spec exp0 0); lia. }
  assert (skills ≠ []) as Hs by (subst skills; by destruct skills0).
  assert (jobs ≠ []) as Hj by (subst jobs; by destruct jobs0).
  clearbody exp skills jobs. clear skills0 jobs0 exp0 exp1.
  cbv zeta.
  destruct (calculate_match skills (ReqList jobs)) as [[pct matched] missing].
  pose proof (quality_range resume_text skills (inject_Z exp)
                (extract_education resume_text)) as Hq.
  destruct (analyze_resume_quality _ _ _ _) as [q issues]. cbn [fst] in Hq.
  cbn [Analysis.experience Analysis.resume_skills Analysis.job_skills
       Analysis.ats_score Analysis.technical_skills_count].
  split; [done|]. split; [done|]. split; [done|].
  pose proof (length_filter (λ s, is_technical_skill s) skills) as Hlen.
  set (n := length (filter _ skills)) in *.
  split; [|done].
  assert (0 <= match n with
               | O => 0
               | S _ => qmin 100 ((Z.of_nat n # 1) / 10 * 100)
               end <= 100) as Hsf.
  { destruct n as [|n]; [lra|]. apply qmin_100_range.
    assert (0 <= Z.of_nat (S n) # 1) by (unfold Qle; cbn; lia).
    generalize dependent (Z.of_nat (S n) # 1). clear. intros x Hx.
    apply Qmult_le_0_compat; [|lra]. apply Qle_shift_div_l; lra. }
  revert Hsf. generalize (match n with
               | O => 0
               | S _ => qmin 100 ((Z.of_nat n # 1) / 10 * 100)
               end). intros sf Hsf.
  destruct (Z.eqb_spec exp 0) as [|_]; [lia|].
  assert (25 # 2 <= qmin 100 (inject_Z exp / 8 * 100) <= 100) as Hef.
  { assert (1 <= inject_Z exp) as H1.
    { change 1 with (inject_Z 1). rewrite <- Zle_Qle. lia. }
    generalize dependent (inject_Z exp). clear. intros x Hx.
    assert (25 # 2 <= x / 8 * 100).
    { assert (x / 8 * 100 == x * (25 # 2)) as E by field. rewrite E. lra. }
    unfold qmin. destruct (Qlt_le_dec _ 100); lra. }
  revert Hef. generalize (qmin 100 (inject_Z exp / 8 * 100)). intros ef Hef.
  assert (0 <= inject_Z q <= 100) as Hq'.
  { change 0 with (inject_Z 0). change 100 with (inject_Z 100).
    rewrite <- !Zle_Qle. lia. }
  revert Hq'. generalize (inject_Z q). clear -Hsf Hef. intros x Hx. lra.
Qed.

End AnalysisScores.
